(** * WiFi Speed Analyzer: a shallow embedding of [src/app.js]

    The development follows the class [SpeedTestAnalyzer]: its fields are a
    record, its methods are actions of a state-and-exception monad, and the
    outside world (network, timers, random numbers, the browser's connection
    hints) is an explicit environment argument of each method.

    Modelling conventions.
    - A JavaScript Number is an exact rational or one of the three special
      values (type [number]); binary64 rounding and the sign of zero are not
      modelled there.  Where a statement is about the very number that is
      stored, the expressions are transcribed once more over the primitive
      binary64 numbers (module [Binary64]).
    - The page is a finite map from element ids to elements; looking up an
      absent id yields [null], and touching a property of [null] throws.
      The static nesting of the page (the child of [statusMessage], the
      [.speed-gauge] wrapper of a read-out) is taken for granted.
    - Wall-clock time is an integer number of milliseconds; [Date.now()] and
      [performance.now()] read the same clock, which moves only while a
      method is suspended at an [await].
    - A request that the source races against a timer may never settle.
      A promise that the source awaits without a timer (the body of a
      response in [loadNetworkInfo], [runDownloadTest] and [runUploadTest],
      the request and the body of [getLocalIPFallback]) settles, after some
      time: a run in which such an await stays pending for ever is outside
      the model, and a statement that a method returns is a statement about
      the runs in which these awaits settle.
    - The browser exposes its connection hints, if it has any, as
      [navigator.connection]; an error message is not the name of a property
      that every object inherits.
    - [console.*] calls, CSS classes, timers that only hide a banner and the
      drawing done by Chart.js have no counterpart in the model; what the
      chart is given at each update is recorded.
    - Two fields of the state are there for the statements only: the list
      of banners shown and the list of chart updates. *)

From Stdlib Require Import ZArith QArith Qround Qabs Lia Lqa.
From Stdlib Require PrimFloat SpecFloat FloatOps.
From stdpp Require Import base option list strings gmap pretty.

(** ** JavaScript numbers *)

Module JSNum.

Inductive number : Type :=
| Fin (q : Q)
| PosInf
| NegInf
| NaN.

Definition of_Z (z : Z) : number := Fin (inject_Z z).

Definition Qltb (a b : Q) : bool := negb (Qle_bool b a).

(** The infinity whose sign is that of a comparison with zero; [0 * Infinity]
    and [0 / 0] are [NaN]. *)
Definition signed_inf (c : comparison) : number :=
  match c with
  | Gt => PosInf
  | Lt => NegInf
  | Eq => NaN
  end.

Definition neg (x : number) : number :=
  match x with
  | Fin q => Fin (Qred (- q))
  | PosInf => NegInf
  | NegInf => PosInf
  | NaN => NaN
  end.

Definition add (x y : number) : number :=
  match x, y with
  | NaN, _ | _, NaN => NaN
  | Fin a, Fin b => Fin (Qred (a + b))
  | PosInf, NegInf | NegInf, PosInf => NaN
  | PosInf, _ | _, PosInf => PosInf
  | NegInf, _ | _, NegInf => NegInf
  end.

Definition sub (x y : number) : number := add x (neg y).

Definition mul (x y : number) : number :=
  match x, y with
  | NaN, _ | _, NaN => NaN
  | Fin a, Fin b => Fin (Qred (a * b))
  | Fin a, PosInf | PosInf, Fin a => signed_inf (a ?= 0)%Q
  | Fin a, NegInf | NegInf, Fin a => signed_inf (0 ?= a)%Q
  | PosInf, PosInf | NegInf, NegInf => PosInf
  | PosInf, NegInf | NegInf, PosInf => NegInf
  end.

Definition div (x y : number) : number :=
  match x, y with
  | NaN, _ | _, NaN => NaN
  | Fin a, Fin b =>
      if Qeq_bool b 0 then signed_inf (a ?= 0)%Q else Fin (Qred (a / b))
  | Fin _, (PosInf | NegInf) => Fin 0
  | PosInf, Fin b => if Qle_bool 0 b then PosInf else NegInf
  | NegInf, Fin b => if Qle_bool 0 b then NegInf else PosInf
  | (PosInf | NegInf), (PosInf | NegInf) => NaN
  end.

(** [x < y]; every comparison with [NaN] is false. *)
Definition ltb (x y : number) : bool :=
  match x, y with
  | Fin a, Fin b => Qltb a b
  | Fin _, PosInf | NegInf, Fin _ | NegInf, PosInf => true
  | _, _ => false
  end.

Definition gtb (x y : number) : bool := ltb y x.

(** [x >= y]. *)
Definition geb (x y : number) : bool :=
  match x, y with
  | Fin a, Fin b => Qle_bool b a
  | PosInf, (Fin _ | PosInf | NegInf) | Fin _, NegInf | NegInf, NegInf => true
  | _, _ => false
  end.

(** [Math.round]: the nearest integer, halves going up. *)
Definition round (x : number) : number :=
  match x with
  | Fin q => of_Z (Qfloor (q + (1 # 2)))
  | _ => x
  end.

(** [Math.max] of two arguments. *)
Definition max (x y : number) : number :=
  match x, y with
  | NaN, _ | _, NaN => NaN
  | _, _ => if ltb x y then y else x
  end.

(** Truthiness of a number in a condition: [0] and [NaN] are falsy. *)
Definition truthy (x : number) : bool :=
  match x with
  | Fin q => negb (Qeq_bool q 0)
  | NaN => false
  | _ => true
  end.

Definition is_finite (x : number) : Prop :=
  match x with
  | Fin _ => True
  | _ => False
  end.

(** [array.reduce((a, b) => a + b, 0)]. *)
Definition sum (l : list number) : number := fold_left add l (Fin 0).

(** Decimal digits of the fractional part [r] (with [0 <= r < 1]), at most
    [n] of them, stopping when nothing is left. *)
Fixpoint frac_digits (n : nat) (r : Q) : string :=
  match n with
  | O => ""
  | S n' =>
      if Qeq_bool r 0 then ""
      else
        let d := Qfloor (r * 10) in
        pretty d +:+ frac_digits n' (Qred (r * 10 - inject_Z d))
  end.

(** String conversion as done by a template literal; non-terminating
    expansions are cut after 17 digits. *)
Definition toString (x : number) : string :=
  match x with
  | Fin q =>
      let a := Qabs q in
      let i := Qfloor a in
      let f := frac_digits 17 (Qred (a - inject_Z i)) in
      (if Qltb q 0 then "-" else "") +:+ pretty i +:+
      (if String.eqb f "" then "" else "." +:+ f)
  | PosInf => "Infinity"
  | NegInf => "-Infinity"
  | NaN => "NaN"
  end.

(** [x.toFixed(1)], of the exact number: a tie such as 0.35 goes up, where
    the binary64 number nearest to 0.35 is below the tie. *)
Definition toFixed1 (x : number) : string :=
  match x with
  | Fin q =>
      let n := Qfloor (Qabs q * 10 + (1 # 2)) in
      (if Qltb q 0 then "-" else "") +:+
      pretty (n / 10)%Z +:+ "." +:+ pretty (n mod 10)%Z
  | _ => toString x
  end.

End JSNum.

Export JSNum.

Declare Scope js_scope.
Delimit Scope js_scope with js.
Infix "+" := add : js_scope.
Infix "-" := sub : js_scope.
Infix "*" := mul : js_scope.
Infix "/" := div : js_scope.
Infix "<?" := ltb : js_scope.
Infix ">?" := gtb : js_scope.
Infix ">=?" := geb : js_scope.

(** ** State of a [SpeedTestAnalyzer] *)

(** An element of the page, reduced to the two properties the methods write
    and a later method or the user reads back. *)
Record element : Type := Element {
  textContent : string;
  color : string
}.

(** [this.testData] *)
Record testData_t : Type := TestData {
  download : list number;
  upload : list number;
  timestamps : list string
}.

(** [this.stats] *)
Record stats_t : Type := Stats {
  testsRun : Z;
  totalDownload : number;
  totalUpload : number;
  maxDownload : number;
  maxUpload : number
}.

(** [this.chart.data]: the labels and the two datasets handed to Chart.js. *)
Record chart_t : Type := Chart {
  labels : list string;
  dataset0 : list number;
  dataset1 : list number
}.

(** [this.config], without the endpoint URLs. *)
Record config_t : Type := Config {
  testDuration : Z;
  updateInterval : positive;
  maxDataPoints : nat
}.

Definition default_config : config_t :=
  {| testDuration := 10000; updateInterval := 200; maxDataPoints := 20 |}.

Record analyzer : Type := Analyzer {
  isTestRunning : bool;
  testData : testData_t;
  stats : stats_t;
  chart : chart_t;
  document : gmap string element;
  (** every banner shown by [showStatus], oldest first: message and type *)
  notifications : list (string * string);
  (** what the chart was given at each [chart.update], oldest first *)
  renders : list chart_t;
  (** the wall clock, in milliseconds *)
  clock : Z
}.

Definition set_isTestRunning (b : bool) (s : analyzer) : analyzer :=
  Analyzer b (testData s) (stats s) (chart s) (document s) (notifications s) (renders s)
    (clock s).

Definition set_testData (td : testData_t) (s : analyzer) : analyzer :=
  Analyzer (isTestRunning s) td (stats s) (chart s) (document s) (notifications s)
    (renders s) (clock s).

Definition set_stats (st : stats_t) (s : analyzer) : analyzer :=
  Analyzer (isTestRunning s) (testData s) st (chart s) (document s) (notifications s)
    (renders s) (clock s).

Definition set_document (d : gmap string element) (s : analyzer) : analyzer :=
  Analyzer (isTestRunning s) (testData s) (stats s) (chart s) d (notifications s)
    (renders s) (clock s).

Definition set_notifications (n : list (string * string)) (s : analyzer) : analyzer :=
  Analyzer (isTestRunning s) (testData s) (stats s) (chart s) (document s) n (renders s)
    (clock s).

Definition set_clock (t : Z) (s : analyzer) : analyzer :=
  Analyzer (isTestRunning s) (testData s) (stats s) (chart s) (document s) (notifications s)
    (renders s) t.

(** [this.chart.data] is given new arrays and [this.chart.update()] is
    called. *)
Definition render (c : chart_t) (s : analyzer) : analyzer :=
  Analyzer (isTestRunning s) (testData s) (stats s) c (document s) (notifications s)
    (renders s ++ [c]) (clock s).

Definition empty_testData : testData_t := TestData [] [] [].

(** The fields as the constructor leaves them, on a given page at a given
    instant, once [initializeChart] has created the empty chart. *)
Definition constructed (page : gmap string element) (t0 : Z) : analyzer :=
  {| isTestRunning := false;
     testData := empty_testData;
     stats := Stats 0 (Fin 0) (Fin 0) (Fin 0) (Fin 0);
     chart := Chart [] [] [];
     document := page;
     notifications := [];
     renders := [];
     clock := t0 |}.

(** ** Methods as state transformers that may throw *)

Record error : Type := Error { message : string }.

Inductive outcome (A : Type) : Type :=
| Returned (a : A)
| Thrown (e : error).

Arguments Returned {A} a.
Arguments Thrown {A} e.

Definition M (A : Type) : Type := analyzer -> analyzer * outcome A.

Definition ret {A : Type} (a : A) : M A := fun s => (s, Returned a).

Definition throw {A : Type} (e : error) : M A := fun s => (s, Thrown e).

Definition bind {A B : Type} (m : M A) (k : A -> M B) : M B :=
  fun s =>
    match m s with
    | (s', Returned a) => k a s'
    | (s', Thrown e) => (s', Thrown e)
    end.

Notation "x <- m ;; k" := (bind m (fun x => k))
  (at level 100, m at next level, right associativity).
Notation "m ;; k" := (bind m (fun _ => k))
  (at level 100, right associativity).

(** [try { m } catch (e) { h e }] *)
Definition try_catch {A : Type} (m : M A) (h : error -> M A) : M A :=
  fun s =>
    match m s with
    | (s', Thrown e) => h e s'
    | r => r
    end.

(** [try { m } finally { f }]: [f] always runs, and an exception of [f]
    replaces the outcome of [m]. *)
Definition try_finally {A : Type} (m : M A) (f : M unit) : M A :=
  fun s =>
    let (s', r) := m s in
    match f s' with
    | (s'', Returned _) => (s'', r)
    | (s'', Thrown e) => (s'', Thrown e)
    end.

Definition gets {A : Type} (f : analyzer -> A) : M A := fun s => (s, Returned (f s)).

Definition modify (f : analyzer -> analyzer) : M unit := fun s => (f s, Returned tt).

(** State and outcome of running a method. *)
Definition exec {A : Type} (m : M A) (s : analyzer) : analyzer := fst (m s).

Definition result {A : Type} (m : M A) (s : analyzer) : outcome A := snd (m s).

Definition returns {A : Type} (o : outcome A) : Prop :=
  match o with
  | Returned _ => True
  | Thrown _ => False
  end.

(** A handler of another event (a click) that runs while a method is
    suspended at an [await]: its exception is not the method's. *)
Definition interleaved (m : M unit) : M unit := try_catch m (fun _ => ret tt).

(** *** The page *)

Definition null_error : error := Error "Cannot read properties of null".

(** [document.getElementById(id).textContent = v] *)
Definition set_textContent (id v : string) : M unit :=
  fun s =>
    match document s !! id with
    | Some el => (set_document (<[id := Element v (color el)]> (document s)) s, Returned tt)
    | None => (s, Thrown null_error)
    end.

(** [document.getElementById(id).style.color = c] *)
Definition set_color (id c : string) : M unit :=
  fun s =>
    match document s !! id with
    | Some el => (set_document (<[id := Element (textContent el) c]> (document s)) s, Returned tt)
    | None => (s, Thrown null_error)
    end.

(** Any other use of a property of [document.getElementById(id)]
    ([classList], [disabled], [title], [style.width], ...). *)
Definition touch (id : string) : M unit :=
  fun s =>
    match document s !! id with
    | Some _ => (s, Returned tt)
    | None => (s, Thrown null_error)
    end.

(** [const element = document.getElementById(id); if (element) { element.textContent = v; ... }] *)
Definition set_textContent_if_present (id v : string) : M unit :=
  fun s =>
    match document s !! id with
    | Some el => (set_document (<[id := Element v (color el)]> (document s)) s, Returned tt)
    | None => (s, Returned tt)
    end.

(** [for (const x of l) { f x }] *)
Fixpoint for_each {A : Type} (f : A -> M unit) (l : list A) : M unit :=
  match l with
  | [] => ret tt
  | x :: l' => f x ;; for_each f l'
  end.

(** *** Time and the network *)

(** Time passing while a method is suspended. *)
Definition advance (ms : N) : M unit := modify (fun s => set_clock (clock s + Z.of_N ms) s).

(** [await new Promise(resolve => setTimeout(resolve, ms))]: the timer fires
    [late] milliseconds after its delay. *)
Definition sleep (ms : Z) (late : N) : M unit := advance (Z.to_N ms + late).

(** A promise that settles: after some time it resolves with a value or
    rejects with an error. *)
Inductive promise (A : Type) : Type :=
| Resolves (after : N) (v : A)
| Rejects (after : N) (e : error).

Arguments Resolves {A} after v.
Arguments Rejects {A} after e.

(** [await p] *)
Definition await {A : Type} (p : promise A) : M A :=
  match p with
  | Resolves d v => advance d ;; ret v
  | Rejects d e => advance d ;; throw e
  end.

(** A promise raced against a timer that rejects with [Error(msg)] after
    [timeout] milliseconds; [None] is a promise that never settles. *)
Definition race {A : Type} (p : option (promise A)) (timeout : N) (msg : string) : M A :=
  match p with
  | Some (Resolves d v) =>
      if (d <? timeout)%N then advance d ;; ret v
      else advance timeout ;; throw (Error msg)
  | Some (Rejects d e) =>
      if (d <? timeout)%N then advance d ;; throw e
      else advance timeout ;; throw (Error msg)
  | None => advance timeout ;; throw (Error msg)
  end.

(** [fetchWithTimeout(url, timeout, options)] *)
Definition fetchWithTimeout {A : Type} (request : option (promise A)) (timeout : N) : M A :=
  race request timeout "timeout".

(** An HTTP response: [response.ok], [response.status] and the promise of
    its body ([arrayBuffer()], [text()] or [json()]). *)
Record response (A : Type) : Type := Response {
  ok : bool;
  status : Z;
  body : promise A
}.

Arguments Response {A} ok status body.
Arguments ok {A} r.
Arguments status {A} r.
Arguments body {A} r.

(** What one iteration of a sampling loop meets: the random numbers it draws,
    the fate of its request (the body being a byte count for a download),
    how late the timer of the pause fires, and whether the user presses
    "stop" during that pause. *)
Record probe : Type := Probe {
  random : Q;
  char_random : nat -> Q;
  request : option (promise (response Z));
  timer_late : N;
  stop_pressed : bool
}.

(** What a whole session meets. *)
Record session : Type := Session {
  download_probes : nat -> probe;
  pause_late : N;
  stop_in_pause : bool;
  upload_probes : nat -> probe
}.

(** ** The speed test *)

Section SpeedTest.

Variable cfg : config_t.

(** [new Date(t).toLocaleTimeString()] in the locale of the browser. *)
Variable toLocaleTimeString : Z -> string.

(** [showStatus(message, type)] *)
Definition showStatus (msg type : string) : M unit :=
  set_textContent "statusText" msg ;;
  touch "statusMessage" ;;
  modify (fun s => set_notifications (notifications s ++ [(msg, type)]) s).

(** [showProgressContainer(show)] *)
Definition showProgressContainer (show : bool) : M unit :=
  touch "progressContainer".

(** [updateButtonStates(testing)] *)
Definition updateButtonStates (testing : bool) : M unit :=
  touch "startTest" ;;
  touch "stopTest".

(** [updateProgress(percent, phase)] *)
Definition updateProgress (percent : number) (phase : string) : M unit :=
  touch "progressBar" ;;
  set_textContent "progressPercent" (toString (round percent) +:+ "%") ;;
  set_textContent "currentPhase" phase.

(** [array.shift()]; on an empty array it removes nothing. *)
Definition shift {A : Type} (l : list A) : list A := tail l.

(** The first half of [updateChart]: the eviction. *)
Definition limit_data_points (td : testData_t) : testData_t :=
  if (maxDataPoints cfg <? length (timestamps td))%nat then
    {| timestamps := shift (timestamps td);
       download := shift (download td);
       upload := if (0 <? length (upload td))%nat then shift (upload td) else upload td |}
  else td.

(** [updateChart()] *)
Definition updateChart : M unit :=
  modify (fun s => set_testData (limit_data_points (testData s)) s) ;;
  modify (fun s =>
    render {| labels := timestamps (testData s);
              dataset0 := download (testData s);
              dataset1 := upload (testData s) |} s).

(** [animateGauge(type, speed)] *)
Definition animateGauge (type : string) (speed : number) : M unit :=
  touch (type +:+ "Speed").

(** [Math.round(speed * 100) / 100] *)
Definition displaySpeed (speed : number) : number :=
  (round (speed * of_Z 100) / of_Z 100)%js.

Definition push_download (v : number) (t : string) (td : testData_t) : testData_t :=
  {| download := download td ++ [v]; upload := upload td; timestamps := timestamps td ++ [t] |}.

Definition push_upload (v : number) (td : testData_t) : testData_t :=
  {| download := download td; upload := upload td ++ [v]; timestamps := timestamps td |}.

(** [updateDownloadSpeed(speed)] *)
Definition updateDownloadSpeed (speed : number) : M unit :=
  set_textContent "downloadSpeed" (toFixed1 (displaySpeed speed)) ;;
  modify (fun s =>
    set_testData (push_download (displaySpeed speed) (toLocaleTimeString (clock s)) (testData s)) s) ;;
  updateChart ;;
  animateGauge "download" (displaySpeed speed).

(** [updateUploadSpeed(speed)] *)
Definition updateUploadSpeed (speed : number) : M unit :=
  set_textContent "uploadSpeed" (toFixed1 (displaySpeed speed)) ;;
  modify (fun s => set_testData (push_upload (displaySpeed speed) (testData s)) s) ;;
  updateChart ;;
  animateGauge "upload" (displaySpeed speed).

(** [stopSpeedTest()] *)
Definition stopSpeedTest : M unit :=
  modify (set_isTestRunning false) ;;
  showProgressContainer false ;;
  updateButtonStates false ;;
  set_textContent "downloadStatus" "Ready to test" ;;
  set_textContent "uploadStatus" "Ready to test".

(** [resetTestUI()] *)
Definition resetTestUI : M unit :=
  set_textContent "downloadSpeed" "0" ;;
  set_textContent "uploadSpeed" "0" ;;
  modify (set_testData empty_testData) ;;
  modify (render (Chart [] [] [])).

(** [array.length > 0 ? array.reduce((a, b) => a + b, 0) / array.length : 0] *)
Definition average_or_zero (l : list number) : number :=
  if (0 <? length l)%nat then (sum l / of_Z (Z.of_nat (length l)))%js else Fin 0.

(** [array.length > 0 ? Math.max(...array) : 0] *)
Definition maximum_or_zero (l : list number) : number :=
  if (0 <? length l)%nat then fold_left max l NegInf else Fin 0.

(** [updateStatsUI()] *)
Definition updateStatsUI : M unit :=
  st <- gets stats ;;
  set_textContent_if_present "avgDownload"
    (toFixed1 (totalDownload st / of_Z (testsRun st))%js +:+ " Mbps") ;;
  set_textContent_if_present "avgUpload"
    (toFixed1 (totalUpload st / of_Z (testsRun st))%js +:+ " Mbps") ;;
  set_textContent_if_present "maxDownload" (toFixed1 (maxDownload st) +:+ " Mbps") ;;
  set_textContent_if_present "testCount" (pretty (testsRun st)).

(** [updateStats()] *)
Definition updateStats : M unit :=
  td <- gets testData ;;
  if (length (download td) =? 0)%nat && (length (upload td) =? 0)%nat then ret tt
  else
    modify (fun s =>
      let st := stats s in
      set_stats
        {| testsRun := testsRun st + 1;
           totalDownload := (totalDownload st + average_or_zero (download td))%js;
           totalUpload := (totalUpload st + average_or_zero (upload td))%js;
           maxDownload := max (maxDownload st) (maximum_or_zero (download td));
           maxUpload := max (maxUpload st) (maximum_or_zero (upload td)) |} s) ;;
    updateStatsUI.

(** The throughput of [bytes] bytes moved between two readings of the clock:
    [(bytes * 8) / (1024 * 1024 * seconds)] with
    [seconds = (testEnd - testStart) / 1000]. *)
Definition megabits_per_second (bytes testStart testEnd : Z) : number :=
  let seconds := (of_Z (testEnd - testStart) / of_Z 1000)%js in
  ((of_Z bytes * of_Z 8) / (of_Z 1024 * of_Z 1024 * seconds))%js.

(** [mbps > 0 && mbps < 1000] *)
Definition sane (mbps : number) : bool :=
  (mbps >? Fin 0)%js && (mbps <? of_Z 1000)%js.

(** The sanity check that ends the [try] block of an iteration of
    [runDownloadTest], for the sample [mbps] just computed:
    [if (mbps > 0 && mbps < 1000) { downloadSpeeds.push(mbps);
    this.updateDownloadSpeed(mbps); }].  The result is the array
    [downloadSpeeds] afterwards. *)
Definition recordDownload (mbps : number) (downloadSpeeds : list number) : M (list number) :=
  if sane mbps then
    (* the push precedes the publication, so the sample stays in the array
       when the publication throws into the [catch] of the iteration *)
    try_catch (updateDownloadSpeed mbps) (fun _ => ret tt) ;;
    ret (downloadSpeeds ++ [mbps])
  else ret downloadSpeeds.

(** The same check in [runUploadTest]:
    [if (mbps > 0 && mbps < 1000) { uploadSpeeds.push(mbps);
    this.updateUploadSpeed(mbps); }] *)
Definition recordUpload (mbps : number) (uploadSpeeds : list number) : M (list number) :=
  if sane mbps then
    try_catch (updateUploadSpeed mbps) (fun _ => ret tt) ;;
    ret (uploadSpeeds ++ [mbps])
  else ret uploadSpeeds.

(** The body of the [while] loop of [runDownloadTest], from [try] to the end
    of [catch]; the result is the array [downloadSpeeds] afterwards.  The
    size drawn at random only appears in the URL of the request. *)
Definition downloadIteration (p : probe) (downloadSpeeds : list number) : M (list number) :=
  try_catch
    (testStart <- gets clock ;;
     resp <- fetchWithTimeout (request p) 3000 ;;
     if negb (ok resp) then throw (Error ("HTTP " +:+ pretty (status resp)))
     else
       bytes <- await (body resp) ;;
       testEnd <- gets clock ;;
       let mbps := megabits_per_second bytes testStart testEnd in
       recordDownload mbps downloadSpeeds)
    (fun _ => ret downloadSpeeds).

(** The pause that ends an iteration; a press on "stop" runs
    [stopSpeedTest] meanwhile. *)
Definition pause (ms : Z) (late : N) (stop : bool) : M unit :=
  (if stop then interleaved stopSpeedTest else ret tt) ;;
  sleep ms late.

(** The [while] loop of [runDownloadTest]; [fuel] bounds the number of
    iterations and [i] counts them. *)
Fixpoint downloadLoop (fuel : nat) (startTime : Z) (env : nat -> probe) (i : nat)
    (downloadSpeeds : list number) : M (list number) :=
  match fuel with
  | O => ret downloadSpeeds
  | S fuel' =>
      now <- gets clock ;;
      running <- gets isTestRunning ;;
      if (now - startTime <? testDuration cfg)%Z && running then
        updateProgress
          (of_Z (now - startTime) / of_Z (testDuration cfg) * of_Z 50)%js
          "Testing download speed..." ;;
        speeds <- downloadIteration (env i) downloadSpeeds ;;
        pause (Zpos (updateInterval cfg)) (timer_late (env i)) (stop_pressed (env i)) ;;
        downloadLoop fuel' startTime env (S i) speeds
      else ret downloadSpeeds
  end.

(** Every iteration takes at least one millisecond, so a loop that starts
    now ends within this many iterations. *)
Definition loop_fuel : nat := S (Z.to_nat (testDuration cfg)).

(** The mean published when a loop is over. *)
Definition average (l : list number) : number :=
  (sum l / of_Z (Z.of_nat (length l)))%js.

(** [runDownloadTest()] *)
Definition runDownloadTest (env : nat -> probe) : M unit :=
  set_textContent "currentPhase" "Testing download speed..." ;;
  set_textContent "downloadStatus" "Testing..." ;;
  startTime <- gets clock ;;
  downloadSpeeds <- downloadLoop loop_fuel startTime env 0 [] ;;
  (if (0 <? length downloadSpeeds)%nat then updateDownloadSpeed (average downloadSpeeds)
   else ret tt) ;;
  set_textContent "downloadStatus" "Completed".

Definition chars : string :=
  "ABCDEFGHIJKLMNOPQRSTUVWXYZabcdefghijklmnopqrstuvwxyz0123456789".

(** [s.charAt(k)]: the empty string outside of [s]. *)
Definition charAt (s : string) (k : Z) : string :=
  if (k <? 0)%Z then ""
  else
    match String.get (Z.to_nat k) s with
    | Some c => String c ""
    | None => ""
    end.

(** The loop of [generateTestData], [n] characters from the [i]-th random
    number on. *)
Fixpoint generateTestData_from (n : nat) (rnd : nat -> Q) (i : nat) : string :=
  match n with
  | O => ""
  | S n' =>
      charAt chars (Qfloor (rnd i * inject_Z (Z.of_nat (String.length chars)))) +:+
      generateTestData_from n' rnd (S i)
  end.

(** [generateTestData(size)] *)
Definition generateTestData (size : Z) (rnd : nat -> Q) : string :=
  generateTestData_from (Z.to_nat size) rnd 0.

(** The body of the [while] loop of [runUploadTest], from [try] to the end
    of [catch]. *)
Definition uploadIteration (p : probe) (uploadSpeeds : list number) : M (list number) :=
  try_catch
    (let testDataSize := (Qfloor (random p * 50000) + 25000)%Z in
     let testData := generateTestData testDataSize (char_random p) in
     testStart <- gets clock ;;
     resp <- fetchWithTimeout (request p) 3000 ;;
     if negb (ok resp) then throw (Error ("HTTP " +:+ pretty (status resp)))
     else
       await (body resp) ;;
       testEnd <- gets clock ;;
       let bytes := Z.of_nat (String.length testData) in
       let mbps := megabits_per_second bytes testStart testEnd in
       recordUpload mbps uploadSpeeds)
    (fun _ => ret uploadSpeeds).

(** The [while] loop of [runUploadTest]. *)
Fixpoint uploadLoop (fuel : nat) (startTime : Z) (env : nat -> probe) (i : nat)
    (uploadSpeeds : list number) : M (list number) :=
  match fuel with
  | O => ret uploadSpeeds
  | S fuel' =>
      now <- gets clock ;;
      running <- gets isTestRunning ;;
      if (now - startTime <? testDuration cfg)%Z && running then
        updateProgress
          (of_Z 50 + of_Z (now - startTime) / of_Z (testDuration cfg) * of_Z 50)%js
          "Testing upload speed..." ;;
        speeds <- uploadIteration (env i) uploadSpeeds ;;
        pause (Zpos (updateInterval cfg)) (timer_late (env i)) (stop_pressed (env i)) ;;
        uploadLoop fuel' startTime env (S i) speeds
      else ret uploadSpeeds
  end.

(** [runUploadTest()] *)
Definition runUploadTest (env : nat -> probe) : M unit :=
  set_textContent "currentPhase" "Testing upload speed..." ;;
  set_textContent "uploadStatus" "Testing..." ;;
  startTime <- gets clock ;;
  uploadSpeeds <- uploadLoop loop_fuel startTime env 0 [] ;;
  (if (0 <? length uploadSpeeds)%nat then updateUploadSpeed (average uploadSpeeds)
   else ret tt) ;;
  set_textContent "uploadStatus" "Completed" ;;
  updateProgress (of_Z 100) "Test completed".

(** The [try] block of [startSpeedTest]. *)
Definition test_sequence (env : session) : M unit :=
  runDownloadTest (download_probes env) ;;
  pause 500 (pause_late env) (stop_in_pause env) ;;
  runUploadTest (upload_probes env) ;;
  updateStats ;;
  showStatus "Speed test completed successfully" "success".

(** [startSpeedTest()] *)
Definition startSpeedTest (env : session) : M unit :=
  running <- gets isTestRunning ;;
  if running then ret tt
  else
    modify (set_isTestRunning true) ;;
    resetTestUI ;;
    showProgressContainer true ;;
    updateButtonStates true ;;
    try_finally
      (try_catch (test_sequence env)
         (fun _ =>
            showStatus "Speed test failed. Please check your connection and try again." "error"))
      stopSpeedTest.

End SpeedTest.

(** ** Latency *)

(** What one of the three measurements meets: the request for the favicon,
    the time until the image fires [load] or [error], the peer connection
    (a candidate after some time, or a rejected offer), the random number of
    the estimate and the lateness of the timer between two measurements. *)
Record latency_trial : Type := LatencyTrial {
  favicon : option (promise unit);
  image : option N;
  ice : option (promise unit);
  estimate_random : Q;
  gap_late : N
}.

(** [measureLatencyWithFetch()] *)
Definition measureLatencyWithFetch (t : latency_trial) : M number :=
  start <- gets clock ;;
  try_catch (fetchWithTimeout (favicon t) 3000) (fun _ => ret tt) ;;
  finish <- gets clock ;;
  ret (of_Z finish - of_Z start)%js.

(** [measureLatencyWithImage()] *)
Definition measureLatencyWithImage (t : latency_trial) : M number :=
  start <- gets clock ;;
  race (option_map (fun d => Resolves d tt) (image t)) 3000 "Image load timeout" ;;
  finish <- gets clock ;;
  ret (of_Z finish - of_Z start)%js.

(** [measureLatencyWithWebRTC()] *)
Definition measureLatencyWithWebRTC (t : latency_trial) : M number :=
  start <- gets clock ;;
  race (ice t) 3000 "WebRTC timeout" ;;
  finish <- gets clock ;;
  ret (of_Z finish - of_Z start)%js.

Inductive band : Type := excellent | good | fair | poor.

(** The chain of comparisons that picks the class [latency-...]. *)
Definition latencyBand (avgLatency : number) : band :=
  if (avgLatency <? of_Z 50)%js then excellent
  else if (avgLatency <? of_Z 100)%js then good
  else if (avgLatency <? of_Z 200)%js then fair
  else poor.

Definition band_color (b : band) : string :=
  match b with
  | excellent => "#10b981"
  | good => "#f59e0b"
  | fair => "#f97316"
  | poor => "#ef4444"
  end.

Section Latency.

(** The three methods that [measureLatency] calls on [this], and what its
    own awaits and [Math.random()] meet, per measurement. *)
Variables method1 method2 method3 : nat -> M number.
Variable rnd : nat -> Q.
Variable late : nat -> N.

Definition testCount : nat := 3.

(** [50 + Math.random() * 50] *)
Definition conservative_estimate (r : Q) : number := (of_Z 50 + Fin r * of_Z 50)%js.

(** One measurement: the nested [try]/[catch] of the loop body. *)
Definition latency_of_trial (i : nat) : M number :=
  try_catch (method1 i) (fun _ =>
    try_catch (method2 i) (fun _ =>
      try_catch (method3 i) (fun _ =>
        ret (conservative_estimate (rnd i))))).

(** The [for] loop, [n] measurements from the [i]-th on. *)
Fixpoint latency_trials (n i : nat) (measurements : list number) : M (list number) :=
  match n with
  | O => ret measurements
  | S n' =>
      latency <- latency_of_trial i ;;
      (if (i <? testCount - 1)%nat then sleep 200 (late i) else ret tt) ;;
      latency_trials n' (S i) (measurements ++ [latency])
  end.

(** [measurements.reduce((a, b) => a + b, 0) / measurements.length] *)
Definition avgLatency (measurements : list number) : number :=
  (sum measurements / of_Z (Z.of_nat (length measurements)))%js.

(** [measureLatency()], for given methods. *)
Definition measureLatencyWith : M unit :=
  set_textContent "latency" "Testing..." ;;
  set_color "latency" "#6b7280" ;;
  try_catch
    (measurements <- latency_trials testCount 0 [] ;;
     if (length measurements =? 0)%nat then
       throw (Error "No successful latency measurements")
     else
       set_textContent "latency" (toString (round (avgLatency measurements)) +:+ " ms") ;;
       set_color "latency" (band_color (latencyBand (avgLatency measurements))))
    (fun _ =>
       set_textContent "latency" "Unable to measure" ;;
       set_color "latency" "#6b7280").

End Latency.

(** [measureLatency()] *)
Definition measureLatency (env : nat -> latency_trial) : M unit :=
  measureLatencyWith
    (fun i => measureLatencyWithFetch (env i))
    (fun i => measureLatencyWithImage (env i))
    (fun i => measureLatencyWithWebRTC (env i))
    (fun i => estimate_random (env i))
    (fun i => gap_late (env i)).

(** ** Network information *)

(** [navigator.connection || navigator.mozConnection || navigator.webkitConnection] *)
Record connection_t : Type := Connection {
  effectiveType : option string;
  type : option string;
  downlink : option number
}.

(** The browser: its connection hints, if any, and whether the user agent
    string is that of a mobile device.  The hints are those of
    [navigator.connection], which is then also the value of the chain above
    and what ['connection' in navigator] tests; a browser that has them under
    a prefixed name only is not modelled. *)
Record navigator_t : Type := Navigator {
  connection : option connection_t;
  mobile : bool
}.

(** [geolocation service] answers: any field may be absent. *)
Record detailData_t : Type := DetailData {
  city : option string;
  country_name : option string;
  org : option string
}.

(** What [loadNetworkInfo] meets: the address found among the candidates of
    the peer connection (or the rejection of its offer), the request of the
    fallback with its parsed body, the browser, the two lookups and the
    latency measurements. *)
Record network : Type := Network {
  local_candidate : option (promise string);
  fallback_lookup : promise unit;
  navigator : navigator_t;
  ip_lookup : option (promise (response string));
  detail_lookup : option (promise (response detailData_t));
  latency_env : nat -> latency_trial
}.

(** [x || d] for a string that may be absent: the empty string is falsy. *)
Definition or_else (x : option string) (d : string) : string :=
  match x with
  | Some v => if String.eqb v "" then d else v
  | None => d
  end.

(** [getLocalIPFallback()] *)
Definition getLocalIPFallback (env : network) : M unit :=
  try_catch
    (await (fallback_lookup env) ;;
     set_textContent "localIP" "Behind NAT/Firewall")
    (fun _ => set_textContent "localIP" "Unable to detect").

(** [getLocalIP()] *)
Definition getLocalIP (env : network) : M unit :=
  try_catch
    (set_textContent "localIP" "Detecting..." ;;
     localIP <- race (local_candidate env) 5000 "Local IP detection timeout" ;;
     set_textContent "localIP" localIP)
    (fun _ => getLocalIPFallback env).

(** [getNetworkName()] *)
Definition getNetworkName (nav : navigator_t) : M unit :=
  try_catch
    (match mobile nav, connection nav with
     | true, Some c =>
         if bool_decide (type c = Some "wifi") then
           set_textContent "networkName" "WiFi Network (name not accessible)"
         else if bool_decide (type c = Some "cellular") then
           set_textContent "networkName"
             ("Cellular (" +:+ or_else (effectiveType c) "Unknown" +:+ ")")
         else
           set_textContent "networkName" (or_else (type c) "Unknown network")
     | _, _ => set_textContent "networkName" "Network name not accessible"
     end)
    (fun _ => set_textContent "networkName" "Unable to detect").

(** [connection.downlink] as a condition. *)
Definition has_downlink (c : connection_t) : option number :=
  match downlink c with
  | Some d => if truthy d then Some d else None
  | None => None
  end.

(** [getNetworkConnectionInfo()] *)
Definition getNetworkConnectionInfo (nav : navigator_t) : M unit :=
  try_catch
    (match connection nav with
     | Some c =>
         set_textContent "connectionType"
           (or_else (effectiveType c) "Unknown" +:+ " (" +:+ or_else (type c) "Unknown" +:+ ")") ;;
         getNetworkName nav ;;
         match has_downlink c with
         | Some d => set_textContent "connectionSpeed" (toString d +:+ " Mbps (estimated)")
         | None => set_textContent "connectionSpeed" "Testing..."
         end
     | None =>
         set_textContent "connectionType" "Connection info not available" ;;
         set_textContent "networkName" "Not available" ;;
         set_textContent "connectionSpeed" "Not available"
     end)
    (fun _ => ret tt).

(** The pair [(signalStrength, networkQuality)] computed by
    [analyzeConnectionQuality]. *)
Definition connection_quality (nav : navigator_t) : string * string :=
  match connection nav with
  | Some c =>
      match has_downlink c with
      | Some d =>
          if (d >=? of_Z 10)%js then ("Excellent (>10 Mbps)", "Excellent")
          else if (d >=? of_Z 5)%js then ("Good (5-10 Mbps)", "Good")
          else if (d >=? of_Z 1)%js then ("Fair (1-5 Mbps)", "Fair")
          else ("Poor (<1 Mbps)", "Poor")
      | None =>
          if bool_decide (effectiveType c = Some "4g") then ("Good (4G)", "Good")
          else if bool_decide (effectiveType c = Some "3g") then ("Fair (3G)", "Fair")
          else if bool_decide (effectiveType c = Some "2g") then ("Poor (2G)", "Poor")
          else if bool_decide (effectiveType c = Some "slow-2g") then
            ("Very Poor (Slow 2G)", "Very Poor")
          else ("Unknown", "Unknown")
      end
  | None => ("Unknown", "Analyzing...")
  end.

(** [analyzeConnectionQuality()] *)
Definition analyzeConnectionQuality (nav : navigator_t) : M unit :=
  try_catch
    (set_textContent "signalStrength" (fst (connection_quality nav)) ;;
     set_textContent "networkQuality" (snd (connection_quality nav)))
    (fun _ =>
       set_textContent "signalStrength" "Analysis failed" ;;
       set_textContent "networkQuality" "Analysis failed").

(** [updateNetworkInfo(data)] *)
Definition updateNetworkInfo (data : detailData_t) : M unit :=
  set_textContent_if_present "location"
    (or_else (city data) "Unknown" +:+ ", " +:+ or_else (country_name data) "Unknown") ;;
  set_textContent_if_present "isp" (or_else (org data) "Unknown ISP").

(** The table [errorMessages] of [handleNetworkInfoError]. *)
Definition errorMessages : gmap string string :=
  list_to_map
    [("Failed to fetch", "Network connection error - please check your internet connection");
     ("timeout", "Request timed out - please try again");
     ("default", "Failed to load network information")].

(** The fields that [handleNetworkInfoError] puts in the error state. *)
Definition error_state_fields : list string :=
  ["publicIP"; "location"; "isp"; "localIP"; "networkName"; "connectionSpeed";
   "signalStrength"; "networkQuality"].

(** [handleNetworkInfoError(error)]; [errorMessages[error.message]] is a
    lookup in the three entries of the table, the message being none of the
    names that the table inherits from [Object.prototype]. *)
Definition handleNetworkInfoError (e : error) : M unit :=
  showStatus
    (default (errorMessages !!! "default") (errorMessages !! message e))
    "error" ;;
  for_each (fun id => set_textContent_if_present id "Error loading") error_state_fields.

(** [loadNetworkInfo()] *)
Definition loadNetworkInfo (env : network) : M unit :=
  try_catch
    (showStatus "Loading network information..." "info" ;;
     getLocalIP env ;;
     getNetworkConnectionInfo (navigator env) ;;
     ipResponse <- fetchWithTimeout (ip_lookup env) 5000 ;;
     ip <- await (body ipResponse) ;;
     set_textContent "publicIP" ip ;;
     detailResponse <- fetchWithTimeout (detail_lookup env) 5000 ;;
     detailData <- await (body detailResponse) ;;
     updateNetworkInfo detailData ;;
     measureLatency (latency_env env) ;;
     analyzeConnectionQuality (navigator env) ;;
     showStatus "Network information updated successfully" "success")
    (fun e => handleNetworkInfoError e).

(** ** Events and invariants *)

(** What happens to an analyzer: the entry points that the page wires to
    buttons, and the two publications. *)
Inductive event : Type :=
| StartTest (env : session)
| StopTest
| RefreshInfo (env : network)
| PublishDownload (speed : number)
| PublishUpload (speed : number)
| ResetUI.

Definition handle (cfg : config_t) (tl : Z -> string) (ev : event) : M unit :=
  match ev with
  | StartTest env => startSpeedTest cfg tl env
  | StopTest => stopSpeedTest
  | RefreshInfo env => loadNetworkInfo env
  | PublishDownload speed => updateDownloadSpeed cfg tl speed
  | PublishUpload speed => updateUploadSpeed cfg speed
  | ResetUI => resetTestUI
  end.

(** The state after a sequence of events, each handler running to its end
    (normally or not) before the next. *)
Definition after (cfg : config_t) (tl : Z -> string) (evs : list event) (s : analyzer) : analyzer :=
  fold_left (fun s ev => exec (handle cfg tl ev) s) evs s.

(** A property of the state that no step of a method breaks. *)
Definition stable (I : analyzer -> Prop) {A : Type} (m : M A) : Prop :=
  forall s, I s -> I (exec m s).

(** Invariance under the elementary state changes of the methods. *)
Class DocInv (I : analyzer -> Prop) : Prop :=
  doc_inv : forall s d, I s -> dom d = dom (document s) -> I (set_document d s).

Class ClockInv (I : analyzer -> Prop) : Prop :=
  clock_inv : forall s t, I s -> (clock s <= t)%Z -> I (set_clock t s).

Class NotifyInv (I : analyzer -> Prop) : Prop :=
  notify_inv : forall s n, I s -> I (set_notifications (notifications s ++ n) s).

Class RunInv (I : analyzer -> Prop) : Prop :=
  run_inv : forall s b, I s -> I (set_isTestRunning b s).

Class StatsInv (I : analyzer -> Prop) : Prop :=
  stats_inv : forall s st, I s -> I (set_stats st s).

Class DataInv (cfg : config_t) (I : analyzer -> Prop) : Prop := {
  data_push_download : forall s speed t,
    I s -> I (set_testData (push_download (displaySpeed speed) t (testData s)) s);
  data_push_upload : forall s speed,
    I s -> I (set_testData (push_upload (displaySpeed speed) (testData s)) s);
  data_limit : forall s,
    I s -> I (set_testData (limit_data_points cfg (testData s)) s);
  data_chart : forall s,
    I s -> I (render {| labels := timestamps (testData s);
                        dataset0 := download (testData s);
                        dataset1 := upload (testData s) |} s);
  data_reset : forall s, I s -> I (set_testData empty_testData s);
  chart_reset : forall s, I s -> I (render (Chart [] [] []) s)
}.

(** The download dataset of a chart has as many values as there are labels. *)
Definition aligned_chart (c : chart_t) : Prop :=
  length (dataset0 c) = length (labels c).

(** The two series of a download publication have one length, in the data
    and in what the chart was given at every update. *)
Definition aligned (s : analyzer) : Prop :=
  length (download (testData s)) = length (timestamps (testData s)) /\
  aligned_chart (chart s) /\
  Forall aligned_chart (renders s).


(** The page has the elements of these ids. *)
Definition has_elements (ids : list string) (s : analyzer) : Prop :=
  forall id, id ∈ ids -> is_Some (document s !! id).

(** A method that returns normally from every state with a property. *)
Definition safe (P : analyzer -> Prop) {A : Type} (m : M A) : Prop :=
  forall s, P s -> returns (result m s).

Definition clock_from (t : Z) (s : analyzer) : Prop := (t <= clock s)%Z.

(** Comparisons of numbers as propositions. *)
Definition lt (x y : number) : Prop := (x <? y)%js = true.

Definition ge (x y : number) : Prop := (x >=? y)%js = true.

Definition le (x y : number) : Prop := ge y x.

Definition nonnegative (x : number) : Prop := ge x (Fin 0).

(** ** Scenarios *)

(** A page with the elements that the speed test looks up. *)
Definition speed_page : gmap string element :=
  list_to_map
    (map (fun id => (id, Element "" ""))
       ["downloadSpeed"; "uploadSpeed"; "downloadStatus"; "uploadStatus";
        "currentPhase"; "progressBar"; "progressPercent"; "progressContainer";
        "startTest"; "stopTest"; "statusMessage"; "statusText"]).

(** A stand-in for the locale: an instant is labelled by its number. *)
Definition clock_label : Z -> string := pretty.

(** An endpoint that answers every request after [ms] milliseconds with a
    body of [bytes] bytes that is read at once; timers fire on time and
    nobody presses "stop". *)
Definition steady_probe (bytes : Z) (ms : N) : probe :=
  {| random := 0;
     char_random := fun _ => 0%Q;
     request := Some (Resolves ms (Response true 200 (Resolves 0 bytes)));
     timer_late := 0;
     stop_pressed := false |}.

(** Scenario 1 of the specification: one second of sampling every 200 ms
    against a probe that delivers 100,000 bytes in 50 ms. *)
Definition scenario_config : config_t :=
  {| testDuration := 1000; updateInterval := 200; maxDataPoints := 20 |}.

Definition scenario_probes : nat -> probe := fun _ => steady_probe 100000 50.

(** An analyzer in the middle of a session: the flag is set, the series are
    empty. *)
Definition running_state : analyzer := set_isTestRunning true (constructed speed_page 0).

(** An ordinary session with the shipped configuration: every download and
    every upload request is answered after 50 ms. *)
Definition ordinary_session : session :=
  {| download_probes := fun _ => steady_probe 100000 50;
     pause_late := 0;
     stop_in_pause := false;
     upload_probes := fun _ => steady_probe 0 50 |}.

(** A field of the state has a given value. *)
Definition keeps {A : Type} (f : analyzer -> A) (v : A) (s : analyzer) : Prop := f s = v.

(** Two properties at once. *)
Definition both (I J : analyzer -> Prop) (s : analyzer) : Prop := I s /\ J s.

(** The elements that [startSpeedTest] uses before it enters its [try]. *)
Definition setup_elements : list string :=
  ["downloadSpeed"; "uploadSpeed"; "progressContainer"; "startTest"; "stopTest"].

(** The page of the speed test without its progress bar: [updateProgress]
    throws on it. *)
Definition page_without_progress_bar : gmap string element := delete "progressBar" speed_page.

(** [mbps <= 0 || mbps >= 1000] *)
Definition out_of_range (mbps : number) : Prop :=
  le mbps (Fin 0) \/ ge mbps (of_Z 1000).

(** [0 < mbps < 1000] *)
Definition in_range (mbps : number) : Prop :=
  lt (Fin 0) mbps /\ lt mbps (of_Z 1000).

(** Whatever a method returns has a property. *)
Definition yields {A : Type} (Q : A -> Prop) (m : M A) : Prop :=
  forall s,
    match result m s with
    | Returned a => Q a
    | Thrown _ => True
    end.

(** The size of the payload that an upload iteration generates. *)
Definition upload_bytes (p : probe) : Z :=
  Z.of_nat (String.length
    (generateTestData (Qfloor (random p * 50000) + 25000)%Z (char_random p))).

(** A finite number in [[50, 100)]. *)
Definition conservative (v : number) : Prop :=
  exists q, v = Fin q /\ (50 <= q)%Q /\ (q < 100)%Q.

(** A page with the read-out of the latency. *)
Definition latency_page : gmap string element :=
  {["latency" := Element "" ""]}.

(** A lookup of [loadNetworkInfo] that fails: the request never settles, is
    rejected or settles after the 5000 ms of the timer, or the reading of its
    body is rejected. *)
Definition lookup_fails {A : Type} (req : option (promise (response A))) : Prop :=
  match req with
  | None => True
  | Some (Rejects _ _) => True
  | Some (Resolves d r) => (5000 <= d)%N \/ exists d' e, body r = Rejects d' e
  end.

(** The elements that [loadNetworkInfo] needs on its way to the
    geolocation lookup, and to report its failure. *)
Definition lookup_elements : list string :=
  ["statusText"; "statusMessage"; "localIP"; "publicIP"].

(** The page has exactly the elements of these ids. *)
Definition same_page (D : gset string) (s : analyzer) : Prop := dom (document s) = D.

(** The text shown by the element [id], if there is one. *)
Definition shown (id : string) (s : analyzer) : option string :=
  textContent <$> document s !! id.

(** A page with every element of the network panel. *)
Definition network_page : gmap string element :=
  list_to_map
    (map (fun id => (id, Element "" ""))
       ["statusMessage"; "statusText"; "localIP"; "publicIP"; "location"; "isp";
        "networkName"; "connectionSpeed"; "connectionType"; "signalStrength";
        "networkQuality"; "latency"]).

(** Scenario 3 of the specification: the local address and the public
    address are found, the browser gives its hints, and the geolocation
    service never answers. *)
Definition geolocation_timeout : network :=
  {| local_candidate := Some (Resolves 120 "192.168.1.23");
     fallback_lookup := Resolves 90 tt;
     navigator :=
       {| connection :=
            Some {| effectiveType := Some "4g"; type := Some "wifi";
                    downlink := Some (Fin 10) |};
          mobile := false |};
     ip_lookup := Some (Resolves 80 (Response true 200 (Resolves 1 "203.0.113.7")));
     detail_lookup := None;
     latency_env := fun _ => LatencyTrial (Some (Resolves 20 tt)) None None 0 0 |}.


(** ** Binary64

    The model above computes with exact rationals.  The expressions whose
    very value a statement pins down (the throughput of a sample, the means,
    the rounding of a publication and what the series hold after it) are
    transcribed here over the primitive binary64 numbers. *)

Module Binary64.

Import PrimFloat.

(** The float of an integer, exact below [2^53]. *)
Fixpoint of_pos (p : positive) : float :=
  match p with
  | xH => 1%float
  | xO q => (2 * of_pos q)%float
  | xI q => (2 * of_pos q + 1)%float
  end.

Definition of_Z (z : Z) : float :=
  match z with
  | Z0 => 0%float
  | Zpos p => of_pos p
  | Zneg p => (- of_pos p)%float
  end.

Definition of_nat (n : nat) : float := of_Z (Z.of_nat n).

(** [array.reduce((a, b) => a + b, 0)] *)
Definition sum (l : list float) : float := fold_left PrimFloat.add l 0%float.

(** [measurements.reduce((a, b) => a + b, 0) / measurements.length] *)
Definition avgLatency (measurements : list float) : float :=
  (sum measurements / of_nat (length measurements))%float.

(** [downloadSpeeds.reduce((a, b) => a + b, 0) / downloadSpeeds.length] *)
Definition average (speeds : list float) : float :=
  (sum speeds / of_nat (length speeds))%float.

(** [(bytes * 8) / (1024 * 1024 * seconds)] with
    [seconds = (testEnd - testStart) / 1000] *)
Definition megabits_per_second (bytes testStart testEnd : float) : float :=
  let seconds := ((testEnd - testStart) / 1000)%float in
  ((bytes * 8) / (1024 * 1024 * seconds))%float.

Definition zero : float := 0%float.
Definition fifty : float := 50%float.

Definition ltb (x y : float) : bool := (x <? y)%float.

(** The rational that a finite binary64 number stands for. *)
Definition value (x : float) : option Q :=
  match FloatOps.Prim2SF x with
  | SpecFloat.S754_zero _ => Some 0%Q
  | SpecFloat.S754_finite negative m e =>
      Some (Qred (inject_Z (if negative then Zneg m else Zpos m) * Qpower 2 e))
  | _ => None
  end.

(** [Math.round]: the integer nearest to a finite number, halves going up; a
    number of magnitude [2^52] or more is an integer already, and the
    infinities and [NaN] are their own rounding.  The sign of a zero is not
    kept. *)
Definition round (x : float) : float :=
  match value x with
  | Some q =>
      if Qle_bool (inject_Z (2 ^ 52)) (Qabs q) then x
      else of_Z (Qfloor (q + (1 # 2)))
  | None => x
  end.

(** [Math.round(speed * 100) / 100] *)
Definition displaySpeed (speed : float) : float := (round (speed * 100) / 100)%float.

(** [mbps > 0 && mbps < 1000] *)
Definition sane (mbps : float) : bool := (0 <? mbps)%float && (mbps <? 1000)%float.

(** [testData], with binary64 values. *)
Record testData_t : Type := TestData {
  download : list float;
  upload : list float;
  timestamps : list string
}.

Definition empty_testData : testData_t := TestData [] [] [].

(** The eviction of [updateChart]. *)
Definition limit_data_points (maxDataPoints : nat) (td : testData_t) : testData_t :=
  if (maxDataPoints <? length (timestamps td))%nat then
    {| timestamps := shift (timestamps td);
       download := shift (download td);
       upload := if (0 <? length (upload td))%nat then shift (upload td) else upload td |}
  else td.

(** What [updateDownloadSpeed(speed)] leaves in [testData] when the page has
    the read-out of the download; [now] is the label of the time. *)
Definition updateDownloadSpeed (maxDataPoints : nat) (speed : float) (now : string)
    (td : testData_t) : testData_t :=
  limit_data_points maxDataPoints
    {| download := download td ++ [displaySpeed speed];
       upload := upload td;
       timestamps := timestamps td ++ [now] |}.

(** What [updateUploadSpeed(speed)] leaves in [testData] when the page has
    the read-out of the upload. *)
Definition updateUploadSpeed (maxDataPoints : nat) (speed : float)
    (td : testData_t) : testData_t :=
  limit_data_points maxDataPoints
    {| download := download td;
       upload := upload td ++ [displaySpeed speed];
       timestamps := timestamps td |}.

(** A call of one of the two methods that publish a speed. *)
Inductive publication : Type :=
| Download (speed : float) (now : string)
| Upload (speed : float).

Definition publish (maxDataPoints : nat) (td : testData_t) (p : publication) : testData_t :=
  match p with
  | Download speed now => updateDownloadSpeed maxDataPoints speed now td
  | Upload speed => updateUploadSpeed maxDataPoints speed td
  end.

(** The series after a sequence of publications, from the empty series of a
    new analyzer or of a reset. *)
Definition published_series (maxDataPoints : nat) (ps : list publication) : testData_t :=
  fold_left (publish maxDataPoints) ps empty_testData.

(** The speeds published into each series. *)
Definition download_speeds (ps : list publication) : list float :=
  omap (fun p => match p with Download speed _ => Some speed | Upload _ => None end) ps.

Definition upload_speeds (ps : list publication) : list float :=
  omap (fun p => match p with Upload speed => Some speed | Download _ _ => None end) ps.

(** [speed * 100], and the binary64 number nearest to the [n] hundredths. *)
Definition scaled (speed : float) : float := (speed * 100)%float.

Definition hundredths (n : Z) : float := (of_Z n / 100)%float.

(** The distance between two finite numbers, computed exactly. *)
Definition distance (x y : float) : option Q :=
  match value x, value y with
  | Some a, Some b => Some (Qred (Qabs (a - b)))
  | _, _ => None
  end.

(** The numbers of the examples: 1.555, or rather the binary64 number
    nearest to it, and the decimals 1.56, 15.26 and 15.63 likewise. *)
Definition literal_1_555 : float := 0x1.8e147ae147ae1p+0%float.
Definition literal_1_56 : float := 0x1.8f5c28f5c28f6p+0%float.
Definition literal_15_26 : float := 0x1.e851eb851eb85p+3%float.
Definition literal_15_63 : float := 0x1.f428f5c28f5c3p+3%float.

End Binary64.

(** ** Outcomes of a method

    A method started in a state with [P] ends in a state with [Q] when it
    returns and in a state with [E] when it throws. *)
Definition triple {A : Type} (P : analyzer -> Prop) (m : M A)
    (Q : A -> analyzer -> Prop) (E : error -> analyzer -> Prop) : Prop :=
  forall s, P s ->
    match m s with
    | (s', Returned a) => Q a s'
    | (s', Thrown e) => E e s'
    end.

(** The two elements of the banner. *)
Definition banner_elements : list string := ["statusText"; "statusMessage"].

(** The elements that a whole session needs to start, to report and to
    stop. *)
Definition session_elements : list string :=
  ["downloadSpeed"; "uploadSpeed"; "progressContainer"; "startTest"; "stopTest";
   "downloadStatus"; "uploadStatus"; "statusText"; "statusMessage"].

(** The text that [handleNetworkInfoError] shows for an error. *)
Definition friendly (e : error) : string :=
  default (errorMessages !!! "default") (errorMessages !! message e).

(** The pages on which the banner can be shown, with the banners shown so
    far. *)
Definition banners (ids : list string) (n : list (string * string)) : analyzer -> Prop :=
  both (has_elements ids) (keeps notifications n).

(** The number of iterations that a sampling loop can still start when
    [elapsed] milliseconds of its phase are over: each one ends with a pause
    of [updateInterval] milliseconds. *)
Definition iterations_left (cfg : config_t) (elapsed : Z) : Z :=
  if (elapsed <? testDuration cfg)%Z then
    (testDuration cfg - elapsed + Zpos (updateInterval cfg) - 1) / Zpos (updateInterval cfg)
  else 0.

(** An analyzer that is not testing, with given series and a given
    instant on its clock. *)
Definition idle_at (td : testData_t) (t : Z) : analyzer -> Prop :=
  both (keeps isTestRunning false) (both (keeps testData td) (keeps clock t)).

(** A probe during whose pause the user presses "stop". *)
Definition stopped_probe : probe :=
  {| random := 0;
     char_random := fun _ => 0%Q;
     request := Some (Resolves 50 (Response true 200 (Resolves 0 100000%Z)));
     timer_late := 0;
     stop_pressed := true |}.

(** A probe whose random numbers are all one half. *)
Definition median_probe : probe :=
  {| random := 1 # 2;
     char_random := fun _ => (1 # 2)%Q;
     request := None;
     timer_late := 0;
     stop_pressed := false |}.

(** An analyzer that holds the download series [3, 7] and whose greatest
    download so far is 5. *)
Definition sampled_state : analyzer :=
  set_stats (Stats 1 (Fin 5) (Fin 0) (Fin 5) (Fin 0))
    (set_testData (TestData [Fin 3; Fin 7] [] ["a"; "b"]) (constructed speed_page 0)).

(** The time that a promise raced against a timer of [timeout]
    milliseconds takes to settle. *)
Definition settle_time {A : Type} (p : option (promise A)) (timeout : N) : N :=
  match p with
  | Some (Resolves d _) | Some (Rejects d _) => N.min d timeout
  | None => timeout
  end.

(** Latency measurements whose image and peer connection answer at once,
    and measurements whose image and peer connection never answer; the
    request for the favicon meets the same fate in both. *)
Definition eager_trials : nat -> latency_trial :=
  fun _ => LatencyTrial (Some (Rejects 0 (Error "Failed to fetch"))) (Some 1%N)
             (Some (Resolves 1 tt)) 0 0.

Definition silent_trials : nat -> latency_trial :=
  fun _ => LatencyTrial (Some (Rejects 0 (Error "Failed to fetch"))) None None (1 # 2) 0.

(** The candidate of the peer connection carries an address within the
    5000 ms of the timer. *)
Definition candidate_found (env : network) (ip : string) : Prop :=
  exists d, local_candidate env = Some (Resolves d ip) /\ (d < 5000)%N.

(** ** The DNS test *)

(** An entry of [dnsServers], without its URL. *)
Record dnsServer : Type := DnsServer {
  name : string;
  server : string
}.

Definition dnsServers : list dnsServer :=
  [DnsServer "Google DNS" "8.8.8.8";
   DnsServer "Cloudflare DNS" "1.1.1.1";
   DnsServer "OpenDNS" "208.67.222.222"].

(** The body of the loop of [testDNS], from [try] to the end of [catch]:
    the line that is pushed on [results]. *)
Definition dnsResult (dns : dnsServer) (req : option (promise (response unit))) : M string :=
  try_catch
    (start <- gets clock ;;
     resp <- fetchWithTimeout req 3000 ;;
     if ok resp then
       finish <- gets clock ;;
       let latency := round (of_Z finish - of_Z start)%js in
       ret (name dns +:+ ": " +:+ toString latency +:+ "ms")
     else ret (name dns +:+ ": Error (" +:+ pretty (status resp) +:+ ")"))
    (fun _ => ret (name dns +:+ ": Timeout/Error")).

(** The loop of [testDNS] over the servers, the [i]-th request on. *)
Fixpoint dnsResults (servers : list dnsServer) (env : nat -> option (promise (response unit)))
    (i : nat) (results : list string) : M (list string) :=
  match servers with
  | [] => ret results
  | dns :: servers' =>
      line <- dnsResult dns (env i) ;;
      dnsResults servers' env (S i) (results ++ [line])
  end.

(** [testDNS()].  An element whose [innerHTML] is given lines joined by
    [<br>] has for text these lines one after the other. *)
Definition testDNS (env : nat -> option (promise (response unit))) : M unit :=
  touch "dnsResults" ;;
  set_textContent "dnsResults" "Testing DNS servers..." ;;
  results <- dnsResults dnsServers env 0 [] ;;
  set_textContent "dnsResults" (String.concat "" results) ;;
  set_textContent "dnsServers"
    ("Primary DNS servers tested:" +:+
     String.concat ""
       (map (fun dns => "â€¢ " +:+ name dns +:+ " (" +:+ server dns +:+ ")") dnsServers)) ;;
  showStatus "DNS performance test completed" "success".

(** The line of the results for a server, by the fate of its request. *)
Inductive dns_line (dns : dnsServer) : option (promise (response unit)) -> string -> Prop :=
| dns_answered d r :
    (d < 3000)%N -> ok r = true ->
    dns_line dns (Some (Resolves d r))
      (name dns +:+ ": " +:+ toString (of_Z (Z.of_N d)) +:+ "ms")
| dns_refused d r :
    (d < 3000)%N -> ok r = false ->
    dns_line dns (Some (Resolves d r))
      (name dns +:+ ": Error (" +:+ pretty (status r) +:+ ")")
| dns_late d r :
    (3000 <= d)%N -> dns_line dns (Some (Resolves d r)) (name dns +:+ ": Timeout/Error")
| dns_rejected d e :
    dns_line dns (Some (Rejects d e)) (name dns +:+ ": Timeout/Error")
| dns_silent :
    dns_line dns None (name dns +:+ ": Timeout/Error").

(** The elements that [testDNS] uses. *)
Definition dns_elements : list string :=
  ["dnsResults"; "dnsServers"; "statusText"; "statusMessage"].

(** A page with the elements of the DNS test. *)
Definition dns_page : gmap string element :=
  list_to_map (map (fun id => (id, Element "" "")) dns_elements).

(** The first resolver answers after 30 ms, the second one answers with a
    server error, the third one never answers. *)
Definition mixed_resolvers : nat -> option (promise (response unit)) :=
  fun i =>
    match i with
    | O => Some (Resolves 30 (Response true 200 (Resolves 0 tt)))
    | S O => Some (Resolves 40 (Response false 503 (Resolves 0 tt)))
    | _ => None
    end.

(** ** The keyboard *)

(** What the [keydown] listener of [bindEvents] reads of its event. *)
Record keyboardEvent : Type := KeyboardEvent {
  ctrlKey : bool;
  metaKey : bool;
  key : string
}.

(** The [keydown] listener of [bindEvents]; the session that it starts is
    run to its end. *)
Definition keydown (cfg : config_t) (tl : Z -> string) (event : keyboardEvent)
    (env : session) : M unit :=
  if ctrlKey event || metaKey event then
    if String.eqb (key event) "Enter" then
      running <- gets isTestRunning ;;
      if negb running then startSpeedTest cfg tl env else ret tt
    else if String.eqb (key event) "Escape" then
      running <- gets isTestRunning ;;
      if running then stopSpeedTest else ret tt
    else ret tt
  else ret tt.

(** An analyzer that still holds the series of an earlier session. *)
Definition used_state : analyzer :=
  set_testData (TestData [Fin 3; Fin 7] [Fin 2] ["a"; "b"]) (constructed speed_page 0).

(** The counter of tests has the value [n]. *)
Definition counted (n : Z) (s : analyzer) : Prop := testsRun (stats s) = n.

(** The counter of tests has the value [n], or one more. *)
Definition counted_once (n : Z) (s : analyzer) : Prop :=
  (n <= testsRun (stats s) <= n + 1)%Z.

(** The number of sessions among events. *)
Fixpoint sessions (evs : list event) : Z :=
  match evs with
  | [] => 0
  | StartTest _ :: evs' => 1 + sessions evs'
  | _ :: evs' => sessions evs'
  end.

(** A finite number between 0 and 1000. *)
Definition displayable (v : number) : Prop :=
  exists q, v = Fin q /\ (0 <= q)%Q /\ (q <= 1000)%Q.

(** Every value of the two series is between 0 and 1000. *)
Definition charted (s : analyzer) : Prop :=
  Forall displayable (download (testData s)) /\ Forall displayable (upload (testData s)).

(** The events that the page triggers, as opposed to the publications made
    in the course of a session. *)
Definition page_event (ev : event) : Prop :=
  match ev with
  | PublishDownload _ | PublishUpload _ => False
  | _ => True
  end.

(** A lookup of [loadNetworkInfo] that delivers [v]: the response arrives
    within the 5000 ms of the timer, whatever its status, and its body is
    read. *)
Definition delivers {A : Type} (req : option (promise (response A))) (v : A) : Prop :=
  exists d r d', req = Some (Resolves d r) /\ (d < 5000)%N /\ body r = Resolves d' v.

(** The elements without which [loadNetworkInfo] reports a failure. *)
Definition refresh_elements : list string :=
  ["statusText"; "statusMessage"; "localIP"; "publicIP"; "latency"; "signalStrength";
   "networkQuality"].

(** Both lookups are answered; the geolocation service answers with a
    server error whose body can be read. *)
Definition answering_network : network :=
  {| local_candidate := Some (Resolves 120 "192.168.1.23");
     fallback_lookup := Resolves 90 tt;
     navigator := Navigator None false;
     ip_lookup := Some (Resolves 80 (Response true 200 (Resolves 1 "203.0.113.7")));
     detail_lookup :=
       Some (Resolves 60 (Response false 500 (Resolves 1 (DetailData (Some "Paris") None None))));
     latency_env := fun _ => LatencyTrial (Some (Resolves 20 tt)) None None 0 0 |}.

(** ** Changes of the connection *)

(** An analyzer and the number of listeners of the [change] event that it
    has registered on [navigator.connection]. *)
Record monitored : Type := Monitored {
  analyzer_of : analyzer;
  change_listeners : nat
}.

(** [`${x}`] for a string that may be absent. *)
Definition interpolated (x : option string) : string :=
  match x with
  | Some v => v
  | None => "undefined"
  end.

(** [checkConnection()]: with the hints of the browser, the connection type
    is written and one more listener is registered. *)
Definition checkConnection (connection : option connection_t) (w : monitored)
    : monitored * outcome unit :=
  match connection with
  | Some c =>
      match set_textContent "connectionType"
              (or_else (effectiveType c) "Unknown" +:+ " (" +:+ or_else (type c) "Unknown" +:+ ")")
              (analyzer_of w) with
      | (s', Returned _) => (Monitored s' (S (change_listeners w)), Returned tt)
      | (s', Thrown e) => (Monitored s' (change_listeners w), Thrown e)
      end
  | None => (w, Returned tt)
  end.

(** A listener that [checkConnection] registers, [c] being the connection
    at the time of the event. *)
Definition on_change (c : connection_t) (w : monitored) : monitored * outcome unit :=
  match checkConnection (Some c) w with
  | (w', Returned _) =>
      let (s', r) :=
        showStatus ("Connection changed to " +:+ interpolated (effectiveType c)) "info"
          (analyzer_of w') in
      (Monitored s' (change_listeners w'), r)
  | r => r
  end.

(** The dispatch of a [change] event: the listeners that are registered
    when it starts run one after the other, and what one of them throws
    does not stop the next. *)
Definition dispatch_change (c : connection_t) (w : monitored) : monitored :=
  Nat.iter (change_listeners w) (fun w' => fst (on_change c w')) w.

(** The elements that a listener of [change] uses. *)
Definition change_elements : list string := ["connectionType"; "statusText"; "statusMessage"].

(** A page with these elements, and a connection. *)
Definition change_page : gmap string element :=
  list_to_map (map (fun id => (id, Element "" "")) change_elements).

Definition wifi_4g : connection_t :=
  {| effectiveType := Some "4g"; type := Some "wifi"; downlink := Some (Fin 10) |}.

(** The labels of the chart are within the capacity. *)
Definition within_capacity (cfg : config_t) (s : analyzer) : Prop :=
  (length (timestamps (testData s)) <= maxDataPoints cfg)%nat.

(** ** Discarded samples, and a browser that is offline *)

(** What an iteration started in [s] leaves behind: either the array of
    samples as it was, with the series, the page and the chart untouched, or
    the array with one sample more, which is strictly between 0 and 1000. *)
Definition discarded_or_recorded (speeds : list number) (s : analyzer)
    (r : analyzer * outcome (list number)) : Prop :=
  (snd r = Returned speeds /\
   testData (fst r) = testData s /\ document (fst r) = document s /\
   renders (fst r) = renders s) \/
  (exists mbps, in_range mbps /\ snd r = Returned (speeds ++ [mbps])).

(** A browser that is offline: in each measurement the request for the
    favicon is rejected after 2 ms, the image fires no event and the peer
    connection finds no candidate. *)
Definition offline_trials : nat -> latency_trial :=
  fun _ => LatencyTrial (Some (Rejects 2 (Error "Failed to fetch"))) None None (1 # 2) 0.

(** * Properties *)

(** ** Running a method step by step *)

Lemma bind_returned {A B : Type} (m : M A) (k : A -> M B) s s' a :
  m s = (s', Returned a) -> bind m k s = k a s'.
Proof. intros H. unfold bind. now rewrite H. Qed.

Lemma try_catch_returned {A : Type} (m : M A) h s s' a :
  m s = (s', Returned a) -> try_catch m h s = (s', Returned a).
Proof. intros H. unfold try_catch. now rewrite H. Qed.

Lemma try_catch_thrown {A : Type} (m : M A) h s s' e :
  m s = (s', Thrown e) -> try_catch m h s = h e s'.
Proof. intros H. unfold try_catch. now rewrite H. Qed.

Lemma set_textContent_present id v s el :
  document s !! id = Some el ->
  set_textContent id v s =
    (set_document (<[id := Element v (color el)]> (document s)) s, Returned tt).
Proof. intros H. unfold set_textContent. now rewrite H. Qed.

(** ** Stability of a property along a method *)

Section Stable.

Context (I : analyzer -> Prop).

Lemma stable_ret {A : Type} (a : A) : stable I (ret a).
Proof. intros s H. exact H. Qed.

Lemma stable_throw {A : Type} (e : error) : stable I (@throw A e).
Proof. intros s H. exact H. Qed.

Lemma stable_gets {A : Type} (f : analyzer -> A) : stable I (gets f).
Proof. intros s H. exact H. Qed.

Lemma stable_bind {A B : Type} (m : M A) (k : A -> M B) :
  stable I m -> (forall a, stable I (k a)) -> stable I (bind m k).
Proof.
  intros Hm Hk s H. unfold exec, bind. specialize (Hm s H). unfold exec in Hm.
  destruct (m s) as [s' [a | e]]; simpl in *.
  - apply Hk, Hm.
  - exact Hm.
Qed.

Lemma stable_try_catch {A : Type} (m : M A) (h : error -> M A) :
  stable I m -> (forall e, stable I (h e)) -> stable I (try_catch m h).
Proof.
  intros Hm Hh s H. unfold exec, try_catch. specialize (Hm s H). unfold exec in Hm.
  destruct (m s) as [s' [a | e]]; simpl in *.
  - exact Hm.
  - apply Hh, Hm.
Qed.

Lemma stable_try_finally {A : Type} (m : M A) (f : M unit) :
  stable I m -> stable I f -> stable I (try_finally m f).
Proof.
  intros Hm Hf s H. unfold exec, try_finally. specialize (Hm s H). unfold exec in Hm.
  destruct (m s) as [s' r]; simpl in *.
  specialize (Hf s' Hm). unfold exec in Hf.
  destruct (f s') as [s'' [[] | e]]; exact Hf.
Qed.

Lemma stable_modify (f : analyzer -> analyzer) :
  (forall s, I s -> I (f s)) -> stable I (modify f).
Proof. intros Hf s H. apply Hf, H. Qed.

Lemma stable_for_each {A : Type} (f : A -> M unit) (l : list A) :
  (forall x, stable I (f x)) -> stable I (for_each f l).
Proof.
  intros Hf. induction l as [| x l IH]; simpl.
  - apply stable_ret.
  - apply stable_bind; [apply Hf | intros _; exact IH].
Qed.

Lemma stable_touch id : stable I (touch id).
Proof. intros s H. unfold exec, touch. now destruct (document s !! id). Qed.

Lemma stable_set_textContent `{!DocInv I} id v : stable I (set_textContent id v).
Proof.
  intros s H. unfold exec, set_textContent.
  destruct (document s !! id) as [el |] eqn:E; simpl; [| exact H].
  apply doc_inv; [exact H |]. apply dom_insert_lookup_L. now rewrite E.
Qed.

Lemma stable_set_color `{!DocInv I} id c : stable I (set_color id c).
Proof.
  intros s H. unfold exec, set_color.
  destruct (document s !! id) as [el |] eqn:E; simpl; [| exact H].
  apply doc_inv; [exact H |]. apply dom_insert_lookup_L. now rewrite E.
Qed.

Lemma stable_set_textContent_if_present `{!DocInv I} id v :
  stable I (set_textContent_if_present id v).
Proof.
  intros s H. unfold exec, set_textContent_if_present.
  destruct (document s !! id) as [el |] eqn:E; simpl; [| exact H].
  apply doc_inv; [exact H |]. apply dom_insert_lookup_L. now rewrite E.
Qed.

Lemma stable_advance `{!ClockInv I} ms : stable I (advance ms).
Proof. intros s H. apply clock_inv; [exact H | lia]. Qed.

Lemma stable_sleep `{!ClockInv I} ms late0 : stable I (sleep ms late0).
Proof. apply stable_advance. Qed.

Lemma stable_await `{!ClockInv I} {A : Type} (p : promise A) : stable I (await p).
Proof.
  destruct p; simpl; (apply stable_bind; [apply stable_advance | intros _]).
  - apply stable_ret.
  - apply stable_throw.
Qed.

Lemma stable_race `{!ClockInv I} {A : Type} (p : option (promise A)) t msg :
  stable I (race p t msg).
Proof.
  unfold race. destruct p as [[d v | d e] |]; try destruct (d <? t)%N;
    (apply stable_bind; [apply stable_advance | intros _]);
    first [apply stable_ret | apply stable_throw].
Qed.

Lemma stable_fetchWithTimeout `{!ClockInv I} {A : Type} (p : option (promise A)) t :
  stable I (fetchWithTimeout p t).
Proof. apply stable_race. Qed.

End Stable.

Ltac stable_modify :=
  apply stable_modify; intros ? ?;
  first
    [ eapply data_push_download | eapply data_push_upload | eapply data_limit
    | eapply data_chart | eapply data_reset | eapply chart_reset
    | apply run_inv | apply notify_inv | apply stats_inv ];
  eassumption.

Ltac stable_step :=
  first
    [ solve [eauto 2]
    | apply stable_ret | apply stable_throw | apply stable_gets | apply stable_touch
    | apply stable_set_textContent | apply stable_set_color
    | apply stable_set_textContent_if_present
    | apply stable_advance | apply stable_sleep | apply stable_await
    | apply stable_race | apply stable_fetchWithTimeout
    | apply stable_bind; [| intros ?]
    | apply stable_try_catch; [| intros ?]
    | apply stable_try_finally
    | apply stable_for_each; intros ?
    | stable_modify
    | progress cbv zeta
    | match goal with
      | |- stable _ (if ?b then _ else _) => destruct b
      | |- stable _ (match ?x with _ => _ end) => destruct x
      | |- DocInv _ => solve [typeclasses eauto]
      | |- ClockInv _ => solve [typeclasses eauto]
      | |- NotifyInv _ => solve [typeclasses eauto]
      | |- RunInv _ => solve [typeclasses eauto]
      | |- StatsInv _ => solve [typeclasses eauto]
      | |- DataInv _ _ => solve [typeclasses eauto]
      end ].

Ltac stable_auto := repeat stable_step.

Section StableMethods.

Context (cfg : config_t) (tl : Z -> string) (I : analyzer -> Prop).
Context `{!DocInv I, !ClockInv I, !NotifyInv I, !RunInv I, !StatsInv I, !DataInv cfg I}.

Lemma stable_showStatus msg ty : stable I (showStatus msg ty).
Proof. unfold showStatus. stable_auto. Qed.

Lemma stable_updateProgress p phase : stable I (updateProgress p phase).
Proof. unfold updateProgress. stable_auto. Qed.

Lemma stable_updateChart : stable I (updateChart cfg).
Proof. unfold updateChart. stable_auto. Qed.

Lemma stable_updateDownloadSpeed speed : stable I (updateDownloadSpeed cfg tl speed).
Proof.
  pose proof stable_updateChart.
  unfold updateDownloadSpeed, animateGauge. stable_auto.
Qed.

Lemma stable_updateUploadSpeed speed : stable I (updateUploadSpeed cfg speed).
Proof.
  pose proof stable_updateChart.
  unfold updateUploadSpeed, animateGauge. stable_auto.
Qed.

Lemma stable_stopSpeedTest : stable I stopSpeedTest.
Proof.
  unfold stopSpeedTest, showProgressContainer, updateButtonStates. stable_auto.
Qed.

Lemma stable_resetTestUI : stable I resetTestUI.
Proof. unfold resetTestUI. stable_auto. Qed.

Lemma stable_updateStats : stable I updateStats.
Proof. unfold updateStats, updateStatsUI. stable_auto. Qed.

Lemma stable_pause ms late0 stop : stable I (pause ms late0 stop).
Proof.
  pose proof stable_stopSpeedTest.
  unfold pause, interleaved. stable_auto.
Qed.

Lemma stable_downloadIteration p speeds : stable I (downloadIteration cfg tl p speeds).
Proof.
  pose proof stable_updateDownloadSpeed.
  unfold downloadIteration, recordDownload. stable_auto.
Qed.

Lemma stable_uploadIteration p speeds : stable I (uploadIteration cfg p speeds).
Proof.
  pose proof stable_updateUploadSpeed.
  unfold uploadIteration, recordUpload. stable_auto.
Qed.

Lemma stable_downloadLoop fuel startTime env i speeds :
  stable I (downloadLoop cfg tl fuel startTime env i speeds).
Proof.
  pose proof stable_updateProgress. pose proof stable_downloadIteration.
  pose proof stable_pause.
  revert i speeds. induction fuel as [| fuel IH]; intros i speeds; cbn [downloadLoop].
  - apply stable_ret.
  - stable_auto.
Qed.

Lemma stable_uploadLoop fuel startTime env i speeds :
  stable I (uploadLoop cfg fuel startTime env i speeds).
Proof.
  pose proof stable_updateProgress. pose proof stable_uploadIteration.
  pose proof stable_pause.
  revert i speeds. induction fuel as [| fuel IH]; intros i speeds; cbn [uploadLoop].
  - apply stable_ret.
  - stable_auto.
Qed.

Lemma stable_runDownloadTest env : stable I (runDownloadTest cfg tl env).
Proof.
  pose proof stable_downloadLoop. pose proof stable_updateDownloadSpeed.
  unfold runDownloadTest. stable_auto.
Qed.

Lemma stable_runUploadTest env : stable I (runUploadTest cfg env).
Proof.
  pose proof stable_uploadLoop. pose proof stable_updateUploadSpeed.
  pose proof stable_updateProgress.
  unfold runUploadTest. stable_auto.
Qed.

Lemma stable_startSpeedTest env : stable I (startSpeedTest cfg tl env).
Proof.
  pose proof stable_runDownloadTest. pose proof stable_runUploadTest.
  pose proof stable_pause. pose proof stable_updateStats.
  pose proof stable_showStatus. pose proof stable_stopSpeedTest.
  pose proof stable_resetTestUI.
  unfold startSpeedTest, test_sequence, showProgressContainer, updateButtonStates.
  stable_auto.
Qed.

End StableMethods.

Section StableNetwork.

Context (I : analyzer -> Prop).
Context `{!DocInv I, !ClockInv I, !NotifyInv I}.

Lemma stable_measureLatencyWithFetch t : stable I (measureLatencyWithFetch t).
Proof. unfold measureLatencyWithFetch. stable_auto. Qed.

Lemma stable_measureLatencyWithImage t : stable I (measureLatencyWithImage t).
Proof. unfold measureLatencyWithImage. stable_auto. Qed.

Lemma stable_measureLatencyWithWebRTC t : stable I (measureLatencyWithWebRTC t).
Proof. unfold measureLatencyWithWebRTC. stable_auto. Qed.

Lemma stable_latency_trials m1 m2 m3 rnd late n i ms :
  (forall i, stable I (m1 i)) -> (forall i, stable I (m2 i)) -> (forall i, stable I (m3 i)) ->
  stable I (latency_trials m1 m2 m3 rnd late n i ms).
Proof.
  intros H1 H2 H3. revert i ms.
  induction n as [| n IH]; intros i ms; cbn [latency_trials].
  - apply stable_ret.
  - unfold latency_of_trial. stable_auto.
Qed.

Lemma stable_measureLatencyWith m1 m2 m3 rnd late :
  (forall i, stable I (m1 i)) -> (forall i, stable I (m2 i)) -> (forall i, stable I (m3 i)) ->
  stable I (measureLatencyWith m1 m2 m3 rnd late).
Proof.
  intros H1 H2 H3. pose proof (stable_latency_trials m1 m2 m3 rnd late) as H.
  unfold measureLatencyWith. stable_auto.
Qed.

Lemma stable_measureLatency env : stable I (measureLatency env).
Proof.
  apply stable_measureLatencyWith; intros i.
  - apply stable_measureLatencyWithFetch.
  - apply stable_measureLatencyWithImage.
  - apply stable_measureLatencyWithWebRTC.
Qed.

Lemma stable_getLocalIPFallback env : stable I (getLocalIPFallback env).
Proof. unfold getLocalIPFallback. stable_auto. Qed.

Lemma stable_getLocalIP env : stable I (getLocalIP env).
Proof. pose proof stable_getLocalIPFallback. unfold getLocalIP. stable_auto. Qed.

Lemma stable_getNetworkName nav : stable I (getNetworkName nav).
Proof. unfold getNetworkName. stable_auto. Qed.

Lemma stable_getNetworkConnectionInfo nav : stable I (getNetworkConnectionInfo nav).
Proof. pose proof stable_getNetworkName. unfold getNetworkConnectionInfo. stable_auto. Qed.

Lemma stable_analyzeConnectionQuality nav : stable I (analyzeConnectionQuality nav).
Proof. unfold analyzeConnectionQuality. stable_auto. Qed.

Lemma stable_updateNetworkInfo data : stable I (updateNetworkInfo data).
Proof. unfold updateNetworkInfo. stable_auto. Qed.

Lemma stable_handleNetworkInfoError e : stable I (handleNetworkInfoError e).
Proof.
  pose proof (stable_showStatus I). unfold handleNetworkInfoError. stable_auto.
Qed.

Lemma stable_loadNetworkInfo env : stable I (loadNetworkInfo env).
Proof.
  pose proof (stable_showStatus I). pose proof stable_getLocalIP.
  pose proof stable_getNetworkConnectionInfo. pose proof stable_updateNetworkInfo.
  pose proof stable_measureLatency. pose proof stable_analyzeConnectionQuality.
  pose proof stable_handleNetworkInfoError.
  unfold loadNetworkInfo. stable_auto.
Qed.

End StableNetwork.

(** A property that no elementary state change breaks holds after any
    sequence of events. *)
Lemma stable_after cfg tl (I : analyzer -> Prop)
    `{!DocInv I, !ClockInv I, !NotifyInv I, !RunInv I, !StatsInv I, !DataInv cfg I} evs s :
  I s -> I (after cfg tl evs s).
Proof.
  revert s. induction evs as [| ev evs IH]; intros s H; [exact H |].
  apply IH. destruct ev; simpl.
  - now apply stable_startSpeedTest.
  - now apply stable_stopSpeedTest.
  - now apply stable_loadNetworkInfo.
  - now apply (stable_updateDownloadSpeed cfg tl I).
  - now apply (stable_updateUploadSpeed cfg I).
  - now apply (stable_resetTestUI cfg I).
Qed.

(** ** The invariants *)

#[export] Instance has_elements_doc ids : DocInv (has_elements ids).
Proof.
  intros s d H E id Hid. simpl. apply elem_of_dom. rewrite E. apply elem_of_dom, H, Hid.
Qed.

#[export] Instance has_elements_clock ids : ClockInv (has_elements ids).
Proof. intros s t H _. exact H. Qed.

#[export] Instance has_elements_notify ids : NotifyInv (has_elements ids).
Proof. intros s n H. exact H. Qed.

#[export] Instance has_elements_run ids : RunInv (has_elements ids).
Proof. intros s b H. exact H. Qed.

#[export] Instance has_elements_stats ids : StatsInv (has_elements ids).
Proof. intros s st H. exact H. Qed.

#[export] Instance has_elements_data cfg ids : DataInv cfg (has_elements ids).
Proof. split; intros; assumption. Qed.

#[export] Instance clock_from_doc t : DocInv (clock_from t).
Proof. intros s d H _. exact H. Qed.

#[export] Instance clock_from_clock t : ClockInv (clock_from t).
Proof. intros s t' H Hle. unfold clock_from in *. simpl. lia. Qed.

#[export] Instance clock_from_notify t : NotifyInv (clock_from t).
Proof. intros s n H. exact H. Qed.

#[export] Instance clock_from_run t : RunInv (clock_from t).
Proof. intros s b H. exact H. Qed.

#[export] Instance clock_from_stats t : StatsInv (clock_from t).
Proof. intros s st H. exact H. Qed.

#[export] Instance clock_from_data cfg t : DataInv cfg (clock_from t).
Proof. split; intros; assumption. Qed.

#[export] Instance aligned_doc : DocInv aligned.
Proof. intros s d H _. exact H. Qed.

#[export] Instance aligned_clock : ClockInv aligned.
Proof. intros s t H _. exact H. Qed.

#[export] Instance aligned_notify : NotifyInv aligned.
Proof. intros s n H. exact H. Qed.

#[export] Instance aligned_run : RunInv aligned.
Proof. intros s b H. exact H. Qed.

#[export] Instance aligned_stats : StatsInv aligned.
Proof. intros s st H. exact H. Qed.

Lemma length_shift {A : Type} (l : list A) : length (shift l) = pred (length l).
Proof. now destruct l. Qed.

#[export] Instance aligned_data cfg : DataInv cfg aligned.
Proof.
  split; intros s; unfold aligned, aligned_chart; simpl.
  - intros speed t (H1 & H2 & H3). rewrite !length_app. simpl. split; [lia | auto].
  - intros speed (H1 & H2 & H3). auto.
  - intros (H1 & H2 & H3). split; [| auto]. unfold limit_data_points.
    destruct (maxDataPoints cfg <? length (timestamps (testData s)))%nat; simpl; [| exact H1].
    rewrite !length_shift. lia.
  - intros (H1 & H2 & H3). split; [exact H1 |]. split; [exact H1 |].
    apply Forall_app. split; [exact H3 |]. constructor; [exact H1 | constructor].
  - intros (H1 & H2 & H3). auto.
  - intros (H1 & H2 & H3). split; [exact H1 |]. split; [reflexivity |].
    apply Forall_app. split; [exact H3 |]. constructor; [reflexivity | constructor].
Qed.

Lemma Forall_shift {A : Type} (P : A -> Prop) (l : list A) : Forall P l -> Forall P (shift l).
Proof. intros H. destruct H; simpl; [constructor | assumption]. Qed.

(** ** Publications *)

Lemma updateDownloadSpeed_run cfg tl speed s :
  is_Some (document s !! "downloadSpeed") ->
  result (updateDownloadSpeed cfg tl speed) s = Returned tt /\
  testData (exec (updateDownloadSpeed cfg tl speed) s) =
    limit_data_points cfg
      (push_download (displaySpeed speed) (tl (clock s)) (testData s)).
Proof.
  intros [el H]. unfold result, exec, updateDownloadSpeed.
  rewrite (bind_returned _ _ _ _ _ (set_textContent_present _ _ _ _ H)).
  unfold updateChart, animateGauge, bind, modify, touch. simpl.
  rewrite lookup_insert_eq. simpl. auto.
Qed.

Lemma updateDownloadSpeed_absent cfg tl speed s :
  document s !! "downloadSpeed" = None ->
  exec (updateDownloadSpeed cfg tl speed) s = s.
Proof.
  intros H. unfold exec, updateDownloadSpeed, bind, set_textContent. now rewrite H.
Qed.

Lemma updateUploadSpeed_run cfg speed s :
  is_Some (document s !! "uploadSpeed") ->
  result (updateUploadSpeed cfg speed) s = Returned tt /\
  testData (exec (updateUploadSpeed cfg speed) s) =
    limit_data_points cfg (push_upload (displaySpeed speed) (testData s)).
Proof.
  intros [el H]. unfold result, exec, updateUploadSpeed.
  rewrite (bind_returned _ _ _ _ _ (set_textContent_present _ _ _ _ H)).
  unfold updateChart, animateGauge, bind, modify, touch. simpl.
  rewrite lookup_insert_eq. simpl. auto.
Qed.

Lemma updateUploadSpeed_absent cfg speed s :
  document s !! "uploadSpeed" = None ->
  exec (updateUploadSpeed cfg speed) s = s.
Proof.
  intros H. unfold exec, updateUploadSpeed, bind, set_textContent. now rewrite H.
Qed.

(** ** The sampling loop on scenario 1 *)

(** C3, as stated, fails: with a 50 ms probe and a 200 ms pause an iteration
    takes 250 ms, so the loop of one second does not record five samples. *)
Lemma C3_five_samples_refuted :
  ~ exists samples,
      result (downloadLoop scenario_config clock_label (loop_fuel scenario_config) 0
                scenario_probes 0 []) running_state = Returned samples /\
      length samples = 5%nat.
Proof.
  intros (samples & H & Hlen). vm_compute in H.
  injection H as <-. discriminate Hlen.
Qed.

(** C3, amended: on scenario 1 the loop records exactly four samples
    (iterations start 0, 250, 500 and 750 ms after the loop), each equal to
    [100000 * 8 / (1024 * 1024 * 0.05) = 15.2587890625] Mbps; their mean is
    that same value; and [runDownloadTest] leaves five entries in the
    download series, the four samples and the mean, all published as 15.26.
    In binary64 too the mean of four such samples is the sample itself. *)
Theorem C3_four_samples_of_equal_value :
  let v := megabits_per_second 100000 0 50 in
  v = Fin (15625 # 1024) /\
  result (downloadLoop scenario_config clock_label (loop_fuel scenario_config) 0
            scenario_probes 0 []) running_state = Returned [v; v; v; v] /\
  average [v; v; v; v] = v /\
  result (runDownloadTest scenario_config clock_label scenario_probes) running_state
    = Returned tt /\
  download (testData (exec (runDownloadTest scenario_config clock_label scenario_probes)
                        running_state))
    = [displaySpeed v; displaySpeed v; displaySpeed v; displaySpeed v; displaySpeed v] /\
  displaySpeed v = Fin (763 # 50) /\
  (763 # 50 == 15.26)%Q /\
  (let w := Binary64.megabits_per_second (Binary64.of_Z 100000) Binary64.zero
              Binary64.fifty in
   Binary64.average [w; w; w; w] = w).
Proof. vm_compute. repeat split; reflexivity. Qed.

(** ** The upload series in an ordinary session *)

(** C1 at its failing input: an ordinary session with the shipped
    configuration (capacity 20) returns normally with 20 download values and
    20 timestamps, but 41 upload values: the 40 samples of the upload phase
    and their mean, none of which was evicted. *)
Theorem C1_upload_series_outgrows_capacity :
  exists s,
    startSpeedTest default_config clock_label ordinary_session (constructed speed_page 0)
      = (s, Returned tt) /\
    maxDataPoints default_config = 20%nat /\
    length (download (testData s)) = 20%nat /\
    length (timestamps (testData s)) = 20%nat /\
    length (upload (testData s)) = 41%nat.
Proof. eexists. split; [vm_compute; reflexivity |]. vm_compute. repeat split; reflexivity. Qed.

(** ** Comparisons *)

Lemma Qle_bool_true a b : Qle_bool a b = true <-> (a <= b)%Q.
Proof. apply Qle_bool_iff. Qed.

Lemma Qle_bool_false a b : Qle_bool a b = false <-> (b < a)%Q.
Proof.
  split; intros H.
  - apply Qnot_le_lt. intros Hle. apply Qle_bool_iff in Hle. congruence.
  - destruct (Qle_bool a b) eqn:E; [| reflexivity].
    apply Qle_bool_iff in E. lra.
Qed.

Lemma Qltb_true a b : Qltb a b = true <-> (a < b)%Q.
Proof. unfold Qltb. rewrite negb_true_iff. apply Qle_bool_false. Qed.

Lemma Qltb_false a b : Qltb a b = false <-> (b <= a)%Q.
Proof. unfold Qltb. rewrite negb_false_iff. apply Qle_bool_true. Qed.

(** [x >= y] excludes [x < y]. *)
Lemma ge_not_lt x y : ge x y -> (x <? y)%js = false.
Proof.
  unfold ge. destruct x, y; simpl; try discriminate; try reflexivity.
  intros H. apply Qltb_false, Qle_bool_true, H.
Qed.

(** Among numbers other than [NaN], [x < y] fails exactly when [x >= y]. *)
Lemma not_lt_ge x y : x <> NaN -> y <> NaN -> (x <? y)%js = false -> ge x y.
Proof.
  unfold ge. destruct x, y; simpl; try discriminate; try reflexivity; try congruence.
  intros _ _ H. apply Qle_bool_true, Qltb_false, H.
Qed.

Lemma nonnegative_not_NaN x : nonnegative x -> x <> NaN.
Proof. intros H ->. discriminate H. Qed.

Lemma ge_trans_Z x (a b : Z) : (b <= a)%Z -> ge x (of_Z a) -> ge x (of_Z b).
Proof.
  unfold ge, of_Z. destruct x; simpl; try discriminate; try reflexivity.
  intros Hab H. apply Qle_bool_true in H. apply Qle_bool_true.
  apply Qle_trans with (inject_Z a); [| exact H].
  rewrite <- Zle_Qle. exact Hab.
Qed.

(** C5: the band of a latency is a function of the number alone, and for a
    non-negative number (finite or infinite) it is decided by half-open
    intervals: excellent exactly below 50, good exactly from 50 and below 100,
    fair exactly from 100 and below 200, poor exactly from 200; so 50 itself
    is good. *)
Theorem C5_latency_bands (x : number) :
  nonnegative x ->
  (latencyBand x = excellent <-> lt x (of_Z 50)) /\
  (latencyBand x = good <-> ge x (of_Z 50) /\ lt x (of_Z 100)) /\
  (latencyBand x = fair <-> ge x (of_Z 100) /\ lt x (of_Z 200)) /\
  (latencyBand x = poor <-> ge x (of_Z 200)) /\
  latencyBand (of_Z 50) = good.
Proof.
  intros Hx. pose proof (nonnegative_not_NaN x Hx) as Hn.
  assert (H50 : forall a, (50 <= a)%Z -> ge x (of_Z a) -> (x <? of_Z 50)%js = false).
  { intros a Ha H. apply ge_not_lt, (ge_trans_Z x a 50 Ha H). }
  assert (H100 : forall a, (100 <= a)%Z -> ge x (of_Z a) -> (x <? of_Z 100)%js = false).
  { intros a Ha H. apply ge_not_lt, (ge_trans_Z x a 100 Ha H). }
  assert (H200 : ge x (of_Z 200) -> (x <? of_Z 200)%js = false) by apply ge_not_lt.
  assert (Hnan : forall z, of_Z z <> NaN) by (intros z; discriminate).
  unfold latencyBand, lt.
  destruct (x <? of_Z 50)%js eqn:E50; [| destruct (x <? of_Z 100)%js eqn:E100;
    [| destruct (x <? of_Z 200)%js eqn:E200]].
  all: repeat split; try congruence; try discriminate; try reflexivity.
  all: try (intros [H1 H2]); try (intros H1).
  all: try (apply not_lt_ge; auto; fail).
  all: exfalso;
    match goal with
    | H : forall a, _ -> ge ?y (of_Z a) -> _ = false, G : ge ?y (of_Z ?b) |- _ =>
        specialize (H b ltac:(lia) G); discriminate
    | H : ge ?y (of_Z 200) -> _ = false, G : ge ?y (of_Z 200) |- _ =>
        specialize (H G); discriminate
    end.
Qed.

Lemma C5_latency_bands_witness :
  nonnegative (of_Z 75) /\ latencyBand (of_Z 75) = good /\ latencyBand (of_Z 50) = good.
Proof.
  assert (H : nonnegative (of_Z 75)) by reflexivity.
  split; [exact H |].
  destruct (C5_latency_bands (of_Z 75) H) as (_ & Hgood & _ & _ & H50).
  split; [| exact H50]. apply Hgood. split; reflexivity.
Defined.

(** ** Fields that a method leaves alone *)

#[export] Instance both_doc I J `{!DocInv I, !DocInv J} : DocInv (both I J).
Proof. intros s d [H1 H2] E. split; now apply doc_inv. Qed.

#[export] Instance both_clock I J `{!ClockInv I, !ClockInv J} : ClockInv (both I J).
Proof. intros s t [H1 H2] E. split; now apply clock_inv. Qed.

#[export] Instance both_notify I J `{!NotifyInv I, !NotifyInv J} : NotifyInv (both I J).
Proof. intros s n [H1 H2]. split; now apply notify_inv. Qed.

#[export] Instance both_run I J `{!RunInv I, !RunInv J} : RunInv (both I J).
Proof. intros s b [H1 H2]. split; now apply run_inv. Qed.

#[export] Instance both_stats I J `{!StatsInv I, !StatsInv J} : StatsInv (both I J).
Proof. intros s st [H1 H2]. split; now apply stats_inv. Qed.

#[export] Instance both_data cfg I J `{!DataInv cfg I, !DataInv cfg J} : DataInv cfg (both I J).
Proof.
  split; intros s; intros; destruct H as [H1 H2]; split;
    first [ now eapply data_push_download | now eapply data_push_upload
          | now eapply data_limit | now eapply data_chart
          | now eapply data_reset | now eapply chart_reset ].
Qed.

#[export] Instance keeps_running_doc b : DocInv (keeps isTestRunning b).
Proof. intros s d H _. exact H. Qed.

#[export] Instance keeps_running_clock b : ClockInv (keeps isTestRunning b).
Proof. intros s t H _. exact H. Qed.

#[export] Instance keeps_running_notify b : NotifyInv (keeps isTestRunning b).
Proof. intros s n H. exact H. Qed.

#[export] Instance keeps_running_stats b : StatsInv (keeps isTestRunning b).
Proof. intros s st H. exact H. Qed.

#[export] Instance keeps_running_data cfg b : DataInv cfg (keeps isTestRunning b).
Proof. split; intros; assumption. Qed.

#[export] Instance keeps_testData_doc td : DocInv (keeps testData td).
Proof. intros s d H _. exact H. Qed.

#[export] Instance keeps_testData_clock td : ClockInv (keeps testData td).
Proof. intros s t H _. exact H. Qed.

#[export] Instance keeps_testData_notify td : NotifyInv (keeps testData td).
Proof. intros s n H. exact H. Qed.

#[export] Instance keeps_testData_run td : RunInv (keeps testData td).
Proof. intros s b H. exact H. Qed.

#[export] Instance keeps_testData_stats td : StatsInv (keeps testData td).
Proof. intros s st H. exact H. Qed.

#[export] Instance keeps_notifications_doc n : DocInv (keeps notifications n).
Proof. intros s d H _. exact H. Qed.

#[export] Instance keeps_notifications_clock n : ClockInv (keeps notifications n).
Proof. intros s t H _. exact H. Qed.

(** ** Methods that return normally *)

Lemma exec_seq {B : Type} (m : M unit) (k : M B) s :
  returns (result m s) -> exec (m ;; k) s = exec k (exec m s).
Proof.
  unfold returns, result, exec, bind. destruct (m s) as [s' [[] | e]]; simpl; tauto.
Qed.

Section Safe.

Context (P : analyzer -> Prop).

Lemma safe_ret {A : Type} (a : A) : safe P (ret a).
Proof. intros s _. exact Logic.I. Qed.

Lemma safe_gets {A : Type} (f : analyzer -> A) : safe P (gets f).
Proof. intros s _. exact Logic.I. Qed.

Lemma safe_modify f : safe P (modify f).
Proof. intros s _. exact Logic.I. Qed.

Lemma safe_bind {A B : Type} (m : M A) (k : A -> M B) :
  stable P m -> safe P m -> (forall a, safe P (k a)) -> safe P (bind m k).
Proof.
  intros Hst Hm Hk s H. specialize (Hst s H). specialize (Hm s H).
  unfold returns, result, exec, bind in *.
  destruct (m s) as [s' [a | e]]; simpl in *; [| contradiction].
  apply (Hk a s' Hst).
Qed.

Lemma safe_try_catch {A : Type} (m : M A) (h : error -> M A) :
  stable P m -> (forall e, safe P (h e)) -> safe P (try_catch m h).
Proof.
  intros Hst Hh s H. specialize (Hst s H).
  unfold returns, result, exec, try_catch in *.
  destruct (m s) as [s' [a | e]]; simpl in *; [exact Logic.I |].
  apply (Hh e s' Hst).
Qed.

Lemma safe_interleaved (m : M unit) : stable P m -> safe P (interleaved m).
Proof. intros H. apply safe_try_catch; [exact H | intros e; apply safe_ret]. Qed.

Lemma safe_for_each {A : Type} (f : A -> M unit) (l : list A) :
  (forall x, stable P (f x)) -> (forall x, safe P (f x)) -> safe P (for_each f l).
Proof.
  intros Hst Hf. induction l as [| x l IH]; simpl.
  - apply safe_ret.
  - apply safe_bind; [apply Hst | apply Hf | intros _; exact IH].
Qed.

Lemma safe_set_textContent id v :
  (forall s, P s -> is_Some (document s !! id)) -> safe P (set_textContent id v).
Proof.
  intros H s Hs. destruct (H s Hs) as [el E].
  unfold returns, result, set_textContent. now rewrite E.
Qed.

Lemma safe_set_color id c :
  (forall s, P s -> is_Some (document s !! id)) -> safe P (set_color id c).
Proof.
  intros H s Hs. destruct (H s Hs) as [el E].
  unfold returns, result, set_color. now rewrite E.
Qed.

Lemma safe_touch id :
  (forall s, P s -> is_Some (document s !! id)) -> safe P (touch id).
Proof.
  intros H s Hs. destruct (H s Hs) as [el E].
  unfold returns, result, touch. now rewrite E.
Qed.

Lemma safe_set_textContent_if_present id v : safe P (set_textContent_if_present id v).
Proof.
  intros s _. unfold returns, result, set_textContent_if_present.
  now destruct (document s !! id).
Qed.

End Safe.

Lemma has_elements_lookup ids id s : id ∈ ids -> has_elements ids s -> is_Some (document s !! id).
Proof. intros Hid H. apply H, Hid. Qed.

Lemma has_elements_both_l ids J id s :
  id ∈ ids -> both (has_elements ids) J s -> is_Some (document s !! id).
Proof. intros Hid [H _]. apply H, Hid. Qed.

Ltac present :=
  intros ? ?;
  first [ eapply has_elements_lookup | eapply has_elements_both_l ];
  [ | eassumption ]; set_solver.

Ltac safe_step :=
  first
    [ apply safe_ret | apply safe_gets | apply safe_modify
    | apply safe_set_textContent_if_present
    | apply safe_set_textContent; present
    | apply safe_set_color; present
    | apply safe_touch; present
    | apply safe_bind; [solve [stable_auto] | | intros ?]
    | apply safe_try_catch; [solve [stable_auto] | intros ?]
    | apply safe_interleaved; solve [stable_auto]
    | apply safe_for_each; [intros ?; solve [stable_auto] | intros ?]
    | progress cbv zeta
    | match goal with
      | |- safe _ (if ?b then _ else _) => destruct b
      | |- safe _ (match ?x with _ => _ end) => destruct x
      end ].

Ltac safe_auto := repeat safe_step.

(** ** Start and stop *)

Lemma exec_modify_seq {B : Type} f (k : M B) s : exec (modify f ;; k) s = exec k (f s).
Proof. reflexivity. Qed.

Lemma exec_gets_bind {A B : Type} (f : analyzer -> A) (k : A -> M B) s :
  exec (x <- gets f ;; k x) s = exec (k (f s)) s.
Proof. reflexivity. Qed.

Lemma stopSpeedTest_idle s : isTestRunning (exec stopSpeedTest s) = false.
Proof.
  unfold stopSpeedTest. rewrite exec_modify_seq.
  assert (H : stable (keeps isTestRunning false)
                (showProgressContainer false ;; updateButtonStates false ;;
                 set_textContent "downloadStatus" "Ready to test" ;;
                 set_textContent "uploadStatus" "Ready to test")).
  { unfold showProgressContainer, updateButtonStates. stable_auto. }
  apply H. reflexivity.
Qed.

Lemma stopSpeedTest_testData s : testData (exec stopSpeedTest s) = testData s.
Proof.
  apply (stable_stopSpeedTest (keeps testData (testData s))). reflexivity.
Qed.

(** However a guarded body ends, the cleanup leaves the flag unset. *)
Lemma try_finally_stop_idle {A : Type} (m : M A) s :
  isTestRunning (exec (try_finally m stopSpeedTest) s) = false.
Proof.
  unfold exec, try_finally. destruct (m s) as [s' r].
  pose proof (stopSpeedTest_idle s') as H. unfold exec in H.
  destruct (stopSpeedTest s') as [s'' [[] | e]]; exact H.
Qed.

(** C7: [stopSpeedTest] on an idle analyzer leaves the flag unset and the
    three series as they were, and [startSpeedTest] on a running analyzer
    returns at once and changes nothing at all: no second session, no reset
    of the series. *)
Theorem C7_reentry_guards cfg tl env (s_idle s_running : analyzer) :
  isTestRunning s_idle = false ->
  isTestRunning s_running = true ->
  (isTestRunning (exec stopSpeedTest s_idle) = isTestRunning s_idle /\
   testData (exec stopSpeedTest s_idle) = testData s_idle) /\
  startSpeedTest cfg tl env s_running = (s_running, Returned tt).
Proof.
  intros Hidle Hrun. split; [split |].
  - rewrite Hidle. apply stopSpeedTest_idle.
  - apply stopSpeedTest_testData.
  - unfold startSpeedTest, bind, gets. now rewrite Hrun.
Qed.

Lemma C7_reentry_guards_witness :
  (isTestRunning (exec stopSpeedTest (constructed speed_page 0)) = false /\
   testData (exec stopSpeedTest (constructed speed_page 0)) = empty_testData) /\
  startSpeedTest default_config clock_label ordinary_session running_state
    = (running_state, Returned tt).
Proof.
  exact (C7_reentry_guards default_config clock_label ordinary_session
           (constructed speed_page 0) running_state eq_refl eq_refl).
Defined.

Lemma safe_setup_reset :
  safe (has_elements setup_elements) resetTestUI.
Proof. unfold resetTestUI. safe_auto. Qed.

(** C8: a session started on an idle analyzer whose page has the elements of
    the preamble ends with the flag unset, whether the sequence of download
    phase, pause, upload phase and statistics completes or throws: what it
    throws is caught, and [stopSpeedTest] runs in the [finally]. *)
Theorem C8_session_ends_idle cfg tl env s :
  isTestRunning s = false ->
  has_elements setup_elements s ->
  isTestRunning (exec (startSpeedTest cfg tl env) s) = false.
Proof.
  intros Hidle Hpage.
  unfold startSpeedTest. rewrite exec_gets_bind, Hidle, exec_modify_seq.
  set (s1 := set_isTestRunning true s).
  assert (H1 : has_elements setup_elements s1) by exact Hpage.
  rewrite exec_seq by (apply safe_setup_reset, H1).
  assert (H2 : has_elements setup_elements (exec resetTestUI s1)).
  { apply (stable_resetTestUI cfg (has_elements setup_elements)), H1. }
  set (s2 := exec resetTestUI s1) in *.
  assert (Hs : safe (has_elements setup_elements) (showProgressContainer true)).
  { unfold showProgressContainer. safe_auto. }
  rewrite exec_seq by (apply Hs, H2).
  assert (H3 : has_elements setup_elements (exec (showProgressContainer true) s2)).
  { apply (stable_touch (has_elements setup_elements) "progressContainer"), H2. }
  set (s3 := exec (showProgressContainer true) s2) in *.
  assert (Hb : safe (has_elements setup_elements) (updateButtonStates true)).
  { unfold updateButtonStates. safe_auto. }
  rewrite exec_seq by (apply Hb, H3).
  apply try_finally_stop_idle.
Qed.

Lemma has_elements_check ids s :
  forallb (fun id => bool_decide (is_Some (document s !! id))) ids = true ->
  has_elements ids s.
Proof.
  intros H id Hid. rewrite forallb_forall in H.
  apply list_elem_of_In in Hid. apply H in Hid. now apply bool_decide_eq_true in Hid.
Qed.

Lemma C8_session_ends_idle_witness :
  (let s := exec (startSpeedTest scenario_config clock_label ordinary_session)
              (constructed page_without_progress_bar 0) in
   isTestRunning s = false /\
   notifications s =
     [("Speed test failed. Please check your connection and try again.", "error")]) /\
  (let s := exec (startSpeedTest scenario_config clock_label ordinary_session)
              (constructed speed_page 0) in
   isTestRunning s = false /\
   notifications s = [("Speed test completed successfully", "success")]).
Proof.
  split; (split; [| vm_compute; reflexivity]).
  - apply C8_session_ends_idle; [reflexivity |].
    apply has_elements_check. vm_compute. reflexivity.
  - apply C8_session_ends_idle; [reflexivity |].
    apply has_elements_check. vm_compute. reflexivity.
Defined.

(** ** The bound on the iterations of a loop is never what ends it *)

Lemma bind_ext {A B : Type} (m : M A) (k1 k2 : A -> M B) s :
  (forall a, k1 a (exec m s) = k2 a (exec m s)) -> bind m k1 s = bind m k2 s.
Proof.
  intros H. unfold bind, exec in *. destruct (m s) as [s' [a | e]]; simpl in *; [apply H | reflexivity].
Qed.

Lemma clock_pause ms late0 stop s :
  (clock s + ms <= clock (exec (pause ms late0 stop) s))%Z.
Proof.
  unfold pause.
  assert (Hret : returns (result (if stop then interleaved stopSpeedTest else ret tt) s)).
  { destruct stop; [| exact Logic.I].
    unfold returns, result, interleaved, try_catch.
    now destruct (stopSpeedTest s) as [s' [[] | e]]. }
  rewrite (exec_seq _ _ _ Hret).
  assert (Hc : clock_from (clock s) (exec (if stop then interleaved stopSpeedTest else ret tt) s)).
  { destruct stop.
    - apply (stable_try_catch (clock_from (clock s))).
      + apply stable_stopSpeedTest; typeclasses eauto.
      + intros e. apply stable_ret.
      + unfold clock_from. lia.
    - unfold clock_from, exec, ret. simpl. lia. }
  unfold clock_from in Hc. unfold exec, sleep, advance, modify in *. simpl. lia.
Qed.

Lemma downloadLoop_step cfg tl fuel start env i speeds s :
  downloadLoop cfg tl (S fuel) start env i speeds s =
  if (clock s - start <? testDuration cfg)%Z && isTestRunning s then
    (updateProgress
       (of_Z (clock s - start) / of_Z (testDuration cfg) * of_Z 50)%js
       "Testing download speed..." ;;
     speeds' <- downloadIteration cfg tl (env i) speeds ;;
     pause (Zpos (updateInterval cfg)) (timer_late (env i)) (stop_pressed (env i)) ;;
     downloadLoop cfg tl fuel start env (S i) speeds') s
  else (s, Returned speeds).
Proof.
  cbn [downloadLoop]. unfold bind at 1 2, gets.
  now destruct ((clock s - start <? testDuration cfg)%Z && isTestRunning s).
Qed.

Lemma uploadLoop_step cfg fuel start env i speeds s :
  uploadLoop cfg (S fuel) start env i speeds s =
  if (clock s - start <? testDuration cfg)%Z && isTestRunning s then
    (updateProgress
       (of_Z 50 + of_Z (clock s - start) / of_Z (testDuration cfg) * of_Z 50)%js
       "Testing upload speed..." ;;
     speeds' <- uploadIteration cfg (env i) speeds ;;
     pause (Zpos (updateInterval cfg)) (timer_late (env i)) (stop_pressed (env i)) ;;
     uploadLoop cfg fuel start env (S i) speeds') s
  else (s, Returned speeds).
Proof.
  cbn [uploadLoop]. unfold bind at 1 2, gets.
  now destruct ((clock s - start <? testDuration cfg)%Z && isTestRunning s).
Qed.

Lemma downloadLoop_fuel cfg tl fuel start env i speeds s :
  (testDuration cfg - (clock s - start) < Z.of_nat fuel)%Z ->
  downloadLoop cfg tl (S fuel) start env i speeds s =
  downloadLoop cfg tl fuel start env i speeds s.
Proof.
  revert i speeds s. induction fuel as [| fuel IH]; intros i speeds s H.
  - rewrite downloadLoop_step.
    replace (clock s - start <? testDuration cfg)%Z with false; [reflexivity |].
    symmetry. apply Z.ltb_ge. lia.
  - rewrite (downloadLoop_step cfg tl (S fuel)), (downloadLoop_step cfg tl fuel).
    destruct ((clock s - start <? testDuration cfg)%Z && isTestRunning s); [| reflexivity].
    apply bind_ext. intros _.
    pose proof (stable_updateProgress (clock_from (clock s))
                  (of_Z (clock s - start) / of_Z (testDuration cfg) * of_Z 50)%js
                  "Testing download speed..." s ltac:(unfold clock_from; lia)) as H1.
    set (s1 := exec (updateProgress _ _) s) in *.
    apply bind_ext. intros speeds1.
    pose proof (stable_downloadIteration cfg tl (clock_from (clock s)) (env i) speeds s1 H1) as H2.
    set (s2 := exec (downloadIteration _ _ _ _) s1) in *.
    apply bind_ext. intros _.
    pose proof (clock_pause (Z.pos (updateInterval cfg)) (timer_late (env i))
                  (stop_pressed (env i)) s2) as H3.
    set (s3 := exec (pause _ _ _) s2) in *.
    apply (IH (S i) speeds1 s3). unfold clock_from in *. lia.
Qed.

Lemma uploadLoop_fuel cfg fuel start env i speeds s :
  (testDuration cfg - (clock s - start) < Z.of_nat fuel)%Z ->
  uploadLoop cfg (S fuel) start env i speeds s =
  uploadLoop cfg fuel start env i speeds s.
Proof.
  revert i speeds s. induction fuel as [| fuel IH]; intros i speeds s H.
  - rewrite uploadLoop_step.
    replace (clock s - start <? testDuration cfg)%Z with false; [reflexivity |].
    symmetry. apply Z.ltb_ge. lia.
  - rewrite (uploadLoop_step cfg (S fuel)), (uploadLoop_step cfg fuel).
    destruct ((clock s - start <? testDuration cfg)%Z && isTestRunning s); [| reflexivity].
    apply bind_ext. intros _.
    pose proof (stable_updateProgress (clock_from (clock s))
                  (of_Z 50 + of_Z (clock s - start) / of_Z (testDuration cfg) * of_Z 50)%js
                  "Testing upload speed..." s ltac:(unfold clock_from; lia)) as H1.
    set (s1 := exec (updateProgress _ _) s) in *.
    apply bind_ext. intros speeds1.
    pose proof (stable_uploadIteration cfg (clock_from (clock s)) (env i) speeds s1 H1) as H2.
    set (s2 := exec (uploadIteration _ _ _) s1) in *.
    apply bind_ext. intros _.
    pose proof (clock_pause (Z.pos (updateInterval cfg)) (timer_late (env i))
                  (stop_pressed (env i)) s2) as H3.
    set (s3 := exec (pause _ _ _) s2) in *.
    apply (IH (S i) speeds1 s3). unfold clock_from in *. lia.
Qed.

(** X3: the loops of [runDownloadTest] and [runUploadTest] run with
    [loop_fuel] iterations allowed; allowing more changes nothing, so the
    bound is never what ends a loop: as long as the awaits of its
    iterations settle, a loop ends because its phase is over or the test was
    stopped. *)
Lemma loop_fuel_enough cfg tl env speeds s extra :
  downloadLoop cfg tl (loop_fuel cfg + extra) (clock s) env 0 speeds s =
  downloadLoop cfg tl (loop_fuel cfg) (clock s) env 0 speeds s /\
  uploadLoop cfg (loop_fuel cfg + extra) (clock s) env 0 speeds s =
  uploadLoop cfg (loop_fuel cfg) (clock s) env 0 speeds s.
Proof.
  induction extra as [| extra [IH1 IH2]].
  - rewrite Nat.add_0_r. split; reflexivity.
  - rewrite Nat.add_succ_r. split.
    + rewrite downloadLoop_fuel; [exact IH1 |]. unfold loop_fuel. lia.
    + rewrite uploadLoop_fuel; [exact IH2 |]. unfold loop_fuel. lia.
Qed.

(** ** The sanity filter *)

Lemma out_of_range_not_sane mbps : out_of_range mbps -> sane mbps = false.
Proof.
  unfold out_of_range, le, sane, gtb. intros [H | H].
  - now rewrite (ge_not_lt _ _ H).
  - rewrite (ge_not_lt _ _ H). apply andb_false_r.
Qed.

Lemma sane_in_range mbps : sane mbps = true -> in_range mbps.
Proof. unfold sane, gtb, in_range, lt. intros H. now apply andb_true_iff in H. Qed.

Section Yields.

Context {A : Type} (Q : A -> Prop).

Lemma yields_ret a : Q a -> yields Q (ret a).
Proof. intros H s. exact H. Qed.

Lemma yields_throw e : yields Q (throw e).
Proof. intros s. exact Logic.I. Qed.

Lemma yields_bind {B : Type} (R : B -> Prop) (m : M B) (k : B -> M A) :
  yields R m -> (forall b, R b -> yields Q (k b)) -> yields Q (bind m k).
Proof.
  intros Hm Hk s. specialize (Hm s). unfold result, bind in *.
  destruct (m s) as [s' [b | e]]; simpl in *; [| exact Logic.I].
  apply (Hk b Hm s').
Qed.

Lemma yields_seq {B : Type} (m : M B) (k : B -> M A) :
  (forall b, yields Q (k b)) -> yields Q (bind m k).
Proof.
  intros Hk. apply (yields_bind (fun _ => True)); [| intros b _; apply Hk].
  intros s. now destruct (result m s).
Qed.

Lemma yields_try_catch (m : M A) (h : error -> M A) :
  yields Q m -> (forall e, yields Q (h e)) -> yields Q (try_catch m h).
Proof.
  intros Hm Hh s. specialize (Hm s). unfold result, try_catch in *.
  destruct (m s) as [s' [a | e]]; simpl in *; [exact Hm |].
  apply (Hh e s').
Qed.

End Yields.

Lemma yields_downloadIteration cfg tl p speeds :
  Forall in_range speeds ->
  yields (Forall in_range) (downloadIteration cfg tl p speeds).
Proof.
  intros H. unfold downloadIteration, recordDownload.
  apply yields_try_catch; [| intros e; now apply yields_ret].
  apply yields_seq. intros testStart. apply yields_seq. intros resp.
  destruct (negb (ok resp)); [apply yields_throw |].
  apply yields_seq. intros bytes. apply yields_seq. intros testEnd. cbv zeta.
  destruct (sane (megabits_per_second bytes testStart testEnd)) eqn:E;
    [| now apply yields_ret].
  apply yields_seq. intros _. apply yields_ret.
  apply Forall_app. split; [exact H |].
  constructor; [now apply sane_in_range | constructor].
Qed.

Lemma yields_uploadIteration cfg p speeds :
  Forall in_range speeds ->
  yields (Forall in_range) (uploadIteration cfg p speeds).
Proof.
  intros H. unfold uploadIteration, recordUpload.
  apply yields_try_catch; [| intros e; now apply yields_ret].
  cbv zeta.
  apply yields_seq. intros testStart. apply yields_seq. intros resp.
  destruct (negb (ok resp)); [apply yields_throw |].
  apply yields_seq. intros _. apply yields_seq. intros testEnd.
  match goal with |- context [sane ?m] => destruct (sane m) eqn:E end;
    [| now apply yields_ret].
  apply yields_seq. intros _. apply yields_ret.
  apply Forall_app. split; [exact H |].
  constructor; [now apply sane_in_range | constructor].
Qed.

Lemma yields_downloadLoop cfg tl fuel start env i speeds :
  Forall in_range speeds ->
  yields (Forall in_range) (downloadLoop cfg tl fuel start env i speeds).
Proof.
  revert i speeds. induction fuel as [| fuel IH]; intros i speeds H; cbn [downloadLoop].
  - now apply yields_ret.
  - apply yields_seq. intros now. apply yields_seq. intros running.
    destruct ((now - start <? testDuration cfg)%Z && running); [| now apply yields_ret].
    apply yields_seq. intros _.
    apply (yields_bind _ (Forall in_range)); [now apply yields_downloadIteration |].
    intros speeds' H'. apply yields_seq. intros _. now apply IH.
Qed.

Lemma yields_uploadLoop cfg fuel start env i speeds :
  Forall in_range speeds ->
  yields (Forall in_range) (uploadLoop cfg fuel start env i speeds).
Proof.
  revert i speeds. induction fuel as [| fuel IH]; intros i speeds H; cbn [uploadLoop].
  - now apply yields_ret.
  - apply yields_seq. intros now. apply yields_seq. intros running.
    destruct ((now - start <? testDuration cfg)%Z && running); [| now apply yields_ret].
    apply yields_seq. intros _.
    apply (yields_bind _ (Forall in_range)); [now apply yields_uploadIteration |].
    intros speeds' H'. apply yields_seq. intros _. now apply IH.
Qed.

Lemma race_resolves {A : Type} d (v : A) t msg s :
  (d < t)%N ->
  race (Some (Resolves d v)) t msg s = (set_clock (clock s + Z.of_N d) s, Returned v).
Proof. intros H. unfold race. apply N.ltb_lt in H. now rewrite H. Qed.

Lemma in_range_sane mbps : in_range mbps -> sane mbps = true.
Proof. unfold sane, gtb, in_range, lt. intros [H1 H2]. now rewrite H1, H2. Qed.

Lemma not_in_range_not_sane mbps : ~ in_range mbps -> sane mbps = false.
Proof.
  intros H. destruct (sane mbps) eqn:E; [| reflexivity].
  destruct H. now apply sane_in_range.
Qed.

Lemma result_interleaved_then {A B : Type} (m : M A) (h : error -> M A) (b : B) s :
  (forall e s', returns (result (h e) s')) ->
  result (try_catch m h ;; ret b) s = Returned b.
Proof.
  intros Hh. unfold result, bind, try_catch, ret.
  destruct (m s) as [s1 [a | e]]; simpl; [reflexivity |].
  specialize (Hh e s1). unfold result in Hh.
  destruct (h e s1) as [s2 [a | e']]; simpl in *; [reflexivity | destruct Hh].
Qed.

Lemma recordDownload_cases cfg tl mbps speeds s :
  discarded_or_recorded speeds s (recordDownload cfg tl mbps speeds s).
Proof.
  unfold discarded_or_recorded, recordDownload.
  destruct (sane mbps) eqn:E.
  - right. exists mbps. split; [now apply sane_in_range |].
    apply (result_interleaved_then _ _ _ s). intros e s'. exact Logic.I.
  - left. repeat split.
Qed.

Lemma recordUpload_cases cfg mbps speeds s :
  discarded_or_recorded speeds s (recordUpload cfg mbps speeds s).
Proof.
  unfold discarded_or_recorded, recordUpload.
  destruct (sane mbps) eqn:E.
  - right. exists mbps. split; [now apply sane_in_range |].
    apply (result_interleaved_then _ _ _ s). intros e s'. exact Logic.I.
  - left. repeat split.
Qed.

Lemma discarded_or_recorded_later speeds s s1 (r : analyzer * outcome (list number)) :
  testData s1 = testData s -> document s1 = document s -> renders s1 = renders s ->
  discarded_or_recorded speeds s1 r ->
  discarded_or_recorded speeds s r.
Proof.
  intros H1 H2 H3 [(Hr & Ht & Hd & Hn) | (mbps & Hin & Hr)].
  - left. repeat split; congruence.
  - right. exists mbps. auto.
Qed.

Lemma try_catch_returns {A : Type} (m : M A) h s :
  returns (snd (m s)) -> try_catch m h s = m s.
Proof. unfold try_catch. destruct (m s) as [s1 [a | e]]; simpl; [reflexivity | intros []]. Qed.

Lemma discarded_or_recorded_returns speeds s r :
  discarded_or_recorded speeds s r -> returns (snd r).
Proof. intros [(-> & _) | (mbps & _ & ->)]; exact Logic.I. Qed.

Lemma downloadIteration_cases cfg tl p speeds s :
  discarded_or_recorded speeds s (downloadIteration cfg tl p speeds s).
Proof.
  unfold downloadIteration, fetchWithTimeout, race.
  destruct (request p) as [[d resp | d e] |];
    [destruct (d <? 3000)%N | destruct (d <? 3000)%N |];
    try solve [left; repeat split].
  destruct (ok resp) eqn:Hok.
  2:{ unfold try_catch, bind, gets, advance, modify, throw, ret. simpl. rewrite Hok. simpl.
      left. repeat split. }
  destruct (body resp) as [d' bytes | d' e] eqn:Hbody.
  2:{ unfold try_catch, bind, gets, advance, modify, throw, ret, await. simpl.
      rewrite Hok, Hbody. simpl. left. repeat split. }
  match goal with |- discarded_or_recorded _ _ (try_catch ?m ?h s) =>
    assert (Hrun : m s =
      recordDownload cfg tl
        (megabits_per_second bytes (clock s) (clock s + Z.of_N d + Z.of_N d'))
        speeds (set_clock (clock s + Z.of_N d + Z.of_N d') (set_clock (clock s + Z.of_N d) s)))
  end.
  { unfold bind at 1, gets at 1. unfold bind at 1. unfold advance, modify, ret, bind at 1.
    simpl. rewrite Hok. simpl. rewrite Hbody. reflexivity. }
  pose proof (recordDownload_cases cfg tl
                (megabits_per_second bytes (clock s) (clock s + Z.of_N d + Z.of_N d'))
                speeds
                (set_clock (clock s + Z.of_N d + Z.of_N d') (set_clock (clock s + Z.of_N d) s)))
    as Hcases.
  rewrite <- Hrun in Hcases.
  rewrite (try_catch_returns _ _ _ (discarded_or_recorded_returns _ _ _ Hcases)).
  revert Hcases. apply discarded_or_recorded_later; reflexivity.
Qed.

Lemma uploadIteration_cases cfg p speeds s :
  discarded_or_recorded speeds s (uploadIteration cfg p speeds s).
Proof.
  unfold uploadIteration, fetchWithTimeout, race. cbv zeta.
  set (payload := generateTestData _ _). clearbody payload.
  destruct (request p) as [[d resp | d e] |];
    [destruct (d <? 3000)%N | destruct (d <? 3000)%N |];
    try solve [left; repeat split].
  destruct (ok resp) eqn:Hok.
  2:{ unfold try_catch, bind, gets, advance, modify, throw, ret. simpl. rewrite Hok. simpl.
      left. repeat split. }
  destruct (body resp) as [d' bytes | d' e] eqn:Hbody.
  2:{ unfold try_catch, bind, gets, advance, modify, throw, ret, await. simpl.
      rewrite Hok, Hbody. simpl. left. repeat split. }
  match goal with |- discarded_or_recorded _ _ (try_catch ?m ?h s) =>
    assert (Hrun : m s =
      recordUpload cfg
        (megabits_per_second (Z.of_nat (String.length payload)) (clock s)
           (clock s + Z.of_N d + Z.of_N d'))
        speeds (set_clock (clock s + Z.of_N d + Z.of_N d') (set_clock (clock s + Z.of_N d) s)))
  end.
  { unfold bind at 1, gets at 1. unfold bind at 1. unfold advance, modify, ret, bind at 1.
    simpl. rewrite Hok. simpl. rewrite Hbody. reflexivity. }
  pose proof (recordUpload_cases cfg
                (megabits_per_second (Z.of_nat (String.length payload)) (clock s)
                   (clock s + Z.of_N d + Z.of_N d'))
                speeds
                (set_clock (clock s + Z.of_N d + Z.of_N d') (set_clock (clock s + Z.of_N d) s)))
    as Hcases.
  rewrite <- Hrun in Hcases.
  rewrite (try_catch_returns _ _ _ (discarded_or_recorded_returns _ _ _ Hcases)).
  revert Hcases. apply discarded_or_recorded_later; reflexivity.
Qed.

(** C6: the check that follows the computation of a sample, in either
    direction, records nothing when the sample is [<= 0] or [>= 1000], and
    nothing either when it is not strictly between 0 and 1000 for another
    reason ([NaN]): the array of samples, from which alone the final mean is
    taken, is returned as it was and the state, with its series, is left as
    it was.  A sample strictly between 0 and 1000 is appended to the array.
    So an iteration of either loop, whatever its request meets, either
    leaves the array, the series, the page and the chart as they were or
    appends one sample that is strictly between 0 and 1000; and every sample
    in the array that a loop returns is strictly between 0 and 1000. *)
Theorem C6_out_of_range_samples_discarded cfg tl :
  (forall mbps speeds s,
     out_of_range mbps ->
     recordDownload cfg tl mbps speeds s = (s, Returned speeds) /\
     recordUpload cfg mbps speeds s = (s, Returned speeds)) /\
  (forall mbps speeds s,
     ~ in_range mbps ->
     recordDownload cfg tl mbps speeds s = (s, Returned speeds) /\
     recordUpload cfg mbps speeds s = (s, Returned speeds)) /\
  (forall mbps speeds s,
     in_range mbps ->
     result (recordDownload cfg tl mbps speeds) s = Returned (speeds ++ [mbps]) /\
     result (recordUpload cfg mbps speeds) s = Returned (speeds ++ [mbps])) /\
  (forall p speeds s,
     discarded_or_recorded speeds s (downloadIteration cfg tl p speeds s) /\
     discarded_or_recorded speeds s (uploadIteration cfg p speeds s)) /\
  (forall fuel start env i, yields (Forall in_range) (downloadLoop cfg tl fuel start env i [])) /\
  (forall fuel start env i, yields (Forall in_range) (uploadLoop cfg fuel start env i [])).
Proof.
  split; [| split; [| split; [| split; [| split]]]].
  - intros mbps speeds s Hout. apply out_of_range_not_sane in Hout.
    unfold recordDownload, recordUpload. now rewrite Hout.
  - intros mbps speeds s Hout. apply not_in_range_not_sane in Hout.
    unfold recordDownload, recordUpload. now rewrite Hout.
  - intros mbps speeds s Hin. apply in_range_sane in Hin.
    unfold recordDownload, recordUpload. rewrite Hin.
    split; apply result_interleaved_then; intros e s'; exact Logic.I.
  - intros p speeds s. split.
    + apply downloadIteration_cases.
    + apply uploadIteration_cases.
  - intros. apply yields_downloadLoop. constructor.
  - intros. apply yields_uploadLoop. constructor.
Qed.

Lemma C6_out_of_range_samples_discarded_witness :
  megabits_per_second 131072 0 1 = Fin 1000 /\
  (recordDownload default_config clock_label (megabits_per_second 131072 0 1) []
     running_state = (running_state, Returned []) /\
   recordUpload default_config (megabits_per_second 131072 0 1) [] running_state
     = (running_state, Returned [])) /\
  (recordDownload default_config clock_label (megabits_per_second 0 0 50) []
     running_state = (running_state, Returned []) /\
   recordUpload default_config (megabits_per_second 0 0 50) [] running_state
     = (running_state, Returned [])) /\
  (recordDownload default_config clock_label NaN [] running_state
     = (running_state, Returned []) /\
   recordUpload default_config NaN [] running_state = (running_state, Returned [])) /\
  (result (recordDownload default_config clock_label (megabits_per_second 100000 0 50) [])
     running_state = Returned [megabits_per_second 100000 0 50] /\
   result (recordUpload default_config (megabits_per_second 100000 0 50) [])
     running_state = Returned [megabits_per_second 100000 0 50]).
Proof.
  destruct (C6_out_of_range_samples_discarded default_config clock_label)
    as (Hout & Hnot & Hin & _).
  split; [reflexivity |]. split; [| split; [| split]].
  - apply (Hout _ [] running_state). right. reflexivity.
  - apply (Hout _ [] running_state). left. reflexivity.
  - apply (Hnot _ [] running_state). intros [H _]. discriminate H.
  - apply (Hin _ [] running_state). split; reflexivity.
Defined.

(** ** Network information *)

#[export] Instance same_page_doc D : DocInv (same_page D).
Proof. intros s d H E. unfold same_page in *. simpl. congruence. Qed.

#[export] Instance same_page_clock D : ClockInv (same_page D).
Proof. intros s t H _. exact H. Qed.

#[export] Instance same_page_notify D : NotifyInv (same_page D).
Proof. intros s n H. exact H. Qed.

(** A method that is safe and keeps an invariant runs to a state with the
    invariant. *)
Lemma run_safe (P I : analyzer -> Prop) (m : M unit) s :
  safe P m -> stable I m -> P s -> I s ->
  exists s', m s = (s', Returned tt) /\ I s'.
Proof.
  intros Hsafe Hst HP HI. specialize (Hsafe s HP). specialize (Hst s HI).
  unfold returns, result, exec in *.
  destruct (m s) as [s' [[] | e]]; simpl in *; [| contradiction].
  now exists s'.
Qed.

Lemma showStatus_run msg ty s :
  has_elements lookup_elements s ->
  exists s',
    showStatus msg ty s = (s', Returned tt) /\
    notifications s' = notifications s ++ [(msg, ty)] /\
    dom (document s') = dom (document s) /\
    clock s' = clock s /\
    forall id, id <> "statusText" -> document s' !! id = document s !! id.
Proof.
  intros H.
  destruct (H "statusText" ltac:(repeat constructor)) as [el Hel].
  destruct (H "statusMessage" ltac:(repeat constructor)) as [el' Hel'].
  unfold showStatus.
  rewrite (bind_returned _ _ _ _ _ (set_textContent_present _ _ _ _ Hel)).
  unfold bind, touch, modify. cbn [document set_document].
  rewrite lookup_insert_ne by discriminate. rewrite Hel'.
  eexists. split; [reflexivity |]. cbn.
  split; [reflexivity |]. split; [| split; [reflexivity |]].
  - apply dom_insert_lookup_L. now rewrite Hel.
  - intros id Hid. now apply lookup_insert_ne.
Qed.

Lemma error_state_run (l : list string) s :
  exists s',
    for_each (fun id => set_textContent_if_present id "Error loading") l s
      = (s', Returned tt) /\
    notifications s' = notifications s /\
    dom (document s') = dom (document s) /\
    (forall id, id ∈ l -> is_Some (document s !! id) -> shown id s' = Some "Error loading") /\
    (forall id, id ∉ l -> document s' !! id = document s !! id).
Proof.
  revert s. induction l as [| x l IH]; intros s; cbn [for_each].
  - exists s. repeat split; try reflexivity. intros id Hid. inversion Hid.
  - unfold bind at 1, set_textContent_if_present.
    destruct (document s !! x) as [el |] eqn:Ex.
    + set (s1 := set_document _ s).
      destruct (IH s1) as (s' & E & Hn & Hd & Hin & Hout).
      exists s'. split; [exact E |]. split; [exact Hn |]. split; [| split].
      * rewrite Hd. unfold s1. simpl. apply dom_insert_lookup_L. now rewrite Ex.
      * intros id Hid Hpres.
        destruct (decide (id ∈ l)) as [Hl | Hl].
        -- apply Hin; [exact Hl |].
           apply elem_of_dom. unfold s1. simpl.
           rewrite dom_insert_lookup_L by (now rewrite Ex). now apply elem_of_dom.
        -- assert (id = x) as -> by (apply elem_of_cons in Hid as [-> | Hid]; tauto).
           unfold shown. rewrite (Hout x Hl). unfold s1. simpl.
           now rewrite lookup_insert_eq.
      * intros id Hid. apply not_elem_of_cons in Hid as [Hne Hid].
        rewrite (Hout id Hid). unfold s1. simpl.
        apply lookup_insert_ne. congruence.
    + destruct (IH s) as (s' & E & Hn & Hd & Hin & Hout).
      exists s'. split; [exact E |]. split; [exact Hn |]. split; [exact Hd | split].
      * intros id Hid Hpres. apply Hin; [| exact Hpres].
        apply elem_of_cons in Hid as [-> | Hid]; [| exact Hid].
        rewrite Ex in Hpres. now destruct Hpres.
      * intros id Hid. apply not_elem_of_cons in Hid as [Hne Hid]. apply Hout, Hid.
Qed.

(** A lookup that fails throws, and only time has passed. *)
Lemma lookup_fails_run {A B : Type} (req : option (promise (response A)))
    (k : A -> M B) s :
  lookup_fails req ->
  exists e t,
    (r <- fetchWithTimeout req 5000 ;; v <- await (body r) ;; k v) s
      = (set_clock t s, Thrown e).
Proof.
  unfold lookup_fails, fetchWithTimeout, race.
  destruct req as [[d r | d e] |].
  - intros [Hd | (d' & e & Hb)].
    + apply N.ltb_ge in Hd. rewrite Hd. eexists. eexists. reflexivity.
    + destruct (d <? 5000)%N.
      * unfold bind, advance, modify, ret, await. cbn beta iota.
        rewrite Hb. eexists. eexists. reflexivity.
      * eexists. eexists. reflexivity.
  - intros _. destruct (d <? 5000)%N; eexists; eexists; reflexivity.
  - intros _. eexists. eexists. reflexivity.
Qed.

Lemma safe_getLocalIP P env :
  (forall s, P s -> is_Some (document s !! "localIP")) ->
  DocInv P -> ClockInv P ->
  safe P (getLocalIP env).
Proof.
  intros Hp Hdoc Hclock. unfold getLocalIP, getLocalIPFallback.
  apply safe_try_catch; [stable_auto |]. intros _.
  apply safe_try_catch; [stable_auto |]. intros _.
  now apply safe_set_textContent.
Qed.

Lemma safe_getNetworkConnectionInfo P nav : safe P (getNetworkConnectionInfo nav).
Proof.
  intros s _. unfold returns, result, getNetworkConnectionInfo, try_catch.
  now destruct (_ s) as [s' [[] | e]].
Qed.

(** C2, as stated, fails: on scenario 3 the address fetched by the IP lookup
    is not what the IP field shows in the end, and the local address found by
    the first step is gone as well. *)
Lemma C2_fetched_address_overwritten :
  let s := exec (loadNetworkInfo geolocation_timeout) (constructed network_page 0) in
  shown "publicIP" s <> Some "203.0.113.7" /\
  shown "publicIP" s = Some "Error loading" /\
  shown "localIP" s = Some "Error loading" /\
  shown "connectionSpeed" s = Some "Error loading".
Proof. vm_compute. repeat split; [discriminate | reflexivity ..]. Qed.

(** C2, amended: when the IP lookup succeeds and the geolocation lookup
    fails, on a page with the status banner and the two address fields,
    [loadNetworkInfo] returns normally and shows exactly one more banner
    after "Loading network information...", of type "error"; every one of
    the eight fields [publicIP], [location], [isp], [localIP],
    [networkName], [connectionSpeed], [signalStrength] and [networkQuality]
    that the page has then reads "Error loading", the IP field included, and
    every other element but the banner's text is as the steps before the
    failure left it. *)
Theorem C2_geolocation_failure_puts_fields_in_error_state
    (env : network) (s : analyzer) (d d' : N) (resp : response string) (ip : string) :
  ip_lookup env = Some (Resolves d resp) ->
  (d < 5000)%N ->
  body resp = Resolves d' ip ->
  lookup_fails (detail_lookup env) ->
  has_elements lookup_elements s ->
  let s' := exec (loadNetworkInfo env) s in
  result (loadNetworkInfo env) s = Returned tt /\
  (exists msg,
     notifications s' =
       notifications s ++ [("Loading network information...", "info"); (msg, "error")]) /\
  (forall id, id ∈ error_state_fields -> is_Some (document s !! id) ->
     shown id s' = Some "Error loading") /\
  shown "publicIP" s' = Some "Error loading" /\
  (forall id, id ∉ error_state_fields -> id <> "statusText" ->
     document s' !! id =
     document
       (exec (showStatus "Loading network information..." "info" ;;
              getLocalIP env ;;
              getNetworkConnectionInfo (navigator env)) s) !! id).
Proof.
  intros Hip Hd Hbody Hfail Hpage s'.
  set (D := dom (document s)).
  (* the banner *)
  destruct (showStatus_run "Loading network information..." "info" s Hpage)
    as (s1 & E1 & N1 & D1 & _ & _).
  set (n1 := notifications s ++ [("Loading network information...", "info")]) in *.
  set (K := both (has_elements lookup_elements) (both (keeps notifications n1) (same_page D))).
  assert (K1 : K s1).
  { split; [| split; [exact N1 | exact D1]].
    pose proof (stable_showStatus (has_elements lookup_elements)
                  "Loading network information..." "info" s Hpage) as HH.
    unfold exec in HH. now rewrite E1 in HH. }
  (* the first two steps *)
  destruct (run_safe K K (getLocalIP env) s1) as (s2 & E2 & K2); try exact K1.
  { apply safe_getLocalIP; [| typeclasses eauto ..].
    intros s0 [H0 _]. apply H0. repeat constructor. }
  { apply stable_getLocalIP; typeclasses eauto. }
  destruct (run_safe K K (getNetworkConnectionInfo (navigator env)) s2)
    as (s3 & E3 & K3); try exact K2.
  { apply safe_getNetworkConnectionInfo. }
  { apply stable_getNetworkConnectionInfo; typeclasses eauto. }
  (* the IP lookup and the IP field *)
  destruct K3 as (P3 & N3 & D3).
  destruct (P3 "publicIP" ltac:(repeat constructor)) as [el Hel].
  set (s5 := set_clock (clock s3 + Z.of_N d + Z.of_N d') s3).
  set (s6 := set_document (<["publicIP" := Element ip (color el)]> (document s3)) s5).
  (* the failure *)
  destruct (lookup_fails_run (detail_lookup env)
              (fun detailData =>
                 updateNetworkInfo detailData ;;
                 measureLatency (latency_env env) ;;
                 analyzeConnectionQuality (navigator env) ;;
                 showStatus "Network information updated successfully" "success")
              s6 Hfail) as (e & t & E7).
  set (s7 := set_clock t s6) in *.
  assert (P7 : has_elements lookup_elements s7).
  { intros id Hid. unfold s7, s6. simpl. apply elem_of_dom.
    rewrite dom_insert_lookup_L by (now rewrite Hel). apply elem_of_dom, P3, Hid. }
  set (msg := default (errorMessages !!! "default") (errorMessages !! message e)).
  destruct (showStatus_run msg "error" s7 P7) as (s8 & E8 & N8 & D8 & _ & F8).
  destruct (error_state_run error_state_fields s8) as (s9 & E9 & N9 & D9 & Hin & Hout).
  assert (Hbody_run :
    (showStatus "Loading network information..." "info" ;;
     getLocalIP env ;;
     getNetworkConnectionInfo (navigator env) ;;
     ipResponse <- fetchWithTimeout (ip_lookup env) 5000 ;;
     ip0 <- await (body ipResponse) ;;
     set_textContent "publicIP" ip0 ;;
     detailResponse <- fetchWithTimeout (detail_lookup env) 5000 ;;
     detailData <- await (body detailResponse) ;;
     updateNetworkInfo detailData ;;
     measureLatency (latency_env env) ;;
     analyzeConnectionQuality (navigator env) ;;
     showStatus "Network information updated successfully" "success") s
    = (s7, Thrown e)).
  { rewrite (bind_returned _ _ _ _ _ E1), (bind_returned _ _ _ _ _ E2),
      (bind_returned _ _ _ _ _ E3).
    rewrite Hip. unfold fetchWithTimeout at 1.
    rewrite (bind_returned _ _ _ _ _ (race_resolves _ _ _ _ _ Hd)).
    rewrite Hbody.
    assert (Ea : await (Resolves d' ip) (set_clock (clock s3 + Z.of_N d) s3)
                 = (s5, Returned ip)) by reflexivity.
    rewrite (bind_returned _ _ _ _ _ Ea).
    assert (Eb : set_textContent "publicIP" ip s5 = (s6, Returned tt)).
    { unfold set_textContent. unfold s5 at 1. cbn [document set_clock]. now rewrite Hel. }
    rewrite (bind_returned _ _ _ _ _ Eb).
    exact E7. }
  assert (Hrun : loadNetworkInfo env s = (s9, Returned tt)).
  { unfold loadNetworkInfo. rewrite (try_catch_thrown _ _ _ _ _ Hbody_run).
    unfold handleNetworkInfoError. fold msg.
    rewrite (bind_returned _ _ _ _ _ E8). exact E9. }
  assert (Hs' : s' = s9) by (unfold s', exec; now rewrite Hrun).
  assert (Hfields : forall id, id ∈ error_state_fields -> is_Some (document s !! id) ->
                      shown id s9 = Some "Error loading").
  { intros id Hid Hpres. apply Hin; [exact Hid |].
    apply elem_of_dom. rewrite D8. unfold s7, s6. simpl.
    rewrite dom_insert_lookup_L by (now rewrite Hel). rewrite D3.
    now apply elem_of_dom. }
  rewrite Hs'. split; [| split; [| split; [| split]]].
  - unfold result. now rewrite Hrun.
  - exists msg. rewrite N9, N8. unfold s7, s6, s5. simpl. rewrite N3.
    unfold n1. now rewrite <- app_assoc.
  - exact Hfields.
  - apply Hfields; [repeat constructor |].
    apply Hpage. repeat constructor.
  - intros id Hid Hne. rewrite (Hout id Hid), (F8 id Hne).
    unfold s7, s6. simpl.
    rewrite lookup_insert_ne by (intros <-; apply Hid; repeat constructor).
    unfold exec.
    now rewrite (bind_returned _ _ _ _ _ E1), (bind_returned _ _ _ _ _ E2), E3.
Qed.

Lemma C2_geolocation_failure_puts_fields_in_error_state_witness :
  let s' := exec (loadNetworkInfo geolocation_timeout) (constructed network_page 0) in
  result (loadNetworkInfo geolocation_timeout) (constructed network_page 0) = Returned tt /\
  notifications s' =
    [("Loading network information...", "info");
     ("Request timed out - please try again", "error")] /\
  shown "publicIP" s' = Some "Error loading" /\
  shown "connectionType" s' = Some "4g (wifi)".
Proof.
  assert (Hpage : has_elements lookup_elements (constructed network_page 0)).
  { apply has_elements_check. vm_compute. reflexivity. }
  destruct (C2_geolocation_failure_puts_fields_in_error_state
              geolocation_timeout (constructed network_page 0) 80 1
              (Response true 200 (Resolves 1 "203.0.113.7")) "203.0.113.7"
              eq_refl eq_refl eq_refl Logic.I Hpage) as (H1 & _ & _ & H4 & _).
  split; [exact H1 |]. split; [vm_compute; reflexivity |].
  split; [exact H4 | vm_compute; reflexivity].
Defined.

(** ** The window of the download series, and the upload series *)

Lemma shift_drop {A : Type} (l : list A) : shift l = drop 1 l.
Proof. now destruct l. Qed.

Lemma after_cons cfg tl ev evs s :
  after cfg tl (ev :: evs) s = after cfg tl evs (exec (handle cfg tl ev) s).
Proof. reflexivity. Qed.

Lemma download_window_from cfg tl speeds s :
  is_Some (document s !! "downloadSpeed") ->
  length (timestamps (testData s)) = length (download (testData s)) ->
  (length (download (testData s)) <= maxDataPoints cfg)%nat ->
  let s' := after cfg tl (map PublishDownload speeds) s in
  download (testData s') =
    drop (length (download (testData s)) + length speeds - maxDataPoints cfg)
      (download (testData s) ++ map displaySpeed speeds) /\
  length (timestamps (testData s')) = length (download (testData s')).
Proof.
  revert s. induction speeds as [| v speeds IH]; intros s Hel Hts Hcap; cbv zeta.
  - simpl. rewrite app_nil_r. split; [| exact Hts].
    replace (length (download (testData s)) + 0 - maxDataPoints cfg)%nat with 0%nat by lia.
    reflexivity.
  - rewrite map_cons, after_cons. cbn [handle].
    destruct (updateDownloadSpeed_run cfg tl v s Hel) as [_ Htd].
    set (s1 := exec (updateDownloadSpeed cfg tl v) s) in *.
    assert (Hel1 : is_Some (document s1 !! "downloadSpeed")).
    { apply (stable_updateDownloadSpeed cfg tl (has_elements ["downloadSpeed"]) v s);
        [| repeat constructor].
      intros id Hid. apply list_elem_of_singleton in Hid as ->. exact Hel. }
    assert (Hd1 : download (testData s1) =
                  drop (length (download (testData s)) + 1 - maxDataPoints cfg)
                    (download (testData s) ++ [displaySpeed v]) /\
                  length (timestamps (testData s1)) = length (download (testData s1))).
    { rewrite Htd. unfold limit_data_points. cbn [timestamps download push_download].
      rewrite length_app. cbn [length].
      destruct (maxDataPoints cfg <? length (timestamps (testData s)) + 1)%nat eqn:E.
      - apply Nat.ltb_lt in E. cbn [download timestamps].
        replace (length (download (testData s)) + 1 - maxDataPoints cfg)%nat with 1%nat by lia.
        rewrite !shift_drop, !length_drop, !length_app. cbn [length]. split; [reflexivity | lia].
      - apply Nat.ltb_ge in E. cbn [download timestamps push_download].
        replace (length (download (testData s)) + 1 - maxDataPoints cfg)%nat with 0%nat by lia.
        rewrite !length_app. cbn [length]. split; [reflexivity | lia]. }
    destruct Hd1 as [Hd1 Hts1].
    assert (Hcap1 : (length (download (testData s1)) <= maxDataPoints cfg)%nat).
    { rewrite Hd1, length_drop, length_app. cbn [length]. lia. }
    destruct (IH s1 Hel1 Hts1 Hcap1) as [Hd' Hts'].
    split; [| exact Hts'].
    rewrite Hd'. rewrite Hd1 at 2.
    assert (Hlen1 : length (download (testData s1)) =
                    (length (download (testData s)) + 1 -
                     (length (download (testData s)) + 1 - maxDataPoints cfg))%nat).
    { rewrite Hd1, length_drop, length_app. reflexivity. }
    rewrite Hlen1. cbn [length].
    set (n := length (download (testData s))) in *.
    set (r := length speeds).
    replace (download (testData s) ++ map displaySpeed (v :: speeds))
      with ((download (testData s) ++ [displaySpeed v]) ++ map displaySpeed speeds)
      by (cbn [map]; now rewrite <- app_assoc).
    rewrite <- (drop_app_le _ _ (n + 1 - maxDataPoints cfg))
      by (rewrite length_app; cbn [length]; fold n; lia).
    rewrite drop_drop. f_equal. lia.
Qed.

(** X1: from a reset analyzer, [N] download publications leave the roundings
    of the last [min N C] speeds, in order, [C] being [maxDataPoints]; so the
    download series and the timestamps have [min N C] elements. *)
Lemma download_window cfg tl speeds s :
  is_Some (document s !! "downloadSpeed") ->
  testData s = empty_testData ->
  let s' := after cfg tl (map PublishDownload speeds) s in
  download (testData s') =
    drop (length speeds - maxDataPoints cfg) (map displaySpeed speeds) /\
  length (download (testData s')) = Nat.min (length speeds) (maxDataPoints cfg) /\
  length (timestamps (testData s')) = Nat.min (length speeds) (maxDataPoints cfg).
Proof.
  intros Hel Hempty.
  destruct (download_window_from cfg tl speeds s Hel) as [Hd Hts].
  { now rewrite Hempty. }
  { rewrite Hempty. simpl. lia. }
  rewrite Hempty in Hd. cbn [download empty_testData length app] in Hd.
  cbv zeta. rewrite Hts, Hd. split; [reflexivity |].
  rewrite length_drop, length_map. lia.
Qed.

(** X2: an upload publication evicts nothing when the timestamps are within
    the capacity, as they are after any publication: [N] upload publications
    add [N] values to the upload series, whatever the capacity. *)
Lemma upload_never_evicted cfg tl speeds s :
  is_Some (document s !! "uploadSpeed") ->
  (length (timestamps (testData s)) <= maxDataPoints cfg)%nat ->
  let s' := after cfg tl (map PublishUpload speeds) s in
  upload (testData s') = upload (testData s) ++ map displaySpeed speeds /\
  length (upload (testData s')) = (length (upload (testData s)) + length speeds)%nat.
Proof.
  revert s. induction speeds as [| v speeds IH]; intros s Hel Hcap; cbv zeta.
  - simpl. rewrite app_nil_r. split; [reflexivity | lia].
  - rewrite map_cons, after_cons. cbn [handle].
    destruct (updateUploadSpeed_run cfg v s Hel) as [_ Htd].
    set (s1 := exec (updateUploadSpeed cfg v) s) in *.
    assert (Hel1 : is_Some (document s1 !! "uploadSpeed")).
    { apply (stable_updateUploadSpeed cfg (has_elements ["uploadSpeed"]) v s);
        [| repeat constructor].
      intros id Hid. apply list_elem_of_singleton in Hid as ->. exact Hel. }
    assert (Htd1 : testData s1 = push_upload (displaySpeed v) (testData s)).
    { rewrite Htd. unfold limit_data_points. cbn [timestamps push_upload].
      apply Nat.ltb_ge in Hcap. now rewrite Hcap. }
    destruct (IH s1 Hel1) as [Hu Hlen].
    { rewrite Htd1. exact Hcap. }
    rewrite Htd1 in Hu, Hlen. cbn [upload push_upload] in Hu, Hlen.
    split.
    + rewrite Hu, <- app_assoc. reflexivity.
    + rewrite Hlen, length_app. cbn [length]. lia.
Qed.

Lemma download_window_witness :
  let speeds := map (fun n => of_Z (Z.of_nat n)) (seq 1 25) in
  let s' := after default_config clock_label (map PublishDownload speeds)
              (constructed speed_page 0) in
  download (testData s') = drop 5 (map displaySpeed speeds) /\
  length (download (testData s')) = 20%nat /\
  length (timestamps (testData s')) = 20%nat.
Proof.
  exact (download_window default_config clock_label
           (map (fun n => of_Z (Z.of_nat n)) (seq 1 25)) (constructed speed_page 0)
           (ex_intro _ (Element "" "") eq_refl) eq_refl).
Defined.

Lemma upload_never_evicted_witness :
  let speeds := map (fun n => of_Z (Z.of_nat n)) (seq 1 25) in
  let s' := after default_config clock_label (map PublishUpload speeds)
              (constructed speed_page 0) in
  upload (testData s') = map displaySpeed speeds /\
  length (upload (testData s')) = 25%nat.
Proof.
  exact (upload_never_evicted default_config clock_label
           (map (fun n => of_Z (Z.of_nat n)) (seq 1 25)) (constructed speed_page 0)
           (ex_intro _ (Element "" "") eq_refl) (Nat.le_0_l 20)).
Defined.

(** ** Outcomes *)

Section Triple.

Context {A : Type}.

Lemma triple_weaken (P P' : analyzer -> Prop) (m : M A) (Q Q' : A -> analyzer -> Prop)
    (E E' : error -> analyzer -> Prop) :
  triple P' m Q' E' ->
  (forall s, P s -> P' s) ->
  (forall a s, Q' a s -> Q a s) ->
  (forall e s, E' e s -> E e s) ->
  triple P m Q E.
Proof.
  intros Hm HP HQ HE s Hs. specialize (Hm s (HP s Hs)).
  destruct (m s) as [s' [a | e]]; auto.
Qed.

Lemma triple_ret (P : analyzer -> Prop) (a : A) E : triple P (ret a) (fun _ => P) E.
Proof. intros s Hs. exact Hs. Qed.

Lemma triple_bind {B : Type} (P : analyzer -> Prop) (R : B -> analyzer -> Prop)
    (m : M B) (k : B -> M A) Q E :
  triple P m R E -> (forall b, triple (R b) (k b) Q E) -> triple P (bind m k) Q E.
Proof.
  intros Hm Hk s Hs. specialize (Hm s Hs). unfold bind.
  destruct (m s) as [s' [b | e]]; [now apply Hk | exact Hm].
Qed.

Lemma triple_try_catch (P : analyzer -> Prop) (m : M A) (h : error -> M A) Q E1 E :
  triple P m Q E1 -> (forall e, triple (E1 e) (h e) Q E) -> triple P (try_catch m h) Q E.
Proof.
  intros Hm Hh s Hs. specialize (Hm s Hs). unfold try_catch.
  destruct (m s) as [s' [a | e]]; [exact Hm | now apply Hh].
Qed.

Lemma triple_try_finally (P R : analyzer -> Prop) (m : M A) (f : M unit) Q :
  triple P m (fun _ => R) (fun _ _ => False) ->
  triple R f (fun _ => Q) (fun _ _ => False) ->
  triple P (try_finally m f) (fun _ => Q) (fun _ _ => False).
Proof.
  intros Hm Hf s Hs. specialize (Hm s Hs). unfold try_finally.
  destruct (m s) as [s' [a | e]]; [| contradiction].
  specialize (Hf s' Hm). destruct (f s') as [s'' [[] | e]]; [exact Hf | contradiction].
Qed.

(** A property that no step breaks holds at the end, however the method
    ends. *)
Lemma triple_stable (I : analyzer -> Prop) (m : M A) :
  stable I m -> triple I m (fun _ => I) (fun _ => I).
Proof.
  intros Hm s Hs. specialize (Hm s Hs). unfold exec in Hm.
  destruct (m s) as [s' [a | e]]; exact Hm.
Qed.

Lemma triple_safe (P I : analyzer -> Prop) (m : M A) :
  safe P m -> stable I m -> (forall s, I s -> P s) ->
  triple I m (fun _ => I) (fun _ _ => False).
Proof.
  intros Hsafe Hm HP s Hs. specialize (Hm s Hs). specialize (Hsafe s (HP s Hs)).
  unfold exec, result in *. destruct (m s) as [s' [a | e]]; [exact Hm | exact Hsafe].
Qed.

End Triple.

#[export] Instance keeps_notifications_run n : RunInv (keeps notifications n).
Proof. intros s b H. exact H. Qed.

#[export] Instance keeps_notifications_stats n : StatsInv (keeps notifications n).
Proof. intros s st H. exact H. Qed.

#[export] Instance keeps_notifications_data cfg n : DataInv cfg (keeps notifications n).
Proof. split; intros; assumption. Qed.

Lemma triple_showStatus ids n msg ty :
  "statusText" ∈ ids -> "statusMessage" ∈ ids ->
  triple (banners ids n) (showStatus msg ty)
    (fun _ => banners ids (n ++ [(msg, ty)])) (fun _ _ => False).
Proof.
  intros H1 H2 s [Hel Hn].
  destruct (Hel _ H1) as [el Hel1].
  unfold showStatus.
  rewrite (bind_returned _ _ _ _ _ (set_textContent_present _ _ _ _ Hel1)).
  assert (Hel' : has_elements ids (set_document (<["statusText" := Element msg (color el)]> (document s)) s)).
  { apply doc_inv; [exact Hel |]. apply dom_insert_lookup_L. now rewrite Hel1. }
  destruct (Hel' _ H2) as [el2 Hel2].
  unfold bind at 1, touch. rewrite Hel2. unfold modify.
  split; [exact Hel' |]. unfold keeps in *. cbn. now rewrite Hn.
Qed.

(** A step of a method that shows no banner and keeps the page's elements. *)
Ltac quiet_step ids n :=
  apply (triple_bind _ (fun _ => banners ids n));
  [ apply triple_stable; unfold banners; stable_auto | intros ? ].

Lemma triple_loadNetworkInfo env n :
  triple (banners banner_elements n) (loadNetworkInfo env)
    (fun _ s' =>
       exists banner,
         notifications s' = n ++ [("Loading network information...", "info"); banner] /\
         (banner = ("Network information updated successfully", "success") \/
          exists e, banner = (friendly e, "error")))
    (fun _ _ => False).
Proof.
  set (info := ("Loading network information...", "info")).
  assert (Hin1 : "statusText" ∈ banner_elements) by (unfold banner_elements; repeat constructor).
  assert (Hin2 : "statusMessage" ∈ banner_elements) by (unfold banner_elements; repeat constructor).
  unfold loadNetworkInfo.
  apply triple_try_catch with (E1 := fun _ => banners banner_elements (n ++ [info])).
  - apply (triple_bind _ (fun _ => banners banner_elements (n ++ [info]))).
    { eapply triple_weaken; [apply (triple_showStatus banner_elements n); eassumption | auto | auto | contradiction]. }
    intros _.
    do 10 quiet_step banner_elements (n ++ [info]).
    eapply triple_weaken;
      [apply (triple_showStatus banner_elements (n ++ [info])); eassumption | auto | | contradiction].
    intros _ s' [_ Hn]. eexists. split; [| left; reflexivity].
    unfold keeps in Hn. rewrite Hn, <- app_assoc. reflexivity.
  - intros e. unfold handleNetworkInfoError. fold (friendly e).
    apply (triple_bind _ (fun _ => banners banner_elements ((n ++ [info]) ++ [(friendly e, "error")]))).
    { apply triple_showStatus; assumption. }
    intros _.
    eapply triple_weaken;
      [ apply (triple_safe (has_elements banner_elements)
                 (banners banner_elements ((n ++ [info]) ++ [(friendly e, "error")])));
        [safe_auto | unfold banners; stable_auto | now intros ? [? _]]
      | auto | | contradiction ].
    intros _ s' [_ Hn]. eexists. split; [| right; exists e; reflexivity].
    unfold keeps in Hn. rewrite Hn, <- app_assoc. reflexivity.
Qed.

(** X4: a refresh of the network panel in which the reading of each body
    and the fallback of the local address settle ends normally and shows two
    banners, whatever these and the requests raced against a timer
    deliver. *)
Theorem loadNetworkInfo_reports_twice env s :
  has_elements banner_elements s ->
  exists s' banner,
    loadNetworkInfo env s = (s', Returned tt) /\
    notifications s' =
      notifications s ++ [("Loading network information...", "info"); banner] /\
    (banner = ("Network information updated successfully", "success") \/
     exists msg, banner = (msg, "error")).
Proof.
  intros Hel.
  pose proof (triple_loadNetworkInfo env (notifications s) s) as H.
  destruct (loadNetworkInfo env s) as [s' [[] | e]].
  - destruct H as (banner & Hn & Hb); [split; [exact Hel | reflexivity] |].
    exists s', banner. split; [reflexivity |]. split; [exact Hn |].
    destruct Hb as [Hb | [e Hb]]; [now left | right].
    now exists (friendly e).
  - exfalso. apply H. split; [exact Hel | reflexivity].
Qed.

Lemma loadNetworkInfo_reports_twice_witness :
  has_elements banner_elements (constructed network_page 0) /\
  exists s' banner,
    loadNetworkInfo geolocation_timeout (constructed network_page 0) = (s', Returned tt) /\
    notifications s' =
      notifications (constructed network_page 0) ++
        [("Loading network information...", "info"); banner] /\
    (banner = ("Network information updated successfully", "success") \/
     exists msg, banner = (msg, "error")).
Proof.
  assert (H : has_elements banner_elements (constructed network_page 0))
    by (apply has_elements_check; vm_compute; reflexivity).
  split; [exact H |].
  exact (loadNetworkInfo_reports_twice geolocation_timeout (constructed network_page 0) H).
Defined.

Lemma triple_test_sequence cfg tl env n :
  triple (banners session_elements n) (test_sequence cfg tl env)
    (fun _ => banners session_elements (n ++ [("Speed test completed successfully", "success")]))
    (fun _ => banners session_elements n).
Proof.
  unfold test_sequence, banners.
  apply (triple_bind _ (fun _ => banners session_elements n));
    [apply triple_stable, stable_runDownloadTest; typeclasses eauto | intros _].
  apply (triple_bind _ (fun _ => banners session_elements n));
    [apply triple_stable, stable_pause; typeclasses eauto | intros _].
  apply (triple_bind _ (fun _ => banners session_elements n));
    [apply triple_stable, stable_runUploadTest; typeclasses eauto | intros _].
  apply (triple_bind _ (fun _ => banners session_elements n));
    [apply triple_stable, stable_updateStats; typeclasses eauto | intros _].
  eapply triple_weaken;
    [apply (triple_showStatus session_elements n) | auto | auto | contradiction];
    unfold session_elements; repeat constructor.
Qed.

Lemma safe_session_resetTestUI : safe (has_elements session_elements) resetTestUI.
Proof. unfold resetTestUI, session_elements. safe_auto. Qed.

Lemma safe_session_showProgressContainer show :
  safe (has_elements session_elements) (showProgressContainer show).
Proof. unfold showProgressContainer, session_elements. safe_auto. Qed.

Lemma safe_session_updateButtonStates testing :
  safe (has_elements session_elements) (updateButtonStates testing).
Proof. unfold updateButtonStates, session_elements. safe_auto. Qed.

Lemma safe_session_stopSpeedTest : safe (has_elements session_elements) stopSpeedTest.
Proof.
  unfold stopSpeedTest, showProgressContainer, updateButtonStates, session_elements.
  safe_auto.
Qed.

Lemma triple_startSpeedTest cfg tl env n :
  triple (both (banners session_elements n) (keeps isTestRunning false))
    (startSpeedTest cfg tl env)
    (fun _ s' =>
       exists banner,
         notifications s' = n ++ [banner] /\
         (banner = ("Speed test completed successfully", "success") \/
          banner = ("Speed test failed. Please check your connection and try again.", "error")))
    (fun _ _ => False).
Proof.
  set (K := banners session_elements).
  assert (Hin1 : "statusText" ∈ session_elements) by
    (unfold session_elements; repeat constructor).
  assert (Hin2 : "statusMessage" ∈ session_elements) by
    (unfold session_elements; repeat constructor).
  assert (Hrest : forall Q : analyzer -> Prop,
    (forall b s', K (n ++ [b]) s' ->
       b = ("Speed test completed successfully", "success") \/
       b = ("Speed test failed. Please check your connection and try again.", "error") ->
       Q s') ->
    triple (K n)
      (modify (set_isTestRunning true) ;;
       resetTestUI ;;
       showProgressContainer true ;;
       updateButtonStates true ;;
       try_finally
         (try_catch (test_sequence cfg tl env)
            (fun _ =>
               showStatus "Speed test failed. Please check your connection and try again."
                 "error"))
         stopSpeedTest)
      (fun _ => Q) (fun _ _ => False)).
  { intros Q HQ.
    assert (HP : forall s, K n s -> has_elements session_elements s) by now intros ? [? _].
    apply (triple_bind _ (fun _ => K n));
      [apply (triple_safe (has_elements session_elements) (K n));
       [apply safe_modify | unfold K, banners; stable_auto | exact HP] | intros _].
    apply (triple_bind _ (fun _ => K n));
      [apply (triple_safe (has_elements session_elements) (K n));
       [apply safe_session_resetTestUI
       | unfold K, banners; apply (stable_resetTestUI cfg); typeclasses eauto
       | exact HP] | intros _].
    apply (triple_bind _ (fun _ => K n));
      [apply (triple_safe (has_elements session_elements) (K n));
       [apply safe_session_showProgressContainer
       | unfold showProgressContainer, K, banners; stable_auto | exact HP] | intros _].
    apply (triple_bind _ (fun _ => K n));
      [apply (triple_safe (has_elements session_elements) (K n));
       [apply safe_session_updateButtonStates
       | unfold updateButtonStates, K, banners; stable_auto | exact HP] | intros _].
    apply (triple_try_finally _
             (fun s' => exists b, K (n ++ [b]) s' /\
                (b = ("Speed test completed successfully", "success") \/
                 b = ("Speed test failed. Please check your connection and try again.", "error")))).
    - apply triple_try_catch with (E1 := fun _ => K n).
      + eapply triple_weaken; [apply (triple_test_sequence cfg tl env n) | auto | | auto].
        intros a s' H. eexists. split; [exact H | now left].
      + intros _. eapply triple_weaken;
          [apply (triple_showStatus session_elements n); assumption | auto | | contradiction].
        intros a s' H. eexists. split; [exact H | now right].
    - intros s' (b & HK & Hb).
      assert (Hstop : triple (K (n ++ [b])) stopSpeedTest (fun _ => K (n ++ [b])) (fun _ _ => False)).
      { apply (triple_safe (has_elements session_elements)).
        - apply safe_session_stopSpeedTest.
        - unfold K, banners. apply stable_stopSpeedTest; typeclasses eauto.
        - now intros ? [? _]. }
      specialize (Hstop s' HK). destruct (stopSpeedTest s') as [s'' [[] | e]]; [| exact Hstop].
      now apply (HQ b). }
  intros s [HK Hidle].
  specialize (Hrest _ (fun b s' HKb Hb =>
    ex_intro _ b (conj (proj2 HKb) Hb)) s HK).
  unfold startSpeedTest. unfold bind at 1. unfold gets at 1.
  unfold keeps in Hidle. rewrite Hidle. exact Hrest.
Qed.

(** X5: a session started on an idle analyzer, in which the reading of
    each body settles, ends normally and shows one banner, whatever the
    requests deliver and whenever "stop" is pressed. *)
Theorem session_reports_once cfg tl env s :
  isTestRunning s = false ->
  has_elements session_elements s ->
  exists s' banner,
    startSpeedTest cfg tl env s = (s', Returned tt) /\
    notifications s' = notifications s ++ [banner] /\
    (banner = ("Speed test completed successfully", "success") \/
     banner = ("Speed test failed. Please check your connection and try again.", "error")).
Proof.
  intros Hidle Hel.
  pose proof (triple_startSpeedTest cfg tl env (notifications s) s) as H.
  destruct (startSpeedTest cfg tl env s) as [s' [[] | e]].
  - destruct H as (banner & Hn & Hb); [repeat split; assumption |].
    exists s', banner. auto.
  - exfalso. apply H. repeat split; assumption.
Qed.

Lemma session_reports_once_witness :
  isTestRunning (constructed speed_page 0) = false /\
  has_elements session_elements (constructed speed_page 0) /\
  exists s' banner,
    startSpeedTest scenario_config clock_label ordinary_session (constructed speed_page 0)
      = (s', Returned tt) /\
    notifications s' = notifications (constructed speed_page 0) ++ [banner] /\
    (banner = ("Speed test completed successfully", "success") \/
     banner = ("Speed test failed. Please check your connection and try again.", "error")).
Proof.
  assert (H : has_elements session_elements (constructed speed_page 0))
    by (apply has_elements_check; vm_compute; reflexivity).
  split; [reflexivity |]. split; [exact H |].
  exact (session_reports_once scenario_config clock_label ordinary_session
           (constructed speed_page 0) eq_refl H).
Defined.

(** ** The number of samples of a phase *)

Lemma result_bind_returned {A B : Type} (m : M A) (k : A -> M B) s b :
  result (bind m k) s = Returned b ->
  exists a, result m s = Returned a /\ result (k a) (exec m s) = Returned b.
Proof.
  unfold result, exec, bind. destruct (m s) as [s' [a | e]]; simpl; [| discriminate].
  intros H. now exists a.
Qed.

Lemma iterations_left_nonnegative cfg e : (0 <= iterations_left cfg e)%Z.
Proof.
  unfold iterations_left. destruct (e <? testDuration cfg)%Z eqn:E; [| lia].
  apply Z.ltb_lt in E. apply Z.div_pos; lia.
Qed.

Lemma iterations_left_step cfg e e' :
  (e < testDuration cfg)%Z -> (e + Zpos (updateInterval cfg) <= e')%Z ->
  (iterations_left cfg e' + 1 <= iterations_left cfg e)%Z.
Proof.
  intros H1 H2. unfold iterations_left.
  apply Z.ltb_lt in H1 as H1'. rewrite H1'.
  set (I := Zpos (updateInterval cfg)) in *. assert (0 < I)%Z by (unfold I; lia).
  destruct (e' <? testDuration cfg)%Z eqn:E.
  - rewrite <- (Z.div_add _ 1 I) by lia. apply Z.div_le_mono; lia.
  - apply (Z.div_le_lower_bound _ I 1); lia.
Qed.

Lemma yields_one_more_download cfg tl p speeds :
  yields (fun l => (length l <= S (length speeds))%nat) (downloadIteration cfg tl p speeds).
Proof.
  unfold downloadIteration, recordDownload.
  apply yields_try_catch; [| intros e; apply yields_ret; lia].
  apply yields_seq. intros testStart. apply yields_seq. intros resp.
  destruct (negb (ok resp)); [apply yields_throw |].
  apply yields_seq. intros bytes. apply yields_seq. intros testEnd. cbv zeta.
  destruct (sane (megabits_per_second bytes testStart testEnd));
    [| apply yields_ret; lia].
  apply yields_seq. intros _. apply yields_ret. rewrite length_app. simpl. lia.
Qed.

Lemma yields_one_more_upload cfg p speeds :
  yields (fun l => (length l <= S (length speeds))%nat) (uploadIteration cfg p speeds).
Proof.
  unfold uploadIteration, recordUpload.
  apply yields_try_catch; [| intros e; apply yields_ret; lia].
  cbv zeta.
  apply yields_seq. intros testStart. apply yields_seq. intros resp.
  destruct (negb (ok resp)); [apply yields_throw |].
  apply yields_seq. intros _. apply yields_seq. intros testEnd.
  match goal with |- context [sane ?m] => destruct (sane m) end;
    [| apply yields_ret; lia].
  apply yields_seq. intros _. apply yields_ret. rewrite length_app. simpl. lia.
Qed.

Lemma downloadLoop_bound cfg tl fuel start env i speeds s l :
  result (downloadLoop cfg tl fuel start env i speeds) s = Returned l ->
  (Z.of_nat (length l) <= Z.of_nat (length speeds) + iterations_left cfg (clock s - start))%Z.
Proof.
  revert i speeds s. induction fuel as [| fuel IH]; intros i speeds s H.
  - injection H as <-. pose proof (iterations_left_nonnegative cfg (clock s - start)). lia.
  - unfold result in H. rewrite downloadLoop_step in H.
    destruct ((clock s - start <? testDuration cfg)%Z && isTestRunning s) eqn:E.
    + apply andb_prop in E as [E _]. apply Z.ltb_lt in E.
      apply result_bind_returned in H as (_ & _ & H).
      pose proof (stable_updateProgress (clock_from (clock s))
                    (of_Z (clock s - start) / of_Z (testDuration cfg) * of_Z 50)%js
                    "Testing download speed..." s ltac:(unfold clock_from; lia)) as H1.
      set (s1 := exec (updateProgress _ _) s) in *.
      apply result_bind_returned in H as (speeds1 & Hit & H).
      pose proof (yields_one_more_download cfg tl (env i) speeds s1) as Hlen.
      rewrite Hit in Hlen.
      pose proof (stable_downloadIteration cfg tl (clock_from (clock s)) (env i) speeds s1 H1) as H2.
      set (s2 := exec (downloadIteration _ _ _ _) s1) in *.
      apply result_bind_returned in H as (_ & _ & H).
      pose proof (clock_pause (Z.pos (updateInterval cfg)) (timer_late (env i))
                    (stop_pressed (env i)) s2) as H3.
      set (s3 := exec (pause _ _ _) s2) in *.
      apply IH in H. unfold clock_from in *.
      pose proof (iterations_left_step cfg (clock s - start) (clock s3 - start)). lia.
    + simpl in H. injection H as <-.
      pose proof (iterations_left_nonnegative cfg (clock s - start)). lia.
Qed.

Lemma uploadLoop_bound cfg fuel start env i speeds s l :
  result (uploadLoop cfg fuel start env i speeds) s = Returned l ->
  (Z.of_nat (length l) <= Z.of_nat (length speeds) + iterations_left cfg (clock s - start))%Z.
Proof.
  revert i speeds s. induction fuel as [| fuel IH]; intros i speeds s H.
  - injection H as <-. pose proof (iterations_left_nonnegative cfg (clock s - start)). lia.
  - unfold result in H. rewrite uploadLoop_step in H.
    destruct ((clock s - start <? testDuration cfg)%Z && isTestRunning s) eqn:E.
    + apply andb_prop in E as [E _]. apply Z.ltb_lt in E.
      apply result_bind_returned in H as (_ & _ & H).
      pose proof (stable_updateProgress (clock_from (clock s))
                    (of_Z 50 + of_Z (clock s - start) / of_Z (testDuration cfg) * of_Z 50)%js
                    "Testing upload speed..." s ltac:(unfold clock_from; lia)) as H1.
      set (s1 := exec (updateProgress _ _) s) in *.
      apply result_bind_returned in H as (speeds1 & Hit & H).
      pose proof (yields_one_more_upload cfg (env i) speeds s1) as Hlen.
      rewrite Hit in Hlen.
      pose proof (stable_uploadIteration cfg (clock_from (clock s)) (env i) speeds s1 H1) as H2.
      set (s2 := exec (uploadIteration _ _ _) s1) in *.
      apply result_bind_returned in H as (_ & _ & H).
      pose proof (clock_pause (Z.pos (updateInterval cfg)) (timer_late (env i))
                    (stop_pressed (env i)) s2) as H3.
      set (s3 := exec (pause _ _ _) s2) in *.
      apply IH in H. unfold clock_from in *.
      pose proof (iterations_left_step cfg (clock s - start) (clock s3 - start)). lia.
    + simpl in H. injection H as <-.
      pose proof (iterations_left_nonnegative cfg (clock s - start)). lia.
Qed.

(** X6: a phase that starts now collects at most as many samples as pauses
    of [updateInterval] milliseconds fit in [testDuration], rounded up. *)
Theorem samples_per_phase_bounded cfg tl fuel env s samples :
  result (downloadLoop cfg tl fuel (clock s) env 0 []) s = Returned samples \/
  result (uploadLoop cfg fuel (clock s) env 0 []) s = Returned samples ->
  (Z.of_nat (length samples) <= iterations_left cfg 0)%Z /\
  iterations_left default_config 0 = 50%Z.
Proof.
  intros H. split; [| reflexivity].
  destruct H as [H | H];
    [apply downloadLoop_bound in H | apply uploadLoop_bound in H];
    rewrite Z.sub_diag in H; simpl in H; lia.
Qed.

Lemma samples_per_phase_bounded_witness :
  let v := megabits_per_second 100000 0 50 in
  (result (downloadLoop scenario_config clock_label (loop_fuel scenario_config)
             (clock running_state) scenario_probes 0 []) running_state
     = Returned [v; v; v; v] \/
   result (uploadLoop scenario_config (loop_fuel scenario_config)
             (clock running_state) scenario_probes 0 []) running_state
     = Returned [v; v; v; v]) /\
  (4 <= iterations_left scenario_config 0)%Z /\
  iterations_left scenario_config 0 = 5%Z.
Proof.
  intros v.
  assert (H : result (downloadLoop scenario_config clock_label (loop_fuel scenario_config)
             (clock running_state) scenario_probes 0 []) running_state
     = Returned [v; v; v; v]) by (vm_compute; reflexivity).
  split; [left; exact H |].
  split; [| reflexivity].
  exact (proj1 (samples_per_phase_bounded scenario_config clock_label _ scenario_probes
                  running_state [v; v; v; v] (or_introl H))).
Defined.

(** ** Stopping *)

Lemma triple_exec {A : Type} (P I : analyzer -> Prop) (m : M A) s :
  triple P m (fun _ => I) (fun _ => I) -> P s -> I (exec m s).
Proof.
  intros H Hs. specialize (H s Hs). unfold exec. now destruct (m s) as [s' [a | e]].
Qed.

Lemma triple_pure {A : Type} (phi : Prop) (P : analyzer -> Prop) (m : M A) Q E :
  (phi -> triple P m Q E) -> triple (fun s => phi /\ P s) m Q E.
Proof. intros H s [Hphi Hs]. now apply H. Qed.

#[export] Instance keeps_clock_doc t : DocInv (keeps clock t).
Proof. intros s d H _. exact H. Qed.

Lemma downloadLoop_idle cfg tl fuel start env i speeds s :
  isTestRunning s = false ->
  downloadLoop cfg tl fuel start env i speeds s = (s, Returned speeds).
Proof.
  intros H. destruct fuel; [reflexivity |].
  rewrite downloadLoop_step, H, andb_false_r. reflexivity.
Qed.

Lemma uploadLoop_idle cfg fuel start env i speeds s :
  isTestRunning s = false ->
  uploadLoop cfg fuel start env i speeds s = (s, Returned speeds).
Proof.
  intros H. destruct fuel; [reflexivity |].
  rewrite uploadLoop_step, H, andb_false_r. reflexivity.
Qed.

Lemma pause_stop_idle ms late0 s : isTestRunning (exec (pause ms late0 true) s) = false.
Proof.
  unfold pause.
  assert (Hret : returns (result (interleaved stopSpeedTest) s)).
  { unfold returns, result, interleaved, try_catch.
    now destruct (stopSpeedTest s) as [s' [[] | e]]. }
  rewrite (exec_seq _ _ _ Hret).
  assert (Hs : exec (interleaved stopSpeedTest) s = exec stopSpeedTest s).
  { unfold exec, interleaved, try_catch. now destruct (stopSpeedTest s) as [s' [[] | e]]. }
  rewrite Hs. pose proof (stopSpeedTest_idle s) as H.
  unfold exec at 1, sleep, advance, modify. simpl. exact H.
Qed.

(** X7: a press on "stop" during the pause of an iteration makes that
    iteration the last one of the loop. *)
Theorem stop_ends_the_loop cfg tl fuel start env i speeds s :
  stop_pressed (env i) = true ->
  downloadLoop cfg tl (S fuel) start env i speeds s =
    downloadLoop cfg tl 1 start env i speeds s /\
  uploadLoop cfg (S fuel) start env i speeds s =
    uploadLoop cfg 1 start env i speeds s.
Proof.
  intros Hstop. split.
  - rewrite !downloadLoop_step.
    destruct ((clock s - start <? testDuration cfg)%Z && isTestRunning s); [| reflexivity].
    apply bind_ext. intros _. apply bind_ext. intros speeds1. apply bind_ext. intros _.
    rewrite Hstop. apply downloadLoop_idle, pause_stop_idle.
  - rewrite !uploadLoop_step.
    destruct ((clock s - start <? testDuration cfg)%Z && isTestRunning s); [| reflexivity].
    apply bind_ext. intros _. apply bind_ext. intros speeds1. apply bind_ext. intros _.
    rewrite Hstop. apply uploadLoop_idle, pause_stop_idle.
Qed.

Lemma stop_ends_the_loop_witness :
  stop_pressed stopped_probe = true /\
  downloadLoop default_config clock_label 51 0 (fun _ => stopped_probe) 0 []
      running_state =
    downloadLoop default_config clock_label 1 0 (fun _ => stopped_probe) 0 [] running_state /\
  uploadLoop default_config 51 0 (fun _ => stopped_probe) 0 [] running_state =
    uploadLoop default_config 1 0 (fun _ => stopped_probe) 0 [] running_state.
Proof.
  split; [reflexivity |].
  exact (stop_ends_the_loop default_config clock_label 50 0 (fun _ => stopped_probe) 0 []
           running_state eq_refl).
Defined.

Section IdlePhase.

Context (cfg : config_t) (tl : Z -> string) (td : testData_t) (t : Z).

Let I := idle_at td t.

Ltac idle_step :=
  apply (triple_bind _ (fun _ => I));
  [ apply triple_stable; unfold I, idle_at; stable_auto | intros ? ].

Lemma triple_runDownloadTest_idle env :
  triple I (runDownloadTest cfg tl env) (fun _ => I) (fun _ => I).
Proof.
  unfold runDownloadTest.
  do 3 idle_step.
  apply (triple_bind _ (fun l s' => l = [] /\ I s')).
  { intros s Hs. rewrite downloadLoop_idle by apply Hs. split; [reflexivity | exact Hs]. }
  intros l. apply triple_pure. intros ->. cbn [length Nat.ltb Nat.leb].
  idle_step. apply triple_stable. unfold I, idle_at. stable_auto.
Qed.

Lemma triple_runUploadTest_idle env :
  triple I (runUploadTest cfg env) (fun _ => I) (fun _ => I).
Proof.
  unfold runUploadTest.
  do 3 idle_step.
  apply (triple_bind _ (fun l s' => l = [] /\ I s')).
  { intros s Hs. rewrite uploadLoop_idle by apply Hs. split; [reflexivity | exact Hs]. }
  intros l. apply triple_pure. intros ->. cbn [length Nat.ltb Nat.leb].
  do 2 idle_step. apply triple_stable. unfold I, idle_at, updateProgress. stable_auto.
Qed.

End IdlePhase.

(** X8: on an analyzer that is not testing, a phase sends no request and
    publishes nothing. *)
Theorem idle_phase_publishes_nothing cfg tl env s :
  isTestRunning s = false ->
  (forall fuel start i speeds,
     downloadLoop cfg tl fuel start env i speeds s = (s, Returned speeds) /\
     uploadLoop cfg fuel start env i speeds s = (s, Returned speeds)) /\
  (let s' := exec (runDownloadTest cfg tl env) s in
   testData s' = testData s /\ clock s' = clock s) /\
  (let s' := exec (runUploadTest cfg env) s in
   testData s' = testData s /\ clock s' = clock s).
Proof.
  intros Hidle.
  split; [intros; split; [apply downloadLoop_idle | apply uploadLoop_idle]; exact Hidle |].
  assert (HI : idle_at (testData s) (clock s) s) by (repeat split; assumption).
  split; cbv zeta.
  - now pose proof (triple_exec _ _ _ s
        (triple_runDownloadTest_idle cfg tl (testData s) (clock s) env) HI) as (_ & H1 & H2).
  - now pose proof (triple_exec _ _ _ s
        (triple_runUploadTest_idle cfg (testData s) (clock s) env) HI) as (_ & H1 & H2).
Qed.

Lemma idle_phase_publishes_nothing_witness :
  let s := constructed speed_page 0 in
  isTestRunning s = false /\
  testData (exec (runDownloadTest default_config clock_label scenario_probes) s) = testData s /\
  clock (exec (runUploadTest default_config scenario_probes) s) = clock s.
Proof.
  intros s. split; [reflexivity |].
  pose proof (idle_phase_publishes_nothing default_config clock_label scenario_probes s eq_refl)
    as (_ & H1 & H2).
  split; [apply H1 | apply H2].
Defined.

(** ** Rounding *)

Lemma Qfloor_unique (z : Z) (x : Q) :
  (inject_Z z <= x)%Q -> (x < inject_Z z + 1)%Q -> Qfloor x = z.
Proof.
  intros H1 H2.
  pose proof (Qfloor_le x) as H3. pose proof (Qlt_floor x) as H4.
  assert (Qfloor x < z + 1)%Z.
  { rewrite Zlt_Qlt, inject_Z_plus. eapply Qle_lt_trans; [exact H3 | exact H2]. }
  assert (z < Qfloor x + 1)%Z.
  { rewrite Zlt_Qlt. eapply Qle_lt_trans; [exact H1 | exact H4]. }
  lia.
Qed.

Lemma displaySpeed_Fin q :
  displaySpeed (Fin q) =
  Fin (Qred (inject_Z (Qfloor (Qred (q * inject_Z 100) + (1 # 2))) / inject_Z 100)).
Proof. reflexivity. Qed.




(** ** Session statistics *)

Lemma set_textContent_if_present_run id v s :
  exists d, set_textContent_if_present id v s = (set_document d s, Returned tt).
Proof.
  unfold set_textContent_if_present. destruct (document s !! id) as [el |].
  - eexists. reflexivity.
  - exists (document s). now destruct s.
Qed.

Lemma updateStatsUI_run s : exists d, updateStatsUI s = (set_document d s, Returned tt).
Proof.
  unfold updateStatsUI, bind at 1, gets.
  destruct (set_textContent_if_present_run "avgDownload"
              (toFixed1 (totalDownload (stats s) / of_Z (testsRun (stats s)))%js +:+ " Mbps") s)
    as [d1 H1].
  rewrite (bind_returned _ _ _ _ _ H1).
  destruct (set_textContent_if_present_run "avgUpload"
              (toFixed1 (totalUpload (stats s) / of_Z (testsRun (stats s)))%js +:+ " Mbps")
              (set_document d1 s)) as [d2 H2].
  rewrite (bind_returned _ _ _ _ _ H2).
  destruct (set_textContent_if_present_run "maxDownload"
              (toFixed1 (maxDownload (stats s)) +:+ " Mbps")
              (set_document d2 (set_document d1 s))) as [d3 H3].
  rewrite (bind_returned _ _ _ _ _ H3).
  destruct (set_textContent_if_present_run "testCount" (pretty (testsRun (stats s)))
              (set_document d3 (set_document d2 (set_document d1 s)))) as [d4 H4].
  rewrite H4. exists d4. reflexivity.
Qed.

Lemma fold_max_finite qs a :
  exists r,
    fold_left max (map Fin qs) (Fin a) = Fin r /\
    (a <= r)%Q /\ Forall (fun q => (q <= r)%Q) qs /\ (r = a \/ In r qs).
Proof.
  revert a. induction qs as [| q qs IH]; intros a.
  - exists a. repeat split; [apply Qle_refl | constructor | now left].
  - cbn [map fold_left]. unfold max at 2. cbn [ltb].
    destruct (Qltb a q) eqn:E.
    + apply Qltb_true in E. destruct (IH q) as (r & Hr & Hle & Hall & Hin).
      exists r. split; [exact Hr |]. split; [lra |]. split.
      * constructor; assumption.
      * right. destruct Hin as [-> | Hin]; [now left | now right].
    + apply Qltb_false in E. destruct (IH a) as (r & Hr & Hle & Hall & Hin).
      exists r. split; [exact Hr |]. split; [exact Hle |]. split.
      * constructor; [lra | assumption].
      * destruct Hin as [-> | Hin]; [now left | right; now right].
Qed.

Lemma maximum_or_zero_finite q qs :
  exists r,
    maximum_or_zero (map Fin (q :: qs)) = Fin r /\
    Forall (fun q' => (q' <= r)%Q) (q :: qs) /\ In r (q :: qs).
Proof.
  unfold maximum_or_zero. cbn [map length Nat.ltb Nat.leb fold_left].
  change (max NegInf (Fin q)) with (Fin q).
  destruct (fold_max_finite qs q) as (r & Hr & Hle & Hall & Hin).
  exists r. split; [exact Hr |]. split; [now constructor |].
  destruct Hin as [-> | Hin]; [now left | now right].
Qed.

(** X10: [updateStats] leaves the statistics alone when no sample is stored;
    otherwise it counts one more test, and the greatest download recorded is
    then the greater of the one before and of the greatest value of the
    series. *)
Theorem updateStats_counts_one_test s downloads old :
  download (testData s) = map Fin downloads ->
  maxDownload (stats s) = Fin old ->
  (downloads = [] -> upload (testData s) = [] -> updateStats s = (s, Returned tt)) /\
  (downloads <> [] ->
   let s' := exec updateStats s in
   result updateStats s = Returned tt /\
   testsRun (stats s') = (testsRun (stats s) + 1)%Z /\
   testData s' = testData s /\
   exists m,
     maxDownload (stats s') = Fin m /\
     (old <= m)%Q /\ Forall (fun q => (q <= m)%Q) downloads /\
     (m = old \/ In m downloads)).
Proof.
  intros Hd Hold. split.
  - intros -> Hu. unfold updateStats, bind, gets. now rewrite Hd, Hu.
  - intros Hne. destruct downloads as [| q qs]; [contradiction |]. cbv zeta.
    unfold updateStats, exec, result, bind at 1 3 5 7, gets. rewrite Hd.
    cbn [map length Nat.eqb andb].
    unfold bind, modify.
    match goal with |- context [updateStatsUI ?s1] =>
      destruct (updateStatsUI_run s1) as [d Hui]; rewrite Hui end.
    cbn [fst snd stats testData set_document set_stats testsRun maxDownload].
    split; [reflexivity |]. split; [reflexivity |]. split; [reflexivity |].
    destruct (maximum_or_zero_finite q qs) as (r & Hr & Hall & Hin).
    cbn [map] in Hr. rewrite Hr, Hold. unfold max. cbn [ltb].
    destruct (Qltb old r) eqn:E.
    + apply Qltb_true in E. exists r. split; [reflexivity |]. split; [lra |].
      split; [exact Hall | now right].
    + apply Qltb_false in E. exists old. split; [reflexivity |]. split; [lra |].
      split; [| now left].
      eapply Forall_impl; [exact Hall |]. cbv beta. intros; lra.
Qed.

Lemma updateStats_counts_one_test_witness :
  download (testData sampled_state) = map Fin [3; 7]%Q /\
  maxDownload (stats sampled_state) = Fin 5 /\
  testsRun (stats (exec updateStats sampled_state)) = 2%Z /\
  maxDownload (stats (exec updateStats sampled_state)) = Fin 7.
Proof.
  split; [reflexivity |]. split; [reflexivity |].
  pose proof (updateStats_counts_one_test sampled_state [3; 7]%Q 5%Q eq_refl eq_refl)
    as [_ H].
  destruct (H ltac:(discriminate)) as (_ & Hn & _ & _).
  split; [exact Hn | reflexivity].
Defined.

(** ** The payload of an upload *)

Lemma length_append (a b : string) :
  String.length (a +:+ b) = (String.length a + String.length b)%nat.
Proof. induction a as [| c a IH]; simpl; [reflexivity | now rewrite IH]. Qed.

Lemma get_inside (s : string) (n : nat) :
  (n < String.length s)%nat -> exists c, String.get n s = Some c.
Proof.
  revert n. induction s as [| c s IH]; intros n H; simpl in H; [lia |].
  destruct n as [| n]; simpl; [now exists c |]. apply IH. lia.
Qed.

Lemma charAt_inside (s : string) (k : Z) :
  (0 <= k < Z.of_nat (String.length s))%Z ->
  exists c, charAt s k = String c "" /\ String.get (Z.to_nat k) s = Some c.
Proof.
  intros H. unfold charAt.
  replace (k <? 0)%Z with false by (symmetry; apply Z.ltb_ge; lia).
  destruct (get_inside s (Z.to_nat k)) as [c Hc]; [lia |].
  exists c. now rewrite Hc.
Qed.

Lemma random_index (r : Q) (n : Z) :
  (0 <= r)%Q -> (r < 1)%Q -> (0 < n)%Z -> (0 <= Qfloor (r * inject_Z n) < n)%Z.
Proof.
  intros H0 H1 Hn.
  assert (Hq : (0 < inject_Z n)%Q) by (change 0%Q with (inject_Z 0); rewrite <- Zlt_Qlt; exact Hn).
  split.
  - change 0%Z with (Qfloor 0). apply Qfloor_resp_le. nra.
  - rewrite Zlt_Qlt. eapply Qle_lt_trans; [apply Qfloor_le |]. nra.
Qed.

Lemma generateTestData_from_spec n rnd i :
  (forall j, (0 <= rnd j)%Q /\ (rnd j < 1)%Q) ->
  String.length (generateTestData_from n rnd i) = n /\
  forall k c, String.get k (generateTestData_from n rnd i) = Some c ->
    exists j, String.get j chars = Some c.
Proof.
  intros Hr. revert i. induction n as [| n IH]; intros i; cbn [generateTestData_from].
  - split; [reflexivity |]. intros k c H. destruct k; discriminate.
  - destruct (charAt_inside chars (Qfloor (rnd i * inject_Z (Z.of_nat (String.length chars)))))
      as (c0 & Hc0 & Hget).
    { destruct (Hr i). apply random_index; [assumption | assumption | reflexivity]. }
    rewrite Hc0. destruct (IH (S i)) as [Hlen Hall]. split.
    + rewrite length_append, Hlen. reflexivity.
    + intros k c H. cbn [String.append] in H. destruct k as [| k].
      * injection H as <-. eexists. exact Hget.
      * apply (Hall k c). exact H.
Qed.

(** X11: the payload of an upload has exactly the size drawn at random,
    between 25,000 and 74,999 characters, all of them letters or digits of
    [chars]. *)
Theorem upload_payload_size (p : probe) :
  (0 <= random p)%Q -> (random p < 1)%Q ->
  (forall j, (0 <= char_random p j)%Q /\ (char_random p j < 1)%Q) ->
  let size := (Qfloor (random p * 50000) + 25000)%Z in
  let payload := generateTestData size (char_random p) in
  upload_bytes p = size /\
  (25000 <= upload_bytes p < 75000)%Z /\
  forall k c, String.get k payload = Some c -> exists j, String.get j chars = Some c.
Proof.
  intros H0 H1 Hr size payload.
  assert (Hsize : (25000 <= size < 75000)%Z).
  { pose proof (random_index (random p) 50000 H0 H1 ltac:(lia)) as H.
    change (inject_Z 50000) with 50000%Q in H. unfold size. lia. }
  destruct (generateTestData_from_spec (Z.to_nat size) (char_random p) 0 Hr) as [Hlen Hall].
  assert (Hb : upload_bytes p = size).
  { unfold upload_bytes. fold size. unfold generateTestData. rewrite Hlen. lia. }
  split; [exact Hb |]. split; [lia |]. exact Hall.
Qed.

Lemma upload_payload_size_witness :
  (0 <= random median_probe)%Q /\ (random median_probe < 1)%Q /\
  (forall j, (0 <= char_random median_probe j)%Q /\ (char_random median_probe j < 1)%Q) /\
  upload_bytes median_probe = 50000%Z.
Proof.
  assert (H0 : (0 <= random median_probe)%Q) by (simpl; lra).
  assert (H1 : (random median_probe < 1)%Q) by (simpl; lra).
  assert (Hr : forall j, (0 <= char_random median_probe j)%Q /\
                         (char_random median_probe j < 1)%Q) by (intros j; simpl; lra).
  split; [exact H0 |]. split; [exact H1 |]. split; [exact Hr |].
  exact (proj1 (upload_payload_size median_probe H0 H1 Hr)).
Defined.

(** ** Timed requests *)

Lemma race_run {A : Type} (p : option (promise A)) t msg s :
  exec (race p t msg) s = set_clock (clock s + Z.of_N (settle_time p t)) s.
Proof.
  destruct p as [[d v | d e] |]; cbn [race settle_time];
    try destruct (d <? t)%N eqn:E; try reflexivity;
    unfold exec, bind, advance, modify, ret, throw; cbn [fst];
    try (apply N.ltb_lt in E; now rewrite N.min_l by lia);
    try (apply N.ltb_ge in E; now rewrite N.min_r by lia).
Qed.

Lemma sub_of_Z a b : (of_Z a - of_Z b)%js = of_Z (a - b).
Proof.
  unfold sub, neg, add, of_Z. f_equal.
  rewrite <- (inject_Z_Qred (a - b)). apply Qred_complete.
  rewrite Qred_correct. unfold Z.sub. rewrite inject_Z_plus, inject_Z_opp. reflexivity.
Qed.

Lemma measureLatencyWithFetch_run t s :
  measureLatencyWithFetch t s =
    (set_clock (clock s + Z.of_N (settle_time (favicon t) 3000)) s,
     Returned (of_Z (Z.of_N (settle_time (favicon t) 3000)))).
Proof.
  unfold measureLatencyWithFetch, bind at 1, gets at 1.
  assert (H : try_catch (fetchWithTimeout (favicon t) 3000) (fun _ => ret tt) s =
              (set_clock (clock s + Z.of_N (settle_time (favicon t) 3000)) s, Returned tt)).
  { pose proof (race_run (favicon t) 3000 "timeout" s) as H.
    unfold try_catch, fetchWithTimeout, exec in *.
    destruct (race (favicon t) 3000 "timeout" s) as [s' [[] | e]]; simpl in H; now subst. }
  rewrite (bind_returned _ _ _ _ _ H). unfold bind, gets, ret. cbn [clock set_clock].
  rewrite sub_of_Z. do 3 f_equal. lia.
Qed.

Lemma bind_cong {A B : Type} (m1 m2 : M A) (k1 k2 : A -> M B) s :
  m1 s = m2 s -> (forall a s', k1 a s' = k2 a s') -> bind m1 k1 s = bind m2 k2 s.
Proof.
  intros Hm Hk. unfold bind. rewrite Hm. destruct (m2 s) as [s' [a | e]]; [apply Hk | reflexivity].
Qed.

Lemma try_catch_cong {A : Type} (m1 m2 : M A) (h : error -> M A) s :
  m1 s = m2 s -> try_catch m1 h s = try_catch m2 h s.
Proof. intros Hm. unfold try_catch. now rewrite Hm. Qed.

Lemma measured_by_fetch env rnd i s :
  latency_of_trial
    (fun i => measureLatencyWithFetch (env i))
    (fun i => measureLatencyWithImage (env i))
    (fun i => measureLatencyWithWebRTC (env i)) rnd i s =
  measureLatencyWithFetch (env i) s.
Proof.
  unfold latency_of_trial. rewrite measureLatencyWithFetch_run.
  apply try_catch_returned, measureLatencyWithFetch_run.
Qed.

Lemma latency_trials_by_fetch (env env' : nat -> latency_trial) n i ms s :
  (forall i, favicon (env' i) = favicon (env i) /\ gap_late (env' i) = gap_late (env i)) ->
  latency_trials
    (fun i => measureLatencyWithFetch (env' i))
    (fun i => measureLatencyWithImage (env' i))
    (fun i => measureLatencyWithWebRTC (env' i))
    (fun i => estimate_random (env' i)) (fun i => gap_late (env' i)) n i ms s =
  latency_trials
    (fun i => measureLatencyWithFetch (env i))
    (fun i => measureLatencyWithImage (env i))
    (fun i => measureLatencyWithWebRTC (env i))
    (fun i => estimate_random (env i)) (fun i => gap_late (env i)) n i ms s.
Proof.
  intros Hagree. revert s i ms. induction n as [| n IH]; intros s i ms; [reflexivity |].
  cbn [latency_trials].
  apply bind_cong.
  { rewrite !measured_by_fetch, !measureLatencyWithFetch_run.
    now destruct (Hagree i) as [-> _]. }
  intros v s3. apply bind_cong; [now destruct (Hagree i) as [_ ->] | intros _ s4].
  apply IH.
Qed.

(** C4: when every probe of a measurement fails, [measureLatency] is written
    to fall back on an estimate in [[50, 100)], which would put the mean of
    the three measurements in [[50, 100)] too; the code does not get there.
    In a browser that is offline the request of the first method is
    rejected, the method swallows the rejection and returns the 2 ms that it
    took, so the image, the peer connection and the estimate (75 for the
    random number 1/2) are never tried, though the other two methods would
    throw: each measurement is 2, the mean is 2, which is not in [[50, 100)],
    and [measureLatency] shows "2 ms" in the colour of the best band.  The
    binary64 mean of the three measurements is 2 as well. *)
Theorem C4_failed_probes_shown_as_latency :
  (forall i s,
     measureLatencyWithFetch (offline_trials i) s
       = (set_clock (clock s + 2) s, Returned (Fin 2)) /\
     latency_of_trial
       (fun i => measureLatencyWithFetch (offline_trials i))
       (fun i => measureLatencyWithImage (offline_trials i))
       (fun i => measureLatencyWithWebRTC (offline_trials i))
       (fun i => estimate_random (offline_trials i)) i s
       = (set_clock (clock s + 2) s, Returned (Fin 2)) /\
     (exists e, result (measureLatencyWithImage (offline_trials i)) s = Thrown e) /\
     (exists e, result (measureLatencyWithWebRTC (offline_trials i)) s = Thrown e) /\
     conservative_estimate (estimate_random (offline_trials i)) = Fin 75) /\
  avgLatency [Fin 2; Fin 2; Fin 2] = Fin 2 /\
  ~ conservative (Fin 2) /\
  (let s := constructed latency_page 0 in
   result (measureLatency offline_trials) s = Returned tt /\
   document (exec (measureLatency offline_trials) s) !! "latency"
     = Some (Element "2 ms" (band_color excellent))) /\
  (let two := Binary64.of_Z 2 in
   Binary64.avgLatency [two; two; two] = two /\
   Binary64.ltb two Binary64.fifty = true).
Proof.
  split; [| split; [| split; [| split]]].
  - intros i s.
    assert (H : measureLatencyWithFetch (offline_trials i) s
                = (set_clock (clock s + 2) s, Returned (Fin 2)))
      by apply (measureLatencyWithFetch_run (offline_trials i) s).
    split; [exact H |]. split; [| split; [| split]].
    + rewrite measured_by_fetch. exact H.
    + eexists. reflexivity.
    + eexists. reflexivity.
    + reflexivity.
  - reflexivity.
  - intros (q & E & L & _). injection E as <-. revert L. apply Qlt_not_le. reflexivity.
  - vm_compute. split; reflexivity.
  - vm_compute. split; reflexivity.
Qed.

(** X12: a measurement of the latency is the time that the request for the
    favicon takes to settle, capped by the 3000 ms of the timer, whether the
    request succeeds or not; the image, the peer connection and the
    estimate are never used. *)
Theorem latency_is_time_of_fetch (env env' : nat -> latency_trial) s :
  (forall i, favicon (env' i) = favicon (env i) /\ gap_late (env' i) = gap_late (env i)) ->
  measureLatency env' s = measureLatency env s /\
  (forall i s0,
     let elapsed := settle_time (favicon (env i)) 3000 in
     latency_of_trial
       (fun i => measureLatencyWithFetch (env i))
       (fun i => measureLatencyWithImage (env i))
       (fun i => measureLatencyWithWebRTC (env i))
       (fun i => estimate_random (env i)) i s0 =
     (set_clock (clock s0 + Z.of_N elapsed) s0, Returned (of_Z (Z.of_N elapsed))) /\
     (elapsed <= 3000)%N).
Proof.
  intros Hagree. split.
  - unfold measureLatency, measureLatencyWith.
    apply bind_cong; [reflexivity | intros _ s1].
    apply bind_cong; [reflexivity | intros _ s2].
    apply try_catch_cong. apply bind_cong; [| reflexivity].
    now apply latency_trials_by_fetch.
  - intros i s0 elapsed. split.
    + rewrite measured_by_fetch. apply measureLatencyWithFetch_run.
    + unfold elapsed, settle_time. destruct (favicon (env i)) as [[d v | d e] |]; lia.
Qed.

Lemma latency_is_time_of_fetch_witness :
  (forall i, favicon (silent_trials i) = favicon (eager_trials i) /\
             gap_late (silent_trials i) = gap_late (eager_trials i)) /\
  measureLatency silent_trials (constructed latency_page 0) =
    measureLatency eager_trials (constructed latency_page 0) /\
  shown "latency" (exec (measureLatency eager_trials) (constructed latency_page 0))
    = Some "0 ms".
Proof.
  assert (H : forall i, favicon (silent_trials i) = favicon (eager_trials i) /\
                        gap_late (silent_trials i) = gap_late (eager_trials i))
    by (intros i; split; reflexivity).
  split; [exact H |].
  split; [exact (proj1 (latency_is_time_of_fetch eager_trials silent_trials
                          (constructed latency_page 0) H)) |].
  vm_compute. reflexivity.
Defined.

(** ** The local address *)

Lemma set_textContent_shown id v s :
  is_Some (document s !! id) ->
  exists s',
    set_textContent id v s = (s', Returned tt) /\ shown id s' = Some v /\
    clock s' = clock s.
Proof.
  intros [el Hel]. eexists. split; [apply (set_textContent_present _ _ _ _ Hel) |].
  unfold shown. cbn [document set_document clock]. now rewrite lookup_insert_eq.
Qed.

Lemma shown_is_Some id v s : shown id s = Some v -> is_Some (document s !! id).
Proof. unfold shown. destruct (document s !! id); [eauto | discriminate]. Qed.

Lemma getLocalIPFallback_run env s :
  is_Some (document s !! "localIP") ->
  exists s',
    getLocalIPFallback env s = (s', Returned tt) /\
    shown "localIP" s' =
      Some (match fallback_lookup env with
            | Resolves _ _ => "Behind NAT/Firewall"
            | Rejects _ _ => "Unable to detect"
            end).
Proof.
  intros Hel. unfold getLocalIPFallback.
  destruct (fallback_lookup env) as [d v | d e]; cbn [await].
  - destruct (set_textContent_shown "localIP" "Behind NAT/Firewall"
                (set_clock (clock s + Z.of_N d) s) Hel) as (s' & Hrun & Hshown & _).
    exists s'. split; [| exact Hshown].
    apply try_catch_returned. exact Hrun.
  - destruct (set_textContent_shown "localIP" "Unable to detect"
                (set_clock (clock s + Z.of_N d) s) Hel) as (s' & Hrun & Hshown & _).
    exists s'. split; [| exact Hshown].
    erewrite try_catch_thrown; [exact Hrun | reflexivity].
Qed.

Lemma classic_candidate env :
  (exists ip, candidate_found env ip) \/ (forall ip, ~ candidate_found env ip).
Proof.
  unfold candidate_found. destruct (local_candidate env) as [[d ip | d e] |].
  - destruct (d <? 5000)%N eqn:Hd.
    + left. exists ip, d. split; [reflexivity | now apply N.ltb_lt].
    + right. intros ip' (d' & Hc & Hd'). injection Hc as <- _.
      apply N.ltb_ge in Hd. lia.
  - right. intros ip (d' & Hc & _). discriminate.
  - right. intros ip (d' & Hc & _). discriminate.
Qed.

(** X13: on a page with the read-out of the local address, [getLocalIP]
    returns normally whether the peer connection answers or not and whether
    the fallback, which settles, resolves or is rejected; the read-out shows
    the address found, or one of two placeholders. *)
Theorem getLocalIP_outcomes env s :
  is_Some (document s !! "localIP") ->
  result (getLocalIP env) s = Returned tt /\
  (forall ip, candidate_found env ip -> shown "localIP" (exec (getLocalIP env) s) = Some ip) /\
  ((forall ip, ~ candidate_found env ip) ->
   shown "localIP" (exec (getLocalIP env) s) =
     Some (match fallback_lookup env with
           | Resolves _ _ => "Behind NAT/Firewall"
           | Rejects _ _ => "Unable to detect"
           end)).
Proof.
  intros Hel. unfold getLocalIP, result, exec.
  destruct (set_textContent_shown "localIP" "Detecting..." s Hel) as (s1 & Hrun1 & Hshown1 & _).
  apply shown_is_Some in Hshown1.
  assert (Hfound : forall d ip, local_candidate env = Some (Resolves d ip) -> (d < 5000)%N ->
            exists s', try_catch
              (set_textContent "localIP" "Detecting..." ;;
               localIP <- race (local_candidate env) 5000 "Local IP detection timeout" ;;
               set_textContent "localIP" localIP)
              (fun _ => getLocalIPFallback env) s = (s', Returned tt) /\
              shown "localIP" s' = Some ip).
  { intros d ip Hc Hd.
    destruct (set_textContent_shown "localIP" ip (set_clock (clock s1 + Z.of_N d) s1) Hshown1)
      as (s' & Hrun & Hshown & _).
    exists s'. split; [| exact Hshown].
    apply try_catch_returned. rewrite (bind_returned _ _ _ _ _ Hrun1), Hc.
    rewrite (bind_returned _ _ _ _ _ (race_resolves _ _ _ _ _ Hd)). exact Hrun. }
  assert (Hlost : (forall ip, ~ candidate_found env ip) ->
            exists s', try_catch
              (set_textContent "localIP" "Detecting..." ;;
               localIP <- race (local_candidate env) 5000 "Local IP detection timeout" ;;
               set_textContent "localIP" localIP)
              (fun _ => getLocalIPFallback env) s = (s', Returned tt) /\
              shown "localIP" s' =
                Some (match fallback_lookup env with
                      | Resolves _ _ => "Behind NAT/Firewall"
                      | Rejects _ _ => "Unable to detect"
                      end)).
  { intros Hnone.
    assert (Hthrow : exists t e,
              race (local_candidate env) 5000 "Local IP detection timeout" s1
                = (set_clock t s1, Thrown e)).
    { destruct (local_candidate env) as [[d ip | d e] |] eqn:Hc; cbn [race].
      - destruct (d <? 5000)%N eqn:Hd.
        + exfalso. apply (Hnone ip). exists d. split; [exact Hc | now apply N.ltb_lt].
        + do 2 eexists. reflexivity.
      - destruct (d <? 5000)%N; do 2 eexists; reflexivity.
      - do 2 eexists. reflexivity. }
    destruct Hthrow as (t & e & Hthrow).
    destruct (getLocalIPFallback_run env (set_clock t s1) Hshown1) as (s' & Hrun & Hshown).
    exists s'. split; [| exact Hshown].
    erewrite try_catch_thrown; [exact Hrun |].
    rewrite (bind_returned _ _ _ _ _ Hrun1). unfold bind. now rewrite Hthrow. }
  destruct (classic_candidate env) as [[ip Hip] | Hnone].
  - destruct Hip as (d & Hc & Hd). destruct (Hfound d ip Hc Hd) as (s' & Hrun & Hshown).
    rewrite Hrun. cbn [fst snd]. split; [reflexivity |]. split.
    + intros ip' (d' & Hc' & _). rewrite Hc in Hc'. now injection Hc' as _ <-.
    + intros Hnone. exfalso. apply (Hnone ip). now exists d.
  - destruct (Hlost Hnone) as (s' & Hrun & Hshown).
    rewrite Hrun. cbn [fst snd]. split; [reflexivity |]. split.
    + intros ip Hip. exfalso. now apply (Hnone ip).
    + intros _. exact Hshown.
Qed.

Lemma getLocalIP_outcomes_witness :
  is_Some (document (constructed network_page 0) !! "localIP") /\
  candidate_found geolocation_timeout "192.168.1.23" /\
  shown "localIP" (exec (getLocalIP geolocation_timeout) (constructed network_page 0))
    = Some "192.168.1.23".
Proof.
  assert (H : is_Some (document (constructed network_page 0) !! "localIP"))
    by (vm_compute; eauto).
  assert (Hc : candidate_found geolocation_timeout "192.168.1.23")
    by (exists 120%N; split; [reflexivity | reflexivity]).
  split; [exact H |]. split; [exact Hc |].
  exact (proj1 (proj2 (getLocalIP_outcomes geolocation_timeout (constructed network_page 0) H))
           _ Hc).
Defined.

(** ** The DNS test *)

Lemma round_of_Z z : round (of_Z z) = of_Z z.
Proof.
  unfold round, of_Z. do 2 f_equal. apply Qfloor_unique; generalize (inject_Z z); intros y; lra.
Qed.

Lemma dnsResult_run dns req s :
  exists line,
    dnsResult dns req s =
      (set_clock (clock s + Z.of_N (settle_time req 3000)) s, Returned line) /\
    dns_line dns req line.
Proof.
  unfold dnsResult, try_catch, bind at 1, gets at 1, fetchWithTimeout.
  destruct req as [[d r | d e] |]; cbn [race settle_time].
  - destruct (d <? 3000)%N eqn:Hd.
    + apply N.ltb_lt in Hd. rewrite N.min_l by lia.
      unfold bind, advance, modify, ret, gets. cbn [clock set_clock].
      destruct (ok r) eqn:Hok.
      * eexists. split; [reflexivity |].
        rewrite sub_of_Z, round_of_Z. cbn [clock set_clock].
        replace (clock s + Z.of_N d - clock s)%Z with (Z.of_N d) by lia.
        now constructor.
      * eexists. split; [reflexivity |]. now constructor.
    + apply N.ltb_ge in Hd. rewrite N.min_r by lia.
      eexists. split; [reflexivity |]. now constructor.
  - destruct (d <? 3000)%N eqn:Hd.
    + apply N.ltb_lt in Hd. rewrite N.min_l by lia.
      eexists. split; [reflexivity |]. constructor.
    + apply N.ltb_ge in Hd. rewrite N.min_r by lia.
      eexists. split; [reflexivity |]. constructor.
  - eexists. split; [reflexivity |]. constructor.
Qed.

Lemma settle_time_le {A : Type} (p : option (promise A)) t : (settle_time p t <= t)%N.
Proof. destruct p as [[d v | d e] |]; cbn [settle_time]; lia. Qed.

Lemma dnsResults_run env s :
  exists t l1 l2 l3,
    dnsResults dnsServers env 0 [] s = (set_clock t s, Returned [l1; l2; l3]) /\
    (clock s <= t <= clock s + 9000)%Z /\
    dns_line (DnsServer "Google DNS" "8.8.8.8") (env 0%nat) l1 /\
    dns_line (DnsServer "Cloudflare DNS" "1.1.1.1") (env 1%nat) l2 /\
    dns_line (DnsServer "OpenDNS" "208.67.222.222") (env 2%nat) l3.
Proof.
  unfold dnsServers. cbn [dnsResults].
  destruct (dnsResult_run (DnsServer "Google DNS" "8.8.8.8") (env 0%nat) s) as (l1 & H1 & Hl1).
  rewrite (bind_returned _ _ _ _ _ H1).
  destruct (dnsResult_run (DnsServer "Cloudflare DNS" "1.1.1.1") (env 1%nat)
              (set_clock (clock s + Z.of_N (settle_time (env 0%nat) 3000)) s))
    as (l2 & H2 & Hl2).
  rewrite (bind_returned _ _ _ _ _ H2).
  match type of H2 with _ = (?s2, _) =>
    destruct (dnsResult_run (DnsServer "OpenDNS" "208.67.222.222") (env 2%nat) s2)
      as (l3 & H3 & Hl3)
  end.
  rewrite (bind_returned _ _ _ _ _ H3).
  pose proof (settle_time_le (env 0%nat) 3000). pose proof (settle_time_le (env 1%nat) 3000).
  pose proof (settle_time_le (env 2%nat) 3000).
  eexists _, l1, l2, l3. split; [reflexivity |]. cbn [clock set_clock].
  split; [lia |]. auto.
Qed.

Lemma has_elements_dom ids s s' :
  dom (document s') = dom (document s) -> has_elements ids s -> has_elements ids s'.
Proof.
  intros Hdom H id Hid. apply elem_of_dom. rewrite Hdom. apply elem_of_dom. now apply H.
Qed.

Lemma set_textContent_frame id v s :
  is_Some (document s !! id) ->
  exists s',
    set_textContent id v s = (s', Returned tt) /\
    shown id s' = Some v /\
    (forall id', id' <> id -> shown id' s' = shown id' s) /\
    dom (document s') = dom (document s) /\
    clock s' = clock s /\ notifications s' = notifications s.
Proof.
  intros [el Hel]. eexists. split; [apply (set_textContent_present _ _ _ _ Hel) |].
  unfold shown. cbn [document set_document clock notifications].
  split; [now rewrite lookup_insert_eq |].
  split; [intros id' Hne; now rewrite lookup_insert_ne by congruence |].
  split; [| split; reflexivity].
  apply dom_insert_lookup_L. now rewrite Hel.
Qed.

Lemma showStatus_frame msg ty s :
  is_Some (document s !! "statusText") -> is_Some (document s !! "statusMessage") ->
  exists s',
    showStatus msg ty s = (s', Returned tt) /\
    notifications s' = notifications s ++ [(msg, ty)] /\
    (forall id, id <> "statusText" -> shown id s' = shown id s) /\
    clock s' = clock s.
Proof.
  intros H1 H2.
  destruct (set_textContent_frame "statusText" msg s H1) as (s1 & Hrun & _ & Hother & Hdom & Hc & Hn).
  assert (H2' : is_Some (document s1 !! "statusMessage")).
  { apply elem_of_dom. rewrite Hdom. now apply elem_of_dom. }
  destruct H2' as [el2 Hel2].
  eexists. split.
  { unfold showStatus. rewrite (bind_returned _ _ _ _ _ Hrun).
    unfold bind, touch. rewrite Hel2. reflexivity. }
  cbn [notifications set_notifications clock]. rewrite Hn, Hc.
  split; [reflexivity |]. split; [| reflexivity].
  intros id Hne. rewrite <- (Hother id Hne). reflexivity.
Qed.

(** X14: the DNS test does not fail because of the network: whatever the
    three requests do, it shows one line per server, in the order of the
    servers, takes at most nine seconds and reports its completion. *)
Theorem testDNS_reports_every_server env s :
  has_elements dns_elements s ->
  exists s' l1 l2 l3,
    testDNS env s = (s', Returned tt) /\
    shown "dnsResults" s' = Some (l1 +:+ l2 +:+ l3) /\
    dns_line (DnsServer "Google DNS" "8.8.8.8") (env 0%nat) l1 /\
    dns_line (DnsServer "Cloudflare DNS" "1.1.1.1") (env 1%nat) l2 /\
    dns_line (DnsServer "OpenDNS" "208.67.222.222") (env 2%nat) l3 /\
    notifications s' = notifications s ++ [("DNS performance test completed", "success")] /\
    (clock s <= clock s' <= clock s + 9000)%Z.
Proof.
  intros Hel.
  assert (Hin : forall id s0, id ∈ dns_elements -> dom (document s0) = dom (document s) ->
                  is_Some (document s0 !! id)).
  { intros id s0 Hid Hdom. apply (has_elements_dom dns_elements s s0 Hdom Hel id Hid). }
  assert (E1 : "dnsResults" ∈ dns_elements) by (unfold dns_elements; repeat constructor).
  assert (E2 : "dnsServers" ∈ dns_elements) by (unfold dns_elements; repeat constructor).
  assert (E3 : "statusText" ∈ dns_elements) by (unfold dns_elements; repeat constructor).
  assert (E4 : "statusMessage" ∈ dns_elements) by (unfold dns_elements; repeat constructor).
  unfold testDNS.
  destruct (Hin _ s E1 eq_refl) as [el0 Hel0].
  unfold bind at 1, touch. rewrite Hel0.
  destruct (set_textContent_frame "dnsResults" "Testing DNS servers..." s (Hin _ s E1 eq_refl))
    as (s1 & Hrun1 & _ & _ & Hdom1 & Hc1 & Hn1).
  rewrite (bind_returned _ _ _ _ _ Hrun1).
  destruct (dnsResults_run env s1) as (t & l1 & l2 & l3 & Hrun2 & Ht & Hl1 & Hl2 & Hl3).
  rewrite (bind_returned _ _ _ _ _ Hrun2).
  set (s2 := set_clock t s1) in *.
  assert (Hdom2 : dom (document s2) = dom (document s)) by exact Hdom1.
  destruct (set_textContent_frame "dnsResults" (String.concat "" [l1; l2; l3]) s2
              (Hin _ s2 E1 Hdom2)) as (s3 & Hrun3 & Hshown3 & _ & Hdom3 & Hc3 & Hn3).
  rewrite (bind_returned _ _ _ _ _ Hrun3).
  assert (Hdom3' : dom (document s3) = dom (document s)) by congruence.
  match goal with |- context [set_textContent "dnsServers" ?txt] =>
    destruct (set_textContent_frame "dnsServers" txt s3 (Hin _ s3 E2 Hdom3'))
      as (s4 & Hrun4 & _ & Hother4 & Hdom4 & Hc4 & Hn4)
  end.
  rewrite (bind_returned _ _ _ _ _ Hrun4).
  assert (Hdom4' : dom (document s4) = dom (document s)) by congruence.
  destruct (showStatus_frame "DNS performance test completed" "success" s4
              (Hin _ s4 E3 Hdom4') (Hin _ s4 E4 Hdom4')) as (s5 & Hrun5 & Hn5 & Hother5 & Hc5).
  exists s5, l1, l2, l3. split; [exact Hrun5 |].
  split.
  { rewrite Hother5 by discriminate. rewrite Hother4 by discriminate. rewrite Hshown3.
    cbn [String.concat]. reflexivity. }
  split; [exact Hl1 |]. split; [exact Hl2 |]. split; [exact Hl3 |].
  split.
  - rewrite Hn5, Hn4, Hn3. unfold s2. cbn [notifications set_clock]. now rewrite Hn1.
  - rewrite Hc5, Hc4, Hc3. unfold s2. cbn [clock set_clock]. lia.
Qed.

Lemma testDNS_reports_every_server_witness :
  has_elements dns_elements (constructed dns_page 0) /\
  (exists s' l1 l2 l3,
     testDNS mixed_resolvers (constructed dns_page 0) = (s', Returned tt) /\
     shown "dnsResults" s' = Some (l1 +:+ l2 +:+ l3) /\
     dns_line (DnsServer "Google DNS" "8.8.8.8") (mixed_resolvers 0%nat) l1 /\
     dns_line (DnsServer "Cloudflare DNS" "1.1.1.1") (mixed_resolvers 1%nat) l2 /\
     dns_line (DnsServer "OpenDNS" "208.67.222.222") (mixed_resolvers 2%nat) l3 /\
     notifications s' =
       notifications (constructed dns_page 0) ++
         [("DNS performance test completed", "success")] /\
     (clock (constructed dns_page 0) <= clock s'
        <= clock (constructed dns_page 0) + 9000)%Z) /\
  shown "dnsResults" (exec (testDNS mixed_resolvers) (constructed dns_page 0)) =
    Some "Google DNS: 30msCloudflare DNS: Error (503)OpenDNS: Timeout/Error" /\
  clock (exec (testDNS mixed_resolvers) (constructed dns_page 0)) = 3070%Z.
Proof.
  assert (H : has_elements dns_elements (constructed dns_page 0))
    by (apply has_elements_check; vm_compute; reflexivity).
  split; [exact H |].
  split; [exact (testDNS_reports_every_server mixed_resolvers (constructed dns_page 0) H) |].
  split; vm_compute; reflexivity.
Defined.

(** ** The keyboard *)

(** X15: with Ctrl or Cmd held, Enter does what the start button does and
    Escape does what the stop button does during a test; Escape outside of a
    test and every other key do nothing. *)
Theorem keyboard_shortcuts cfg tl event env s :
  ctrlKey event || metaKey event = true ->
  (key event = "Enter" -> keydown cfg tl event env s = startSpeedTest cfg tl env s) /\
  (key event = "Escape" -> isTestRunning s = true ->
     keydown cfg tl event env s = stopSpeedTest s) /\
  (key event = "Escape" -> isTestRunning s = false ->
     keydown cfg tl event env s = (s, Returned tt)) /\
  (key event <> "Enter" -> key event <> "Escape" ->
     keydown cfg tl event env s = (s, Returned tt)).
Proof.
  intros Hmod. unfold keydown. rewrite Hmod. repeat split.
  - intros ->. cbn [String.eqb Ascii.eqb Bool.eqb andb]. unfold bind at 1, gets at 1.
    destruct (isTestRunning s) eqn:E; cbn [negb]; [| reflexivity].
    unfold startSpeedTest, bind, gets. now rewrite E.
  - intros -> E. cbn. unfold bind, gets. now rewrite E.
  - intros -> E. cbn. unfold bind, gets. now rewrite E.
  - intros H1 H2. apply String.eqb_neq in H1, H2. now rewrite H1, H2.
Qed.

Lemma keyboard_shortcuts_witness :
  let event := KeyboardEvent true false "Enter" in
  ctrlKey event || metaKey event = true /\
  keydown scenario_config clock_label event ordinary_session (constructed speed_page 0) =
    startSpeedTest scenario_config clock_label ordinary_session (constructed speed_page 0).
Proof.
  intros event. split; [reflexivity |].
  exact (proj1 (keyboard_shortcuts scenario_config clock_label event ordinary_session
                  (constructed speed_page 0) eq_refl) eq_refl).
Defined.

(** ** The series of a new session *)

Lemma gets_bind_run {A B : Type} (f : analyzer -> A) (k : A -> M B) s :
  (x <- gets f ;; k x) s = k (f s) s.
Proof. reflexivity. Qed.

Lemma modify_bind_run {B : Type} (f : analyzer -> analyzer) (k : M B) s :
  (modify f ;; k) s = k (f s).
Proof. reflexivity. Qed.

Lemma resetTestUI_run s el1 el2 :
  document s !! "downloadSpeed" = Some el1 ->
  document s !! "uploadSpeed" = Some el2 ->
  resetTestUI s =
    (render (Chart [] [] [])
       (set_testData empty_testData
          (set_document
             (<["uploadSpeed" := Element "0" (color el2)]>
                (<["downloadSpeed" := Element "0" (color el1)]> (document s))) s)),
     Returned tt).
Proof.
  intros H1 H2. unfold resetTestUI.
  rewrite (bind_returned _ _ _ _ _ (set_textContent_present _ "0" _ _ H1)).
  assert (H2' : document
                  (set_document (<["downloadSpeed" := Element "0" (color el1)]> (document s)) s)
                  !! "uploadSpeed" = Some el2).
  { cbn [document set_document]. now rewrite lookup_insert_ne by discriminate. }
  rewrite (bind_returned _ _ _ _ _ (set_textContent_present _ "0" _ _ H2')).
  reflexivity.
Qed.

(** X16: a session starts from empty series: what it does and what it
    leaves does not depend on the series collected before. *)
Theorem session_forgets_earlier_series cfg tl env s :
  isTestRunning s = false ->
  is_Some (document s !! "downloadSpeed") ->
  is_Some (document s !! "uploadSpeed") ->
  startSpeedTest cfg tl env s = startSpeedTest cfg tl env (set_testData empty_testData s).
Proof.
  intros Hidle [el1 H1] [el2 H2].
  unfold startSpeedTest. rewrite !gets_bind_run. cbn [isTestRunning set_testData].
  rewrite Hidle. rewrite !modify_bind_run.
  rewrite (bind_returned _ _ _ _ _ (resetTestUI_run (set_isTestRunning true s) el1 el2 H1 H2)).
  rewrite (bind_returned _ _ _ _ _
             (resetTestUI_run (set_isTestRunning true (set_testData empty_testData s))
                el1 el2 H1 H2)).
  reflexivity.
Qed.

Lemma session_forgets_earlier_series_witness :
  isTestRunning used_state = false /\
  is_Some (document used_state !! "downloadSpeed") /\
  is_Some (document used_state !! "uploadSpeed") /\
  testData used_state <> empty_testData /\
  startSpeedTest scenario_config clock_label ordinary_session used_state =
    startSpeedTest scenario_config clock_label ordinary_session
      (set_testData empty_testData used_state).
Proof.
  assert (H1 : is_Some (document used_state !! "downloadSpeed")) by (vm_compute; eauto).
  assert (H2 : is_Some (document used_state !! "uploadSpeed")) by (vm_compute; eauto).
  split; [reflexivity |]. split; [exact H1 |]. split; [exact H2 |].
  split; [discriminate |].
  exact (session_forgets_earlier_series scenario_config clock_label ordinary_session
           used_state eq_refl H1 H2).
Defined.

(** ** The alignment of the download series and the timestamps *)

(** C9: whatever happens to an analyzer (sessions, stops, refreshes, single
    publications, resets, in any order and whether or not a handler throws),
    the download series and the timestamps have the same length, in the data
    and in what the chart was given at each of its updates.  A download
    publication appends one value to each of the two and none to the upload
    series, and the eviction follows; when there are more timestamps than
    [maxDataPoints] the eviction removes the first element of each, and
    otherwise nothing; a reset leaves both empty, and the chart too.  The
    upload series is not bound to that length: after one download
    publication it is one element behind. *)
Theorem C9_download_and_timestamps_aligned :
  (forall cfg tl evs page t0,
     let s := after cfg tl evs (constructed page t0) in
     length (download (testData s)) = length (timestamps (testData s)) /\
     Forall (fun c => length (dataset0 c) = length (labels c)) (renders s)) /\
  (forall cfg tl speed s,
     is_Some (document s !! "downloadSpeed") ->
     let td := push_download (displaySpeed speed) (tl (clock s)) (testData s) in
     testData (exec (updateDownloadSpeed cfg tl speed) s) = limit_data_points cfg td /\
     length (download td) = S (length (download (testData s))) /\
     length (timestamps td) = S (length (timestamps (testData s))) /\
     upload td = upload (testData s)) /\
  (forall cfg td,
     length (download td) = length (timestamps td) ->
     (maxDataPoints cfg < length (timestamps td))%nat ->
     let td' := limit_data_points cfg td in
     timestamps td = hd "" (timestamps td) :: timestamps td' /\
     download td = hd NaN (download td) :: download td' /\
     length (timestamps td) = S (length (timestamps td')) /\
     length (download td) = S (length (download td'))) /\
  (forall cfg td,
     (length (timestamps td) <= maxDataPoints cfg)%nat ->
     limit_data_points cfg td = td) /\
  (forall s,
     is_Some (document s !! "downloadSpeed") ->
     is_Some (document s !! "uploadSpeed") ->
     result resetTestUI s = Returned tt /\
     testData (exec resetTestUI s) = empty_testData /\
     download (testData (exec resetTestUI s)) = [] /\
     timestamps (testData (exec resetTestUI s)) = [] /\
     chart (exec resetTestUI s) = Chart [] [] []) /\
  (let s := after default_config clock_label [PublishDownload (Fin 1)]
              (constructed speed_page 0) in
   length (download (testData s)) = 1%nat /\ length (upload (testData s)) = 0%nat /\
   renders s = [Chart ["0"] [Fin 1] []]).
Proof.
  split; [| split; [| split; [| split; [| split]]]].
  - intros cfg tl evs page t0.
    destruct (stable_after cfg tl aligned evs (constructed page t0)) as (H1 & _ & H3).
    + repeat split; constructor.
    + split; [exact H1 | exact H3].
  - intros cfg tl speed s H td.
    split; [apply updateDownloadSpeed_run, H |].
    unfold td, push_download. simpl. rewrite !length_app. simpl.
    repeat split; lia.
  - intros cfg td Hlen Hcap td'. unfold td', limit_data_points.
    apply Nat.ltb_lt in Hcap as Hcap'. rewrite Hcap'. simpl.
    destruct (timestamps td) as [| t ts]; [simpl in Hcap; lia |].
    destruct (download td) as [| v vs]; [discriminate Hlen |].
    simpl. repeat split.
  - intros cfg td Hcap. unfold limit_data_points.
    apply Nat.ltb_ge in Hcap. now rewrite Hcap.
  - intros s [el1 H1] [el2 H2].
    unfold result, exec. rewrite (resetTestUI_run s el1 el2 H1 H2). simpl.
    repeat split.
  - vm_compute. repeat split; reflexivity.
Qed.

Lemma C9_download_and_timestamps_aligned_witness :
  (let s := constructed speed_page 0 in
   let td := push_download (displaySpeed (Fin 1)) (clock_label (clock s)) (testData s) in
   testData (exec (updateDownloadSpeed default_config clock_label (Fin 1)) s)
     = limit_data_points default_config td /\
   length (download td) = 1%nat /\ length (timestamps td) = 1%nat /\ upload td = []) /\
  (let td := {| download := repeat (Fin 1) 21; upload := [];
                timestamps := repeat "0" 21 |} in
   let td' := limit_data_points default_config td in
   timestamps td = hd "" (timestamps td) :: timestamps td' /\
   download td = hd NaN (download td) :: download td' /\
   length (timestamps td) = S (length (timestamps td')) /\
   length (download td) = S (length (download td'))) /\
  (let s := exec (updateDownloadSpeed default_config clock_label (Fin 1))
              (constructed speed_page 0) in
   download (testData s) = [Fin 1] /\
   download (testData (exec resetTestUI s)) = [] /\
   timestamps (testData (exec resetTestUI s)) = []).
Proof.
  destruct C9_download_and_timestamps_aligned as (_ & Hpub & Hevict & _ & Hreset & _).
  split; [| split].
  - exact (Hpub default_config clock_label (Fin 1) (constructed speed_page 0)
             (ex_intro _ (Element "" "") eq_refl)).
  - apply (Hevict default_config
             {| download := repeat (Fin 1) 21; upload := [];
                timestamps := repeat "0" 21 |} eq_refl).
    vm_compute. lia.
  - cbv zeta. split; [reflexivity |].
    pose proof (Hreset (exec (updateDownloadSpeed default_config clock_label (Fin 1))
                          (constructed speed_page 0))
                  (ex_intro _ (Element "1.0" "") eq_refl)
                  (ex_intro _ (Element "" "") eq_refl)) as (_ & _ & H1 & H2 & _).
    split; [exact H1 | exact H2].
Defined.

(** ** The values that the series store, in binary64 *)

Section Binary64Series.

Import Binary64.

Variable maxDataPoints : nat.

Lemma limit_data_points_keeps (P R : PrimFloat.float -> Prop) td :
  Forall P (download td) -> Forall R (upload td) ->
  Forall P (download (limit_data_points maxDataPoints td)) /\
  Forall R (upload (limit_data_points maxDataPoints td)).
Proof.
  intros Hd Hu. unfold limit_data_points.
  destruct (maxDataPoints <? length (timestamps td))%nat; simpl; [| auto].
  split; [now apply Forall_shift |].
  destruct (0 <? length (upload td))%nat; [now apply Forall_shift | exact Hu].
Qed.

Lemma publish_keeps (P R : PrimFloat.float -> Prop) ps : forall td,
  Forall P (download td) -> Forall R (upload td) ->
  Forall (fun speed => P (displaySpeed speed)) (download_speeds ps) ->
  Forall (fun speed => R (displaySpeed speed)) (upload_speeds ps) ->
  Forall P (download (fold_left (publish maxDataPoints) ps td)) /\
  Forall R (upload (fold_left (publish maxDataPoints) ps td)).
Proof.
  induction ps as [| p ps IH]; intros td Hd Hu Hpd Hpu; [simpl; auto |].
  cbn [fold_left]. destruct p as [speed now | speed]; cbn [publish].
  - cbn [download_speeds omap] in Hpd. fold (download_speeds ps) in Hpd.
    apply Forall_cons in Hpd as [Hp Hpd].
    cbn [upload_speeds omap] in Hpu. fold (upload_speeds ps) in Hpu.
    unfold updateDownloadSpeed.
    match goal with |- context [limit_data_points _ ?t] =>
      destruct (limit_data_points_keeps P R t) as [Hd' Hu'] end.
    { simpl. apply Forall_app. split; [exact Hd | now constructor]. }
    { exact Hu. }
    now apply IH.
  - cbn [download_speeds omap] in Hpd. fold (download_speeds ps) in Hpd.
    cbn [upload_speeds omap] in Hpu. fold (upload_speeds ps) in Hpu.
    apply Forall_cons in Hpu as [Hp Hpu].
    unfold updateUploadSpeed.
    match goal with |- context [limit_data_points _ ?t] =>
      destruct (limit_data_points_keeps P R t) as [Hd' Hu'] end.
    { exact Hd. }
    { simpl. apply Forall_app. split; [exact Hu | now constructor]. }
    now apply IH.
Qed.

End Binary64Series.

(** C10, as stated, fails on the bound: a download of 102400 bytes in 50 ms
    is measured as 15.625 Mbps, passes the sanity check and is stored as the
    binary64 number nearest to 15.63, which is more than 0.005 above it. *)
Lemma C10_stored_value_more_than_0_005_away :
  let raw := Binary64.megabits_per_second (Binary64.of_Z 102400) Binary64.zero
               Binary64.fifty in
  Binary64.sane raw = true /\
  Binary64.value raw = Some (125 # 8) /\
  Binary64.download
    (Binary64.updateDownloadSpeed 20 raw "0" Binary64.empty_testData)
    = [Binary64.literal_15_63] /\
  Binary64.distance Binary64.literal_15_63 raw
    = Some (2814749767107 # 562949953421312) /\
  (5 # 1000 < 2814749767107 # 562949953421312)%Q.
Proof. vm_compute. repeat split; reflexivity. Qed.

Lemma displaySpeed_hundredths speed q :
  Binary64.value (Binary64.scaled speed) = Some q ->
  (Qabs q < inject_Z (2 ^ 52))%Q ->
  Binary64.displaySpeed speed = Binary64.hundredths (Qfloor (q + (1 # 2))).
Proof.
  intros Hv Hq. unfold Binary64.displaySpeed, Binary64.round, Binary64.hundredths.
  fold (Binary64.scaled speed). rewrite Hv.
  destruct (Qle_bool (inject_Z (2 ^ 52)) (Qabs q)) eqn:E; [| reflexivity].
  apply Qle_bool_iff in E. exfalso. revert E. now apply Qlt_not_le.
Qed.

(** The integer that [Math.round] picks is at most one half away. *)
Lemma nearest_integer q : (Qabs (inject_Z (Qfloor (q + (1 # 2))) - q) <= 1 # 2)%Q.
Proof.
  pose proof (Qfloor_le (q + (1 # 2))) as Hlo.
  pose proof (Qlt_floor (q + (1 # 2))) as Hhi.
  rewrite inject_Z_plus in Hhi. change (inject_Z 1) with 1%Q in Hhi.
  generalize dependent (inject_Z (Qfloor (q + (1 # 2)))). intros n Hlo Hhi.
  apply Qabs_Qle_condition. split; lra.
Qed.

(** C10, amended: every value that the series hold after any sequence of
    publications is [Math.round(speed * 100) / 100], computed in binary64,
    of a speed that was published into that series, samples and final
    means alike; a publication appends that rounding of its argument, before
    the eviction if there is one; the stored number is the binary64 number
    nearest to a whole number of hundredths, the integer nearest to
    [speed * 100], which is at most one half away from that product; so the
    raw 15.2587890625 of scenario 1 and the mean of four such samples are
    stored as 15.26, which is another number, 1.555 is stored as 1.56, and
    the 15.625 of 102400 bytes in 50 ms is stored as the binary64 number
    nearest to 15.63, a little more than 0.005 away; only a raw value that is
    its own rounding, such as the 6.25 of 81920 bytes in 100 ms, is stored
    as it is. *)
Theorem C10_series_store_rounded_values :
  (forall maxDataPoints ps,
     let td := Binary64.published_series maxDataPoints ps in
     Forall (fun v => exists speed,
               speed ∈ Binary64.download_speeds ps /\ v = Binary64.displaySpeed speed)
       (Binary64.download td) /\
     Forall (fun v => exists speed,
               speed ∈ Binary64.upload_speeds ps /\ v = Binary64.displaySpeed speed)
       (Binary64.upload td)) /\
  (forall maxDataPoints speed now td,
     let pushed := Binary64.download td ++ [Binary64.displaySpeed speed] in
     let td' := Binary64.updateDownloadSpeed maxDataPoints speed now td in
     Binary64.download td' = pushed \/ Binary64.download td' = shift pushed) /\
  (forall maxDataPoints speed td,
     let pushed := Binary64.upload td ++ [Binary64.displaySpeed speed] in
     let td' := Binary64.updateUploadSpeed maxDataPoints speed td in
     Binary64.upload td' = pushed \/ Binary64.upload td' = shift pushed) /\
  (forall speed q,
     Binary64.value (Binary64.scaled speed) = Some q ->
     (Qabs q < inject_Z (2 ^ 52))%Q ->
     Binary64.displaySpeed speed = Binary64.hundredths (Qfloor (q + (1 # 2))) /\
     (Qabs (inject_Z (Qfloor (q + (1 # 2))) - q) <= 1 # 2)%Q) /\
  (let raw := Binary64.megabits_per_second (Binary64.of_Z 100000) Binary64.zero
                Binary64.fifty in
   Binary64.value raw = Some (15625 # 1024) /\
   Binary64.displaySpeed raw = Binary64.literal_15_26 /\
   Binary64.displaySpeed (Binary64.average [raw; raw; raw; raw]) = Binary64.literal_15_26 /\
   Binary64.distance Binary64.literal_15_26 raw <> Some 0%Q /\
   Binary64.published_series 20 [Binary64.Download raw "0"; Binary64.Upload raw]
     = Binary64.TestData [Binary64.literal_15_26] [Binary64.literal_15_26] ["0"]) /\
  (let raw := Binary64.megabits_per_second (Binary64.of_Z 102400) Binary64.zero
                Binary64.fifty in
   Binary64.value raw = Some (125 # 8) /\
   Binary64.displaySpeed raw = Binary64.literal_15_63 /\
   Binary64.distance Binary64.literal_15_63 raw
     = Some (2814749767107 # 562949953421312)) /\
  (let raw := Binary64.megabits_per_second (Binary64.of_Z 81920) Binary64.zero
                (Binary64.of_Z 100) in
   Binary64.value raw = Some (25 # 4) /\ Binary64.displaySpeed raw = raw) /\
  Binary64.displaySpeed Binary64.literal_1_555 = Binary64.literal_1_56.
Proof.
  split; [| split; [| split; [| split; [| split; [| split; [| split]]]]]].
  - intros cap ps td. unfold td, Binary64.published_series.
    apply publish_keeps.
    + constructor.
    + constructor.
    + apply Forall_forall. intros speed H. now exists speed.
    + apply Forall_forall. intros speed H. now exists speed.
  - intros cap speed now td pushed td'.
    unfold td', Binary64.updateDownloadSpeed, Binary64.limit_data_points.
    match goal with |- context [if ?b then _ else _] => destruct b end; simpl; auto.
  - intros cap speed td pushed td'.
    unfold td', Binary64.updateUploadSpeed, Binary64.limit_data_points.
    match goal with |- context [if ?b then _ else _] => destruct b end; simpl; auto.
    rewrite length_app. simpl.
    replace (0 <? length (Binary64.upload td) + 1)%nat with true; [auto |].
    symmetry. apply Nat.ltb_lt. lia.
  - intros speed q Hv Hq. split; [now apply displaySpeed_hundredths | apply nearest_integer].
  - vm_compute. repeat split; try reflexivity. discriminate.
  - vm_compute. repeat split; reflexivity.
  - vm_compute. split; reflexivity.
  - vm_compute. reflexivity.
Qed.

Lemma C10_series_store_rounded_values_witness :
  let raw := Binary64.megabits_per_second (Binary64.of_Z 102400) Binary64.zero
               Binary64.fifty in
  Binary64.value (Binary64.scaled raw) = Some (3125 # 2) /\
  Binary64.displaySpeed raw = Binary64.hundredths 1563 /\
  Binary64.hundredths 1563 = Binary64.literal_15_63.
Proof.
  destruct C10_series_store_rounded_values as (_ & _ & _ & H & _).
  split; [vm_compute; reflexivity |]. split; [| vm_compute; reflexivity].
  apply (H _ (3125 # 2)); vm_compute; reflexivity.
Defined.

(** ** The quality of the connection *)

Lemma has_downlink_Fin c q :
  downlink c = Some (Fin q) -> ~ (q == 0)%Q -> has_downlink c = Some (Fin q).
Proof.
  intros H Hq. unfold has_downlink. rewrite H. cbn [truthy].
  destruct (Qeq_bool q 0) eqn:E; [| reflexivity].
  apply Qeq_bool_iff in E. contradiction.
Qed.

(** X17: the quality of the connection follows the estimate of the
    bandwidth by its three thresholds; an estimate of zero counts as no
    estimate; and the text of the signal strength begins with the word of
    the quality. *)
Theorem connection_quality_bands nav c :
  connection nav = Some c ->
  (forall q, downlink c = Some (Fin q) -> ~ (q == 0)%Q ->
     ((10 <= q)%Q -> connection_quality nav = ("Excellent (>10 Mbps)", "Excellent")) /\
     ((5 <= q)%Q -> (q < 10)%Q -> connection_quality nav = ("Good (5-10 Mbps)", "Good")) /\
     ((1 <= q)%Q -> (q < 5)%Q -> connection_quality nav = ("Fair (1-5 Mbps)", "Fair")) /\
     ((q < 1)%Q -> connection_quality nav = ("Poor (<1 Mbps)", "Poor"))) /\
  (downlink c = Some (Fin 0) ->
   connection_quality nav =
   connection_quality
     {| connection := Some {| effectiveType := effectiveType c; type := type c;
                              downlink := None |};
        mobile := mobile nav |}) /\
  String.prefix (snd (connection_quality nav)) (fst (connection_quality nav)) = true.
Proof.
  intros Hc. unfold connection_quality. rewrite Hc. cbn [connection]. split; [| split].
  - intros q Hd Hq. rewrite (has_downlink_Fin c q Hd Hq). cbn [geb of_Z].
    change (inject_Z 10) with 10%Q. change (inject_Z 5) with 5%Q. change (inject_Z 1) with 1%Q.
    repeat split.
    + intros H. apply Qle_bool_true in H. now rewrite H.
    + intros H5 H10. apply Qle_bool_false in H10. apply Qle_bool_true in H5.
      now rewrite H10, H5.
    + intros H1 H5. assert (H10 : (q < 10)%Q) by lra.
      apply Qle_bool_false in H10, H5. apply Qle_bool_true in H1.
      now rewrite H10, H5, H1.
    + intros H1. assert (H10 : (q < 10)%Q) by lra. assert (H5 : (q < 5)%Q) by lra.
      apply Qle_bool_false in H10, H5, H1. now rewrite H10, H5, H1.
  - intros Hd. unfold has_downlink. rewrite Hd. reflexivity.
  - destruct (has_downlink c) as [d |].
    + destruct (d >=? of_Z 10)%js; [reflexivity |].
      destruct (d >=? of_Z 5)%js; [reflexivity |].
      destruct (d >=? of_Z 1)%js; reflexivity.
    + repeat (match goal with |- context [bool_decide ?P] => destruct (bool_decide P) end;
              [reflexivity |]).
      reflexivity.
Qed.

Lemma connection_quality_bands_witness :
  connection (navigator geolocation_timeout) =
    Some {| effectiveType := Some "4g"; type := Some "wifi"; downlink := Some (Fin 10) |} /\
  connection_quality (navigator geolocation_timeout) = ("Excellent (>10 Mbps)", "Excellent").
Proof.
  split; [reflexivity |].
  refine (proj1 (proj1 (connection_quality_bands (navigator geolocation_timeout) _ eq_refl)
                   10%Q eq_refl _) _).
  - intros H. discriminate H.
  - apply Qle_refl.
Defined.

(** ** The counter of tests *)

#[export] Instance counted_doc n : DocInv (counted n).
Proof. intros s d H _. exact H. Qed.

#[export] Instance counted_clock n : ClockInv (counted n).
Proof. intros s t H _. exact H. Qed.

#[export] Instance counted_notify n : NotifyInv (counted n).
Proof. intros s l H. exact H. Qed.

#[export] Instance counted_run n : RunInv (counted n).
Proof. intros s b H. exact H. Qed.

#[export] Instance counted_data cfg n : DataInv cfg (counted n).
Proof. split; intros; assumption. Qed.

#[export] Instance counted_once_doc n : DocInv (counted_once n).
Proof. intros s d H _. exact H. Qed.

#[export] Instance counted_once_clock n : ClockInv (counted_once n).
Proof. intros s t H _. exact H. Qed.

#[export] Instance counted_once_notify n : NotifyInv (counted_once n).
Proof. intros s l H. exact H. Qed.

#[export] Instance counted_once_run n : RunInv (counted_once n).
Proof. intros s b H. exact H. Qed.

#[export] Instance counted_once_data cfg n : DataInv cfg (counted_once n).
Proof. split; intros; assumption. Qed.

Lemma triple_try_finally_stable {A : Type} (P R : analyzer -> Prop) (m : M A) (f : M unit) :
  triple P m (fun _ => R) (fun _ => R) -> stable R f ->
  triple P (try_finally m f) (fun _ => R) (fun _ => R).
Proof.
  intros Hm Hf s Hs. specialize (Hm s Hs). unfold try_finally.
  destruct (m s) as [s' r].
  assert (HR : R s') by now destruct r.
  specialize (Hf s' HR). unfold exec in Hf.
  destruct (f s') as [s'' [[] | e]]; [destruct r |]; exact Hf.
Qed.

Lemma triple_updateStats n :
  triple (counted n) updateStats (fun _ => counted_once n) (fun _ => counted_once n).
Proof.
  intros s Hs. unfold counted in Hs. unfold updateStats. rewrite gets_bind_run.
  destruct ((length (download (testData s)) =? 0)%nat && (length (upload (testData s)) =? 0)%nat).
  - unfold ret, counted_once. lia.
  - rewrite modify_bind_run.
    match goal with |- context [updateStatsUI ?s1] =>
      destruct (updateStatsUI_run s1) as [d Hui]; rewrite Hui end.
    unfold counted_once. cbn [stats set_document set_stats testsRun]. lia.
Qed.

Lemma counted_weaken n s : counted n s -> counted_once n s.
Proof. unfold counted, counted_once. lia. Qed.

Lemma triple_counted_startSpeedTest cfg tl env n :
  triple (counted n) (startSpeedTest cfg tl env)
    (fun _ => counted_once n) (fun _ => counted_once n).
Proof.
  assert (Hquiet : forall (A : Type) (m : M A), stable (counted n) m ->
            triple (counted n) m (fun _ => counted n) (fun _ => counted_once n)).
  { intros A m Hm. eapply triple_weaken; [apply (triple_stable _ _ Hm) | auto | auto |].
    intros ? s0. apply counted_weaken. }
  unfold startSpeedTest.
  apply (triple_bind _ (fun _ => counted n)); [apply Hquiet; stable_auto | intros running].
  destruct running.
  { intros s Hs. now apply counted_weaken. }
  apply (triple_bind _ (fun _ => counted n)); [apply Hquiet; stable_auto | intros _].
  apply (triple_bind _ (fun _ => counted n));
    [apply Hquiet, (stable_resetTestUI cfg); typeclasses eauto | intros _].
  apply (triple_bind _ (fun _ => counted n));
    [apply Hquiet; unfold showProgressContainer; stable_auto | intros _].
  apply (triple_bind _ (fun _ => counted n));
    [apply Hquiet; unfold updateButtonStates; stable_auto | intros _].
  apply triple_try_finally_stable; [| apply stable_stopSpeedTest; typeclasses eauto].
  apply triple_try_catch with (E1 := fun _ => counted_once n);
    [| intros _; apply triple_stable, stable_showStatus; typeclasses eauto].
  unfold test_sequence.
  apply (triple_bind _ (fun _ => counted n));
    [apply Hquiet, stable_runDownloadTest; typeclasses eauto | intros _].
  apply (triple_bind _ (fun _ => counted n));
    [apply Hquiet, stable_pause; typeclasses eauto | intros _].
  apply (triple_bind _ (fun _ => counted n));
    [apply Hquiet, stable_runUploadTest; typeclasses eauto | intros _].
  apply (triple_bind _ (fun _ => counted_once n)); [apply triple_updateStats | intros _].
  apply triple_stable, stable_showStatus; typeclasses eauto.
Qed.

Lemma counted_handle cfg tl ev s :
  (testsRun (stats s) <= testsRun (stats (exec (handle cfg tl ev) s))
     <= testsRun (stats s) + sessions [ev])%Z.
Proof.
  assert (Hsame : forall m : M unit, stable (counted (testsRun (stats s))) m ->
            testsRun (stats (exec m s)) = testsRun (stats s)).
  { intros m Hm. now apply Hm. }
  destruct ev as [env | | env | speed | speed |]; cbn [handle sessions].
  - pose proof (triple_exec _ _ _ s (triple_counted_startSpeedTest cfg tl env _) eq_refl) as H.
    unfold counted_once in H. lia.
  - rewrite Hsame; [lia | apply stable_stopSpeedTest; typeclasses eauto].
  - rewrite Hsame; [lia | apply stable_loadNetworkInfo; typeclasses eauto].
  - rewrite Hsame; [lia | apply stable_updateDownloadSpeed; typeclasses eauto].
  - rewrite Hsame; [lia | apply stable_updateUploadSpeed; typeclasses eauto].
  - rewrite Hsame; [lia | apply (stable_resetTestUI cfg); typeclasses eauto].
Qed.

(** X18: the counter of tests never decreases, and a sequence of events
    raises it by at most the number of sessions in it. *)
Theorem tests_counter_bounds cfg tl evs s :
  (testsRun (stats s) <= testsRun (stats (after cfg tl evs s))
     <= testsRun (stats s) + sessions evs)%Z.
Proof.
  revert s. induction evs as [| ev evs IH]; intros s.
  - cbn. lia.
  - rewrite after_cons. specialize (IH (exec (handle cfg tl ev) s)).
    pose proof (counted_handle cfg tl ev s) as H.
    assert (Hs : sessions (ev :: evs) = (sessions [ev] + sessions evs)%Z)
      by (destruct ev; cbn [sessions]; lia).
    lia.
Qed.

(** ** The range of the series *)

Lemma in_range_displayable v : in_range v -> displayable v.
Proof.
  intros [H1 H2]. unfold lt in *. destruct v as [q | | |]; try discriminate.
  cbn [ltb of_Z] in *. apply Qltb_true in H1, H2.
  change (inject_Z 1000) with 1000%Q in H2.
  exists q. split; [reflexivity |]. lra.
Qed.

Lemma displaySpeed_displayable v : displayable v -> displayable (displaySpeed v).
Proof.
  intros (q & -> & H0 & H1). rewrite displaySpeed_Fin.
  set (z := Qfloor (Qred (q * inject_Z 100) + (1 # 2))).
  assert (Hz : (0 <= z <= 100000)%Z).
  { split.
    - change 0%Z with (Qfloor 0). apply Qfloor_resp_le. rewrite Qred_correct.
      change (inject_Z 100) with 100%Q. lra.
    - change 100000%Z with (Qfloor (inject_Z 100000 + (1 # 2))).
      apply Qfloor_resp_le. rewrite Qred_correct.
      change (inject_Z 100) with 100%Q. change (inject_Z 100000) with 100000%Q. lra. }
  eexists. split; [reflexivity |]. rewrite !Qred_correct.
  destruct Hz as [Hz0 Hz1]. rewrite Zle_Qle in Hz0, Hz1.
  change (inject_Z 0) with 0%Q in Hz0. change (inject_Z 100000) with 100000%Q in Hz1.
  clearbody z. revert Hz0 Hz1. generalize (inject_Z z). intros y Hy0 Hy1.
  change (inject_Z 100) with 100%Q. unfold Qdiv. change (/ 100)%Q with (1 # 100)%Q.
  split; lra.
Qed.

Lemma sum_from_bounds (qs : list Q) (a : Q) :
  Forall (fun q => (0 <= q)%Q /\ (q <= 1000)%Q) qs ->
  exists r,
    fold_left add (map Fin qs) (Fin a) = Fin r /\
    (a <= r)%Q /\ (r <= a + 1000 * inject_Z (Z.of_nat (length qs)))%Q.
Proof.
  intros H. revert a. induction H as [| q qs [Hq0 Hq1] _ IH]; intros a.
  - exists a. split; [reflexivity |].
    change (inject_Z (Z.of_nat (length (@nil Q)))) with 0%Q. split; lra.
  - cbn [map fold_left add]. destruct (IH (Qred (a + q))) as (r & Hr & Hlo & Hhi).
    exists r. split; [exact Hr |]. rewrite Qred_correct in Hlo, Hhi.
    cbn [length]. rewrite Nat2Z.inj_succ. unfold Z.succ. rewrite inject_Z_plus.
    change (inject_Z 1) with 1%Q. split; lra.
Qed.

Lemma displayable_list (l : list number) :
  Forall displayable l ->
  exists qs, l = map Fin qs /\ Forall (fun q => (0 <= q)%Q /\ (q <= 1000)%Q) qs.
Proof.
  induction 1 as [| v l (q & -> & H0 & H1) _ (qs & -> & Hqs)].
  - exists []. split; [reflexivity | constructor].
  - exists (q :: qs). split; [reflexivity |]. constructor; [split |]; assumption.
Qed.

Lemma average_displayable (l : list number) :
  Forall in_range l -> (0 < length l)%nat -> displayable (average l).
Proof.
  intros Hl Hlen.
  destruct (displayable_list l) as (qs & -> & Hqs).
  { eapply Forall_impl; [exact Hl | exact in_range_displayable]. }
  unfold average, sum. rewrite length_map in *.
  destruct (sum_from_bounds qs 0 Hqs) as (r & -> & Hlo & Hhi).
  set (n := inject_Z (Z.of_nat (length qs))) in *.
  assert (Hn : (0 < n)%Q).
  { unfold n. change 0%Q with (inject_Z 0). rewrite <- Zlt_Qlt. lia. }
  unfold div, of_Z. fold n.
  destruct (Qeq_bool n 0) eqn:E; [apply Qeq_bool_iff in E; lra |].
  eexists. split; [reflexivity |]. rewrite Qred_correct. split.
  - apply Qle_shift_div_l; [exact Hn | lra].
  - apply Qle_shift_div_r; [exact Hn | lra].
Qed.

#[export] Instance charted_doc : DocInv charted.
Proof. intros s d H _. exact H. Qed.

#[export] Instance charted_clock : ClockInv charted.
Proof. intros s t H _. exact H. Qed.

#[export] Instance charted_notify : NotifyInv charted.
Proof. intros s l H. exact H. Qed.

#[export] Instance charted_run : RunInv charted.
Proof. intros s b H. exact H. Qed.

#[export] Instance charted_stats : StatsInv charted.
Proof. intros s st H. exact H. Qed.

Lemma stable_of_triple {A : Type} (I : analyzer -> Prop) (m : M A) :
  triple I m (fun _ => I) (fun _ => I) -> stable I m.
Proof. intros H s Hs. now apply (triple_exec I I m s H). Qed.

Lemma triple_yields {A : Type} (I : analyzer -> Prop) (Q : A -> Prop) (m : M A) :
  stable I m -> yields Q m -> triple I m (fun a s => Q a /\ I s) (fun _ => I).
Proof.
  intros Hm HQ s Hs. specialize (Hm s Hs). specialize (HQ s). unfold exec, result in *.
  destruct (m s) as [s' [a | e]]; [split |]; assumption.
Qed.

Section Charted.

Context (cfg : config_t) (tl : Z -> string).

Lemma charted_updateChart : stable charted (updateChart cfg).
Proof.
  unfold updateChart. apply stable_bind; [| intros _]; apply stable_modify.
  - intros s [H1 H2]. unfold charted, limit_data_points. cbn [testData set_testData].
    destruct (maxDataPoints cfg <? length (timestamps (testData s)))%nat;
      [| split; assumption].
    cbn [download upload]. split; [now apply Forall_shift |].
    destruct (0 <? length (upload (testData s)))%nat; [now apply Forall_shift | exact H2].
  - intros s H. exact H.
Qed.

Lemma charted_updateDownloadSpeed v :
  displayable v -> stable charted (updateDownloadSpeed cfg tl v).
Proof.
  intros Hv. unfold updateDownloadSpeed, animateGauge.
  apply stable_bind; [apply stable_set_textContent; typeclasses eauto | intros _].
  apply stable_bind; [| intros _].
  { apply stable_modify. intros s [H1 H2]. split; cbn; [| exact H2].
    apply Forall_app. split; [exact H1 |].
    constructor; [now apply displaySpeed_displayable | constructor]. }
  apply stable_bind; [apply charted_updateChart | intros _; apply stable_touch].
Qed.

Lemma charted_updateUploadSpeed v :
  displayable v -> stable charted (updateUploadSpeed cfg v).
Proof.
  intros Hv. unfold updateUploadSpeed, animateGauge.
  apply stable_bind; [apply stable_set_textContent; typeclasses eauto | intros _].
  apply stable_bind; [| intros _].
  { apply stable_modify. intros s [H1 H2]. split; cbn; [exact H1 |].
    apply Forall_app. split; [exact H2 |].
    constructor; [now apply displaySpeed_displayable | constructor]. }
  apply stable_bind; [apply charted_updateChart | intros _; apply stable_touch].
Qed.

Lemma charted_downloadIteration p speeds :
  stable charted (downloadIteration cfg tl p speeds).
Proof.
  unfold downloadIteration, recordDownload.
  apply stable_try_catch; [| intros e; apply stable_ret].
  apply stable_bind; [apply stable_gets | intros testStart].
  apply stable_bind; [apply stable_fetchWithTimeout; typeclasses eauto | intros resp].
  destruct (negb (ok resp)); [apply stable_throw |].
  apply stable_bind; [apply stable_await; typeclasses eauto | intros bytes].
  apply stable_bind; [apply stable_gets | intros testEnd]. cbv zeta.
  destruct (sane (megabits_per_second bytes testStart testEnd)) eqn:E; [| apply stable_ret].
  apply stable_bind; [| intros _; apply stable_ret].
  apply stable_try_catch; [| intros e; apply stable_ret].
  apply charted_updateDownloadSpeed, in_range_displayable, sane_in_range, E.
Qed.

Lemma charted_uploadIteration p speeds :
  stable charted (uploadIteration cfg p speeds).
Proof.
  unfold uploadIteration, recordUpload.
  apply stable_try_catch; [| intros e; apply stable_ret]. cbv zeta.
  apply stable_bind; [apply stable_gets | intros testStart].
  apply stable_bind; [apply stable_fetchWithTimeout; typeclasses eauto | intros resp].
  destruct (negb (ok resp)); [apply stable_throw |].
  apply stable_bind; [apply stable_await; typeclasses eauto | intros _].
  apply stable_bind; [apply stable_gets | intros testEnd].
  match goal with |- context [sane ?m] => destruct (sane m) eqn:E end; [| apply stable_ret].
  apply stable_bind; [| intros _; apply stable_ret].
  apply stable_try_catch; [| intros e; apply stable_ret].
  apply charted_updateUploadSpeed, in_range_displayable, sane_in_range, E.
Qed.

Lemma charted_downloadLoop fuel startTime env i speeds :
  stable charted (downloadLoop cfg tl fuel startTime env i speeds).
Proof.
  pose proof (stable_updateProgress charted). pose proof charted_downloadIteration.
  pose proof (stable_pause charted).
  revert i speeds. induction fuel as [| fuel IH]; intros i speeds; cbn [downloadLoop].
  - apply stable_ret.
  - stable_auto.
Qed.

Lemma charted_uploadLoop fuel startTime env i speeds :
  stable charted (uploadLoop cfg fuel startTime env i speeds).
Proof.
  pose proof (stable_updateProgress charted). pose proof charted_uploadIteration.
  pose proof (stable_pause charted).
  revert i speeds. induction fuel as [| fuel IH]; intros i speeds; cbn [uploadLoop].
  - apply stable_ret.
  - stable_auto.
Qed.

Ltac charted_step :=
  apply (triple_bind _ (fun _ => charted)); [apply triple_stable; stable_auto | intros ?].

Lemma charted_runDownloadTest env : stable charted (runDownloadTest cfg tl env).
Proof.
  apply stable_of_triple. unfold runDownloadTest.
  do 3 charted_step.
  apply (triple_bind _ (fun l s => Forall in_range l /\ charted s)).
  { apply triple_yields; [apply charted_downloadLoop | apply yields_downloadLoop; constructor]. }
  intros l. apply triple_pure. intros Hl.
  apply (triple_bind _ (fun _ => charted)); [| intros _; apply triple_stable; stable_auto].
  apply triple_stable. destruct (0 <? length l)%nat eqn:E; [| apply stable_ret].
  apply charted_updateDownloadSpeed, average_displayable; [exact Hl |].
  now apply Nat.ltb_lt.
Qed.

Lemma charted_runUploadTest env : stable charted (runUploadTest cfg env).
Proof.
  apply stable_of_triple. unfold runUploadTest.
  do 3 charted_step.
  apply (triple_bind _ (fun l s => Forall in_range l /\ charted s)).
  { apply triple_yields; [apply charted_uploadLoop | apply yields_uploadLoop; constructor]. }
  intros l. apply triple_pure. intros Hl.
  apply (triple_bind _ (fun _ => charted)).
  { apply triple_stable. destruct (0 <? length l)%nat eqn:E; [| apply stable_ret].
    apply charted_updateUploadSpeed, average_displayable; [exact Hl |].
    now apply Nat.ltb_lt. }
  intros _. apply triple_stable. unfold updateProgress. stable_auto.
Qed.

Lemma charted_resetTestUI : stable charted resetTestUI.
Proof.
  unfold resetTestUI.
  apply stable_bind; [apply stable_set_textContent; typeclasses eauto | intros _].
  apply stable_bind; [apply stable_set_textContent; typeclasses eauto | intros _].
  apply stable_bind; [| intros _]; apply stable_modify.
  - intros s _. split; constructor.
  - intros s H. exact H.
Qed.

Lemma charted_startSpeedTest env : stable charted (startSpeedTest cfg tl env).
Proof.
  pose proof charted_runDownloadTest. pose proof charted_runUploadTest.
  pose proof (stable_pause charted). pose proof (stable_updateStats charted).
  pose proof (stable_showStatus charted). pose proof (stable_stopSpeedTest charted).
  pose proof charted_resetTestUI.
  unfold startSpeedTest, test_sequence, showProgressContainer, updateButtonStates.
  stable_auto.
Qed.

End Charted.

(** X19: whatever the network does, the values that sessions leave in the
    two series are between 0 and 1000. *)
Theorem series_stay_in_range cfg tl evs s :
  Forall page_event evs ->
  charted s ->
  let s' := after cfg tl evs s in
  Forall displayable (download (testData s')) /\ Forall displayable (upload (testData s')).
Proof.
  intros Hevs. revert s. induction Hevs as [| ev evs Hev _ IH]; intros s Hs; [exact Hs |].
  cbv zeta. rewrite after_cons. apply IH.
  destruct ev as [env | | env | speed | speed |]; cbn [handle]; try contradiction.
  - now apply charted_startSpeedTest.
  - now apply (stable_stopSpeedTest charted).
  - now apply (stable_loadNetworkInfo charted).
  - now apply charted_resetTestUI.
Qed.

Lemma series_stay_in_range_witness :
  let evs := [StartTest ordinary_session; StopTest; RefreshInfo geolocation_timeout] in
  let s' := after scenario_config clock_label evs (constructed speed_page 0) in
  Forall page_event evs /\
  charted (constructed speed_page 0) /\
  Forall displayable (download (testData s')) /\ Forall displayable (upload (testData s')).
Proof.
  intros evs s'.
  assert (H1 : Forall page_event evs) by (repeat constructor).
  assert (H2 : charted (constructed speed_page 0)) by (split; constructor).
  split; [exact H1 |]. split; [exact H2 |].
  exact (series_stay_in_range scenario_config clock_label evs (constructed speed_page 0) H1 H2).
Defined.

(** ** The outcome of a refresh *)

Section Refresh.

Context (env : network) (n : list (string * string)).

Let info : string * string := ("Loading network information...", "info").
Let K := banners refresh_elements.
Let P := has_elements refresh_elements.

Lemma K_P m s : K m s -> P s.
Proof. now intros [H _]. Qed.

Lemma K_set_clock m t s : K m s -> K m (set_clock t s).
Proof. intros [H1 H2]. split; assumption. Qed.

Lemma triple_lookup_delivers {A : Type} (req : option (promise (response A))) v m :
  delivers req v ->
  triple (K m) (r <- fetchWithTimeout req 5000 ;; await (body r))
    (fun a s => a = v /\ K m s) (fun _ _ => False).
Proof.
  intros (d & r & d' & -> & Hd & Hb) s Hs.
  unfold fetchWithTimeout. rewrite (bind_returned _ _ _ _ _ (race_resolves _ _ _ _ _ Hd)).
  rewrite Hb. cbn [await]. unfold bind, advance, modify, ret.
  split; [reflexivity |]. now do 2 apply K_set_clock.
Qed.

Lemma triple_lookup_fails {A B : Type} (req : option (promise (response A)))
    (k : A -> M B) m :
  lookup_fails req ->
  triple (K m) (r <- fetchWithTimeout req 5000 ;; v <- await (body r) ;; k v)
    (fun _ _ => False) (fun _ => K m).
Proof.
  intros Hf s Hs. destruct (lookup_fails_run req k s Hf) as (e & t & ->).
  now apply K_set_clock.
Qed.

Lemma bind_assoc {A B C : Type} (m : M A) (k : A -> M B) (h : B -> M C) s :
  (y <- (x <- m ;; k x) ;; h y) s = (x <- m ;; y <- k x ;; h y) s.
Proof. unfold bind. now destruct (m s) as [s' [a | e]]. Qed.

Lemma safe_measureLatency trials : safe P (measureLatency trials).
Proof.
  unfold measureLatency, measureLatencyWith, P, refresh_elements.
  apply safe_bind; [stable_auto | apply safe_set_textContent; present | intros _].
  apply safe_bind; [stable_auto | apply safe_set_color; present | intros _].
  apply safe_try_catch; [| intros _; safe_auto].
  apply stable_bind; [| intros ms; stable_auto].
  apply stable_latency_trials;
    first [ typeclasses eauto
          | intros i;
            first [ apply stable_measureLatencyWithFetch
                  | apply stable_measureLatencyWithImage
                  | apply stable_measureLatencyWithWebRTC ];
            typeclasses eauto ].
Qed.

Lemma safe_analyzeConnectionQuality nav : safe P (analyzeConnectionQuality nav).
Proof.
  unfold analyzeConnectionQuality, P, refresh_elements.
  apply safe_try_catch; [stable_auto | intros _; safe_auto].
Qed.

Lemma safe_publicIP ip : safe P (set_textContent "publicIP" ip).
Proof. unfold P, refresh_elements. safe_auto. Qed.

Ltac sure_step m :=
  apply (triple_bind _ (fun _ => K m));
  [ apply (triple_safe P (K m)); [| unfold K, banners; stable_auto | apply K_P] | intros ? ].

Lemma triple_refresh_delivered ip data :
  delivers (ip_lookup env) ip -> delivers (detail_lookup env) data ->
  triple (K n)
    (showStatus "Loading network information..." "info" ;;
     getLocalIP env ;;
     getNetworkConnectionInfo (navigator env) ;;
     ipResponse <- fetchWithTimeout (ip_lookup env) 5000 ;;
     ip <- await (body ipResponse) ;;
     set_textContent "publicIP" ip ;;
     detailResponse <- fetchWithTimeout (detail_lookup env) 5000 ;;
     detailData <- await (body detailResponse) ;;
     updateNetworkInfo detailData ;;
     measureLatency (latency_env env) ;;
     analyzeConnectionQuality (navigator env) ;;
     showStatus "Network information updated successfully" "success")
    (fun _ => K (n ++ [info; ("Network information updated successfully", "success")]))
    (fun _ _ => False).
Proof.
  intros Hip Hdata.
  assert (Hin1 : "statusText" ∈ refresh_elements) by (unfold refresh_elements; repeat constructor).
  assert (Hin2 : "statusMessage" ∈ refresh_elements)
    by (unfold refresh_elements; repeat constructor).
  apply (triple_bind _ (fun _ => K (n ++ [info])));
    [apply (triple_showStatus refresh_elements n); assumption | intros _].
  sure_step (n ++ [info]).
  { apply safe_getLocalIP; [| typeclasses eauto | typeclasses eauto].
    intros s Hs. apply Hs. unfold refresh_elements. repeat constructor. }
  sure_step (n ++ [info]); [apply safe_getNetworkConnectionInfo |].
  intros s Hs. rewrite <- bind_assoc. revert s Hs.
  apply (triple_bind _ (fun a s => a = ip /\ K (n ++ [info]) s));
    [now apply triple_lookup_delivers | intros ip'].
  apply triple_pure. intros ->.
  sure_step (n ++ [info]); [apply safe_publicIP |].
  intros s Hs. rewrite <- bind_assoc. revert s Hs.
  apply (triple_bind _ (fun a s => a = data /\ K (n ++ [info]) s));
    [now apply triple_lookup_delivers | intros data'].
  apply triple_pure. intros ->.
  sure_step (n ++ [info]); [unfold updateNetworkInfo; safe_auto |].
  sure_step (n ++ [info]); [apply safe_measureLatency |].
  sure_step (n ++ [info]); [apply safe_analyzeConnectionQuality |].
  eapply triple_weaken;
    [apply (triple_showStatus refresh_elements (n ++ [info])); assumption | auto | | auto].
  intros a s Hs. cbv beta in Hs. unfold K. now rewrite <- app_assoc in Hs.
Qed.

Ltac calm_step m :=
  apply (triple_bind _ (fun _ => K m));
  [ apply triple_stable; unfold K, banners; stable_auto | intros ? ].

Lemma triple_refresh_failed :
  lookup_fails (ip_lookup env) \/ lookup_fails (detail_lookup env) ->
  triple (K n)
    (showStatus "Loading network information..." "info" ;;
     getLocalIP env ;;
     getNetworkConnectionInfo (navigator env) ;;
     ipResponse <- fetchWithTimeout (ip_lookup env) 5000 ;;
     ip <- await (body ipResponse) ;;
     set_textContent "publicIP" ip ;;
     detailResponse <- fetchWithTimeout (detail_lookup env) 5000 ;;
     detailData <- await (body detailResponse) ;;
     updateNetworkInfo detailData ;;
     measureLatency (latency_env env) ;;
     analyzeConnectionQuality (navigator env) ;;
     showStatus "Network information updated successfully" "success")
    (fun _ _ => False)
    (fun _ => K (n ++ [info])).
Proof.
  intros Hfail.
  assert (Hin1 : "statusText" ∈ refresh_elements) by (unfold refresh_elements; repeat constructor).
  assert (Hin2 : "statusMessage" ∈ refresh_elements)
    by (unfold refresh_elements; repeat constructor).
  apply (triple_bind _ (fun _ => K (n ++ [info]))).
  { eapply triple_weaken;
      [apply (triple_showStatus refresh_elements n); assumption | auto | auto | contradiction]. }
  intros _. do 2 calm_step (n ++ [info]).
  destruct Hfail as [Hfail | Hfail]; [now apply triple_lookup_fails |].
  do 3 calm_step (n ++ [info]).
  now apply triple_lookup_fails.
Qed.

End Refresh.

(** X20: on a page with the elements that a refresh cannot do without, the
    refresh reports a success when its two lookups deliver, whatever their
    HTTP status, and a failure when one of them fails: its request never
    settles, is rejected or is late, or the reading of its body is
    rejected. *)
Theorem refresh_succeeds_when_lookups_deliver env s :
  has_elements refresh_elements s ->
  let s' := exec (loadNetworkInfo env) s in
  ((exists ip data, delivers (ip_lookup env) ip /\ delivers (detail_lookup env) data) ->
   result (loadNetworkInfo env) s = Returned tt /\
   notifications s' =
     notifications s ++
       [("Loading network information...", "info");
        ("Network information updated successfully", "success")]) /\
  (lookup_fails (ip_lookup env) \/ lookup_fails (detail_lookup env) ->
   result (loadNetworkInfo env) s = Returned tt /\
   exists msg,
     notifications s' =
       notifications s ++ [("Loading network information...", "info"); (msg, "error")]).
Proof.
  intros Hel. cbv zeta.
  assert (HK : banners refresh_elements (notifications s) s) by (split; [exact Hel | reflexivity]).
  assert (Hin1 : "statusText" ∈ refresh_elements) by (unfold refresh_elements; repeat constructor).
  assert (Hin2 : "statusMessage" ∈ refresh_elements)
    by (unfold refresh_elements; repeat constructor).
  split.
  - intros (ip & data & Hip & Hdata).
    pose proof (triple_refresh_delivered env (notifications s) ip data Hip Hdata s HK) as H.
    unfold loadNetworkInfo, exec, result, try_catch.
    match type of H with match ?body s with _ => _ end =>
      destruct (body s) as [s' [[] | e]] end; [| contradiction].
    cbn [fst snd]. split; [reflexivity | apply H].
  - intros Hfail.
    pose proof (triple_refresh_failed env (notifications s) Hfail s HK) as H.
    unfold loadNetworkInfo, exec, result, try_catch.
    match type of H with match ?body s with _ => _ end =>
      destruct (body s) as [s1 [[] | e]] end; [contradiction |].
    unfold handleNetworkInfoError. fold (friendly e).
    pose proof (triple_showStatus refresh_elements _ (friendly e) "error" Hin1 Hin2 s1 H) as H1.
    unfold bind at 1 2.
    destruct (showStatus (friendly e) "error" s1) as [s2 [[] | e2]]; [| contradiction].
    pose proof (error_state_run error_state_fields s2) as (s3 & -> & Hn & _).
    cbn [fst snd]. split; [reflexivity |]. exists (friendly e).
    rewrite Hn. destruct H1 as [_ H1]. unfold keeps in H1. rewrite H1, <- app_assoc.
    reflexivity.
Qed.

Lemma refresh_succeeds_when_lookups_deliver_witness :
  has_elements refresh_elements (constructed network_page 0) /\
  (exists ip data,
     delivers (ip_lookup answering_network) ip /\
     delivers (detail_lookup answering_network) data) /\
  notifications (exec (loadNetworkInfo answering_network) (constructed network_page 0)) =
    [("Loading network information...", "info");
     ("Network information updated successfully", "success")].
Proof.
  assert (H : has_elements refresh_elements (constructed network_page 0))
    by (apply has_elements_check; vm_compute; reflexivity).
  assert (Hd : exists ip data,
            delivers (ip_lookup answering_network) ip /\
            delivers (detail_lookup answering_network) data).
  { exists "203.0.113.7", (DetailData (Some "Paris") None None). split.
    - exists 80%N, (Response true 200 (Resolves 1 "203.0.113.7")), 1%N.
      split; [reflexivity |]. split; reflexivity.
    - exists 60%N, (Response false 500 (Resolves 1 (DetailData (Some "Paris") None None))), 1%N.
      split; [reflexivity |]. split; reflexivity. }
  split; [exact H |]. split; [exact Hd |].
  exact (proj2 (proj1 (refresh_succeeds_when_lookups_deliver answering_network
                         (constructed network_page 0) H) Hd)).
Defined.

(** ** The hints of the browser *)

(** X21: [getNetworkConnectionInfo] never throws; but on a page without the
    read-out of the network name it stops after the connection type, and the
    read-out of the speed keeps its text. *)
Theorem connection_info_stops_at_missing_name nav c s :
  connection nav = Some c ->
  is_Some (document s !! "connectionType") ->
  document s !! "networkName" = None ->
  let s' := exec (getNetworkConnectionInfo nav) s in
  result (getNetworkConnectionInfo nav) s = Returned tt /\
  shown "connectionType" s' =
    Some (or_else (effectiveType c) "Unknown" +:+ " (" +:+ or_else (type c) "Unknown" +:+ ")") /\
  shown "connectionSpeed" s' = shown "connectionSpeed" s.
Proof.
  intros Hc Hel Hnone. cbv zeta.
  destruct (set_textContent_frame "connectionType"
              (or_else (effectiveType c) "Unknown" +:+ " (" +:+ or_else (type c) "Unknown" +:+ ")")
              s Hel) as (s1 & Hrun & Hshown & Hother & Hdom & _).
  assert (Hnone1 : document s1 !! "networkName" = None).
  { apply not_elem_of_dom. rewrite Hdom. now apply not_elem_of_dom. }
  assert (Hset : forall v, set_textContent "networkName" v s1 = (s1, Thrown null_error)).
  { intros v. unfold set_textContent. now rewrite Hnone1. }
  assert (Hname : getNetworkName nav s1 = (s1, Thrown null_error)).
  { unfold getNetworkName, try_catch.
    destruct (mobile nav), (connection nav) as [c' |];
      repeat match goal with |- context [bool_decide ?Q] => destruct (bool_decide Q) end;
      now rewrite !Hset. }
  unfold getNetworkConnectionInfo, exec, result, try_catch. rewrite Hc.
  rewrite (bind_returned _ _ _ _ _ Hrun). unfold bind at 1 2 3. rewrite Hname.
  cbn [fst snd ret]. split; [reflexivity |]. split; [exact Hshown |].
  now apply Hother.
Qed.

Lemma connection_info_stops_at_missing_name_witness :
  let nav := navigator geolocation_timeout in
  let s := constructed (delete "networkName" network_page) 0 in
  is_Some (document s !! "connectionType") /\
  document s !! "networkName" = None /\
  shown "connectionType" (exec (getNetworkConnectionInfo nav) s) = Some "4g (wifi)" /\
  shown "connectionSpeed" (exec (getNetworkConnectionInfo nav) s) = Some "".
Proof.
  intros nav s.
  assert (H1 : is_Some (document s !! "connectionType")) by (vm_compute; eauto).
  assert (H2 : document s !! "networkName" = None) by (vm_compute; reflexivity).
  split; [exact H1 |]. split; [exact H2 |].
  pose proof (connection_info_stops_at_missing_name nav _ s eq_refl H1 H2) as (_ & H3 & H4).
  split; [exact H3 | exact H4].
Defined.

(** ** Changes of the connection *)

Lemma on_change_run c w :
  has_elements change_elements (analyzer_of w) ->
  exists s',
    on_change c w = (Monitored s' (S (change_listeners w)), Returned tt) /\
    has_elements change_elements s' /\
    notifications s' =
      notifications (analyzer_of w) ++
        [("Connection changed to " +:+ interpolated (effectiveType c), "info")].
Proof.
  intros Hel.
  assert (E1 : "connectionType" ∈ change_elements) by (unfold change_elements; repeat constructor).
  assert (E2 : "statusText" ∈ change_elements) by (unfold change_elements; repeat constructor).
  assert (E3 : "statusMessage" ∈ change_elements) by (unfold change_elements; repeat constructor).
  destruct (set_textContent_frame "connectionType"
              (or_else (effectiveType c) "Unknown" +:+ " (" +:+ or_else (type c) "Unknown" +:+ ")")
              (analyzer_of w) (Hel _ E1)) as (s1 & Hrun1 & _ & _ & Hdom1 & _ & Hn1).
  pose proof (has_elements_dom _ _ _ Hdom1 Hel) as Hel1.
  pose proof (triple_showStatus change_elements (notifications s1)
                ("Connection changed to " +:+ interpolated (effectiveType c)) "info" E2 E3 s1
                (conj Hel1 eq_refl)) as H2.
  unfold on_change, checkConnection. rewrite Hrun1. cbn [analyzer_of change_listeners].
  destruct (showStatus _ _ s1) as [s2 [[] | e]]; [| contradiction].
  exists s2. split; [reflexivity |]. destruct H2 as [Hel2 Hn2].
  split; [exact Hel2 |]. unfold keeps in Hn2. now rewrite Hn2, Hn1.
Qed.

Lemma listeners_run c m w :
  has_elements change_elements (analyzer_of w) ->
  let w' := Nat.iter m (fun w' => fst (on_change c w')) w in
  has_elements change_elements (analyzer_of w') /\
  change_listeners w' = (change_listeners w + m)%nat /\
  notifications (analyzer_of w') =
    notifications (analyzer_of w) ++
      repeat ("Connection changed to " +:+ interpolated (effectiveType c), "info") m.
Proof.
  intros Hel. induction m as [| m (Hel' & Hl & Hn)].
  - cbn. split; [exact Hel |]. split; [lia |]. now rewrite app_nil_r.
  - cbv zeta in *. rewrite Nat.iter_succ.
    destruct (on_change_run c _ Hel') as (s' & -> & Hel'' & Hn').
    cbn [fst analyzer_of change_listeners]. split; [exact Hel'' |]. split; [lia |].
    rewrite Hn', Hn, <- app_assoc. f_equal.
    cbn [repeat]. symmetry. apply repeat_cons.
Qed.

(** X22: every change of the connection doubles the number of listeners
    of the [change] event, each listener registering one more, and shows as
    many banners as there were listeners. *)
Theorem change_listeners_double (cs : list connection_t) (w : monitored) :
  has_elements change_elements (analyzer_of w) ->
  let w' := fold_left (fun w c => dispatch_change c w) cs w in
  change_listeners w' = (2 ^ length cs * change_listeners w)%nat /\
  length (notifications (analyzer_of w')) =
    (length (notifications (analyzer_of w)) + (2 ^ length cs - 1) * change_listeners w)%nat.
Proof.
  revert w. induction cs as [| c cs IH]; intros w Hel; cbn [fold_left length].
  - cbn. split; lia.
  - pose proof (listeners_run c (change_listeners w) w Hel) as (Hel' & Hl & Hn).
    fold (dispatch_change c w) in Hel', Hl, Hn.
    destruct (IH (dispatch_change c w) Hel') as [IH1 IH2]. cbv zeta in *.
    rewrite IH1, IH2, Hl, Hn, length_app, repeat_length.
    assert (0 < 2 ^ length cs)%nat by (apply Nat.neq_0_lt_0, Nat.pow_nonzero; lia).
    rewrite Nat.pow_succ_r'. split; nia.
Qed.

Lemma change_listeners_double_witness :
  let w := Monitored (constructed change_page 0) 1 in
  let w' := fold_left (fun w c => dispatch_change c w) [wifi_4g; wifi_4g; wifi_4g] w in
  has_elements change_elements (analyzer_of w) /\
  fst (checkConnection (Some wifi_4g) (Monitored (constructed change_page 0) 0)) =
    Monitored (set_document (<["connectionType" := Element "4g (wifi)" ""]> change_page)
                 (constructed change_page 0)) 1 /\
  change_listeners w' = 8%nat /\
  length (notifications (analyzer_of w')) = 7%nat.
Proof.
  intros w w'.
  assert (H : has_elements change_elements (analyzer_of w))
    by (apply has_elements_check; vm_compute; reflexivity).
  split; [exact H |]. split; [reflexivity |].
  exact (change_listeners_double [wifi_4g; wifi_4g; wifi_4g] w H).
Defined.

(** ** The capacity of the chart *)

#[export] Instance within_capacity_doc cfg : DocInv (within_capacity cfg).
Proof. intros s d H _. exact H. Qed.

#[export] Instance within_capacity_clock cfg : ClockInv (within_capacity cfg).
Proof. intros s t H _. exact H. Qed.

#[export] Instance within_capacity_notify cfg : NotifyInv (within_capacity cfg).
Proof. intros s l H. exact H. Qed.

#[export] Instance within_capacity_run cfg : RunInv (within_capacity cfg).
Proof. intros s b H. exact H. Qed.

#[export] Instance within_capacity_stats cfg : StatsInv (within_capacity cfg).
Proof. intros s st H. exact H. Qed.

Lemma limit_data_points_capacity cfg td :
  (length (timestamps td) <= S (maxDataPoints cfg))%nat ->
  (length (timestamps (limit_data_points cfg td)) <= maxDataPoints cfg)%nat.
Proof.
  intros H. unfold limit_data_points.
  destruct (maxDataPoints cfg <? length (timestamps td))%nat eqn:E.
  - cbn [timestamps]. rewrite length_shift. lia.
  - apply Nat.ltb_ge in E. exact E.
Qed.

Section Capacity.

Context (cfg : config_t) (tl : Z -> string).

Lemma capacity_updateDownloadSpeed speed :
  stable (within_capacity cfg) (updateDownloadSpeed cfg tl speed).
Proof.
  intros s H. unfold within_capacity in *.
  destruct (document s !! "downloadSpeed") as [el |] eqn:E.
  - destruct (updateDownloadSpeed_run cfg tl speed s) as [_ ->]; [eauto |].
    apply limit_data_points_capacity. cbn [timestamps push_download].
    rewrite length_app. cbn [length]. lia.
  - now rewrite updateDownloadSpeed_absent.
Qed.

Lemma capacity_updateUploadSpeed speed :
  stable (within_capacity cfg) (updateUploadSpeed cfg speed).
Proof.
  intros s H. unfold within_capacity in *.
  destruct (document s !! "uploadSpeed") as [el |] eqn:E.
  - destruct (updateUploadSpeed_run cfg speed s) as [_ ->]; [eauto |].
    apply limit_data_points_capacity. cbn [timestamps push_upload]. lia.
  - now rewrite updateUploadSpeed_absent.
Qed.

Lemma capacity_resetTestUI : stable (within_capacity cfg) resetTestUI.
Proof.
  unfold resetTestUI.
  apply stable_bind; [apply stable_set_textContent; typeclasses eauto | intros _].
  apply stable_bind; [apply stable_set_textContent; typeclasses eauto | intros _].
  apply stable_bind; [| intros _]; apply stable_modify.
  - intros s _. unfold within_capacity. cbn. lia.
  - intros s H. exact H.
Qed.

Lemma capacity_downloadLoop fuel startTime env i speeds :
  stable (within_capacity cfg) (downloadLoop cfg tl fuel startTime env i speeds).
Proof.
  pose proof (stable_updateProgress (within_capacity cfg)).
  pose proof (stable_pause (within_capacity cfg)).
  pose proof capacity_updateDownloadSpeed.
  revert i speeds. induction fuel as [| fuel IH]; intros i speeds; cbn [downloadLoop].
  - apply stable_ret.
  - unfold downloadIteration, recordDownload. stable_auto.
Qed.

Lemma capacity_uploadLoop fuel startTime env i speeds :
  stable (within_capacity cfg) (uploadLoop cfg fuel startTime env i speeds).
Proof.
  pose proof (stable_updateProgress (within_capacity cfg)).
  pose proof (stable_pause (within_capacity cfg)).
  pose proof capacity_updateUploadSpeed.
  revert i speeds. induction fuel as [| fuel IH]; intros i speeds; cbn [uploadLoop].
  - apply stable_ret.
  - unfold uploadIteration, recordUpload. stable_auto.
Qed.

Lemma capacity_startSpeedTest env : stable (within_capacity cfg) (startSpeedTest cfg tl env).
Proof.
  pose proof capacity_downloadLoop. pose proof capacity_uploadLoop.
  pose proof capacity_updateDownloadSpeed. pose proof capacity_updateUploadSpeed.
  pose proof (stable_updateProgress (within_capacity cfg)).
  pose proof (stable_pause (within_capacity cfg)).
  pose proof (stable_updateStats (within_capacity cfg)).
  pose proof (stable_showStatus (within_capacity cfg)).
  pose proof (stable_stopSpeedTest (within_capacity cfg)).
  pose proof capacity_resetTestUI.
  unfold startSpeedTest, test_sequence, runDownloadTest, runUploadTest,
    showProgressContainer, updateButtonStates.
  stable_auto.
Qed.

End Capacity.

(** X23: from a fresh analyzer, after any sequence of events, the labels
    and the download series hold at most [maxDataPoints] values. *)
Theorem download_series_within_capacity cfg tl evs page t0 :
  let s := after cfg tl evs (constructed page t0) in
  (length (timestamps (testData s)) <= maxDataPoints cfg)%nat /\
  (length (download (testData s)) <= maxDataPoints cfg)%nat.
Proof.
  cbv zeta.
  assert (H : within_capacity cfg (after cfg tl evs (constructed page t0))).
  { generalize (constructed page t0), (Nat.le_0_l (maxDataPoints cfg) : within_capacity cfg (constructed page t0)).
    induction evs as [| ev evs IH]; intros s Hs; [exact Hs |].
    rewrite after_cons. apply IH.
    destruct ev as [env | | env | speed | speed |]; cbn [handle].
    - now apply capacity_startSpeedTest.
    - now apply (stable_stopSpeedTest (within_capacity cfg)).
    - now apply (stable_loadNetworkInfo (within_capacity cfg)).
    - now apply capacity_updateDownloadSpeed.
    - now apply capacity_updateUploadSpeed.
    - now apply capacity_resetTestUI. }
  split; [exact H |].
  assert (Ha : aligned (after cfg tl evs (constructed page t0))).
  { apply stable_after; try typeclasses eauto. repeat split; constructor. }
  destruct Ha as [Ha _]. unfold within_capacity in H. lia.
Qed.
